(** * Verification of [docs/build_documentation.py]

    A shallow embedding of the [DocumentationBuilder] class and the proofs of
    the properties its specification states.

    Modelling conventions.
    - A Python [str] is a [string]: the sequence of bytes of its UTF-8
      encoding.  Substring search, splitting at a newline, prefix tests and
      the three regular expressions of the script only look for ASCII
      delimiters, so they give the same answers on the bytes as on the code
      points.
    - A [pathlib.Path] is the list of its components, relative to the current
      directory; [Path(.)] is the empty list.
    - The file system is a finite map from paths to the text of the file, as
      [read_text] returns it (newlines already translated).  Directories are
      implicit: a directory exists when an entry of the map lies below it.
      An empty directory is written as an entry with the empty name below
      it, a name that no file has and that no pattern of the script matches.
      The parent of a directory that the script creates is taken to exist.
    - The outcome of the external linter is an input of the run.
    - A method that reads or writes files takes the file system and returns
      the new one; a method that can raise returns an [option]. *)

From Stdlib Require Import Ascii.
From stdpp Require Import gmap strings list fin_maps pretty.

(** ** Python string primitives *)

Module Py.

Definition nl_char : ascii := "010"%char.
Definition nl : string := String nl_char EmptyString.

(** [s.startswith(p)] *)
Fixpoint startswith (p s : string) : bool :=
  match p with
  | EmptyString => true
  | String a p' =>
      match s with
      | EmptyString => false
      | String b s' => if Ascii.eqb a b then startswith p' s' else false
      end
  end.

(** [sub in s] *)
Fixpoint contains (sub s : string) : bool :=
  startswith sub s ||
  match s with
  | EmptyString => false
  | String _ s' => contains sub s'
  end.

(** The number of positions of [s] at which [sub] starts.  The script does
    not count; the statements about a section inserted once do. *)
Fixpoint occurrences (sub s : string) : nat :=
  (if startswith sub s then 1 else 0) +
  match s with
  | EmptyString => 0
  | String _ s' => occurrences sub s'
  end.

(** [s.split('\n')]: never empty, one more element than there are newlines. *)
Fixpoint split_nl (s : string) : list string :=
  match s with
  | EmptyString => [EmptyString]
  | String c s' =>
      if Ascii.eqb c nl_char then EmptyString :: split_nl s'
      else match split_nl s' with
           | [] => [String c EmptyString]
           | l :: ls => String c l :: ls
           end
  end.

(** [sep.join(ls)] *)
Fixpoint join (sep : string) (ls : list string) : string :=
  match ls with
  | [] => EmptyString
  | [l] => l
  | l :: ls' => l +:+ sep +:+ join sep ls'
  end.

(** [ls.insert(i, x)] for [0 <= i]: past the end it appends. *)
Fixpoint list_insert_at {A} (i : nat) (x : A) (ls : list A) : list A :=
  match i, ls with
  | O, _ => x :: ls
  | S _, [] => [x]
  | S i', l :: ls' => l :: list_insert_at i' x ls'
  end.

(** [s.endswith(suf)] *)
Fixpoint endswith (suf s : string) : bool :=
  String.eqb s suf ||
  match s with
  | EmptyString => false
  | String _ s' => endswith suf s'
  end.

(** [s.removeprefix(p)], telling whether the prefix was there. *)
Fixpoint drop_prefix (p s : string) : option string :=
  match p with
  | EmptyString => Some s
  | String a p' =>
      match s with
      | EmptyString => None
      | String b s' => if Ascii.eqb a b then drop_prefix p' s' else None
      end
  end.

Definition map_chars (f : ascii -> ascii) : string -> string :=
  fix go s :=
    match s with
    | EmptyString => EmptyString
    | String c s' => String (f c) (go s')
    end.

(** [s.replace(a, b)] for single characters [a] and [b]. *)
Definition replace_char (a b : ascii) : string -> string :=
  map_chars (fun c => if Ascii.eqb c a then b else c).

(** Case mapping, on ASCII.  The script applies [lower] and [title] to file
    names.  On a string of ASCII characters the functions below are Python's.
    A byte above 127 is left as it is and counts as uncased, which is not what
    Python does to a cased letter outside ASCII: a statement that gives the
    value of [lower] or [title] is made for ASCII names. *)
Definition is_upper (c : ascii) : bool :=
  let n := nat_of_ascii c in (65 <=? n)%nat && (n <=? 90)%nat.
Definition is_lower (c : ascii) : bool :=
  let n := nat_of_ascii c in (97 <=? n)%nat && (n <=? 122)%nat.
Definition is_cased (c : ascii) : bool := is_upper c || is_lower c.
Definition to_lower (c : ascii) : ascii :=
  if is_upper c then ascii_of_nat (nat_of_ascii c + 32) else c.
Definition to_upper (c : ascii) : ascii :=
  if is_lower c then ascii_of_nat (nat_of_ascii c - 32) else c.

(** [s.lower()] *)
Definition lower : string -> string := map_chars to_lower.

(** [s.title()]: a cased character is upper-cased when the character before
    it is not cased, lower-cased otherwise. *)
Fixpoint title_from (previous_is_cased : bool) (s : string) : string :=
  match s with
  | EmptyString => EmptyString
  | String c s' =>
      String (if previous_is_cased then to_lower c else to_upper c)
             (title_from (is_cased c) s')
  end.
Definition title : string -> string := title_from false.

(** [s.split('_', 1)[1] if '_' in s else s] *)
Fixpoint after_first_underscore (s : string) : option string :=
  match s with
  | EmptyString => None
  | String c s' => if Ascii.eqb c "_"%char then Some s' else after_first_underscore s'
  end.

(** White space, as [str.isspace] decides it, in UTF-8: the ten ASCII
    characters U+0009..U+000D, U+001C..U+0020, then U+0085, U+00A0, U+1680,
    U+2000..U+200A, U+2028, U+2029, U+202F, U+205F and U+3000. *)
Definition space1 (a : ascii) : bool :=
  let n := nat_of_ascii a in
  ((9 <=? n)%nat && (n <=? 13)%nat) || ((28 <=? n)%nat && (n <=? 32)%nat).
Definition space2 (a b : ascii) : bool :=
  let n := nat_of_ascii b in
  (nat_of_ascii a =? 194)%nat && ((n =? 133)%nat || (n =? 160)%nat).
Definition space3 (a b c : ascii) : bool :=
  let x := nat_of_ascii a in
  let y := nat_of_ascii b in
  let z := nat_of_ascii c in
  ((x =? 225)%nat && (y =? 154)%nat && (z =? 128)%nat) ||
  ((x =? 226)%nat && (y =? 128)%nat &&
     (((128 <=? z)%nat && (z <=? 138)%nat) || (z =? 168)%nat || (z =? 169)%nat
      || (z =? 175)%nat)) ||
  ((x =? 226)%nat && (y =? 129)%nat && (z =? 159)%nat) ||
  ((x =? 227)%nat && (y =? 128)%nat && (z =? 128)%nat).

(** [s.lstrip()] *)
Fixpoint lstrip (s : string) : string :=
  match s with
  | EmptyString => EmptyString
  | String a s1 =>
      if space1 a then lstrip s1
      else match s1 with
           | EmptyString => s
           | String b s2 =>
               if space2 a b then lstrip s2
               else match s2 with
                    | EmptyString => s
                    | String c s3 => if space3 a b c then lstrip s3 else s
                    end
           end
  end.

(** The same scan on the reversed text, where the bytes of a character come
    last byte first. *)
Fixpoint lstrip_rev (s : string) : string :=
  match s with
  | EmptyString => EmptyString
  | String a s1 =>
      if space1 a then lstrip_rev s1
      else match s1 with
           | EmptyString => s
           | String b s2 =>
               if space2 b a then lstrip_rev s2
               else match s2 with
                    | EmptyString => s
                    | String c s3 => if space3 c b a then lstrip_rev s3 else s
                    end
           end
  end.

(** [s.strip()] *)
Definition strip (s : string) : string :=
  String.rev (lstrip_rev (String.rev (lstrip s))).

(** [re.search(r'^P(.+)$', content, re.MULTILINE)] for a literal prefix [P]:
    with [re.MULTILINE] the anchors delimit the pieces between newlines and
    the dot matches every character but the newline, so the leftmost match is
    the first line that starts with [P] and goes on for at least one more
    character; group 1 is the rest of that line. *)
Definition line_capture (P line : string) : option string :=
  match drop_prefix P line with
  | Some (String c rest) => Some (String c rest)
  | _ => None
  end.

Fixpoint first_capture (P : string) (lines : list string) : option string :=
  match lines with
  | [] => None
  | l :: ls =>
      match line_capture P l with
      | Some g => Some g
      | None => first_capture P ls
      end
  end.

Definition re_search_line (P content : string) : option string :=
  first_capture P (split_nl content).

(** The maximal run of characters other than [stop] at the head of [s], and
    what follows the [stop] that ends it; [None] when [s] has no [stop]. *)
Fixpoint span_until (stop : ascii) (s : string) : option (string * string) :=
  match s with
  | EmptyString => None
  | String c s' =>
      if Ascii.eqb c stop then Some (EmptyString, s')
      else match span_until stop s' with
           | Some (run, rest) => Some (String c run, rest)
           | None => None
           end
  end.

(** One attempt of the link pattern of [validate_internal_links] at the head
    of [s]: an opening bracket, one or more characters that are not a closing
    bracket, a closing bracket, an opening parenthesis, one or more characters
    that are not a closing parenthesis, a closing parenthesis.  Both classes
    exclude their own terminator, so the greedy runs are the only way to
    match.  The result is group 1, group 2 and the length of the match. *)
Definition match_link (s : string) : option (string * string * nat) :=
  match s with
  | String c s1 =>
      if Ascii.eqb c "["%char then
        match span_until "]"%char s1 with
        | Some (String t0 t, String p s2) =>
            if Ascii.eqb p "("%char then
              match span_until ")"%char s2 with
              | Some (String u0 u, _) =>
                  Some (String t0 t, String u0 u,
                        String.length (String t0 t) + String.length (String u0 u) + 4)
              | _ => None
              end
            else None
        | _ => None
        end
      else None
  | EmptyString => None
  end.

(** [re.findall] with that pattern: the matches from left to right, the scan
    resuming after the end of each match.  [skip] counts the characters of
    the last match that are still to be passed. *)
Fixpoint findall_links_from (skip : nat) (s : string) : list (string * string) :=
  match s with
  | EmptyString => []
  | String _ s' =>
      match skip with
      | S k => findall_links_from k s'
      | O =>
          match match_link s with
          | Some (t, u, n) => (t, u) :: findall_links_from (n - 1) s'
          | None => findall_links_from 0 s'
          end
      end
  end.

Definition findall_links : string -> list (string * string) := findall_links_from 0.

(** [d[k] = v] on a dictionary kept in insertion order. *)
Fixpoint dict_set (k v : string) (d : list (string * string)) : list (string * string) :=
  match d with
  | [] => [(k, v)]
  | (k', v') :: d' => if String.eqb k' k then (k, v) :: d' else (k', v') :: dict_set k v d'
  end.

(** [d.get(k)] *)
Fixpoint dict_get {V} (k : string) (d : list (string * V)) : option V :=
  match d with
  | [] => None
  | (k', v) :: d' => if String.eqb k' k then Some v else dict_get k d'
  end.

End Py.

(** ** Paths *)

Abbreviation Path := (list string).
Abbreviation FS := (gmap (list string) string).

Module Path.

(** [str(p)] *)
Definition str (p : Path) : string :=
  match p with
  | [] => "."
  | _ => Py.join "/" p
  end.

(** [p.name] *)
Definition name (p : Path) : string := default "" (last p).

Fixpoint rfind_dot (s : string) : option nat :=
  match s with
  | EmptyString => None
  | String c s' =>
      match rfind_dot s' with
      | Some i => Some (S i)
      | None => if Ascii.eqb c "."%char then Some 0 else None
      end
  end.

(** [p.stem]: the name without its last suffix; a dot that opens or closes
    the name does not start a suffix. *)
Definition stem (p : Path) : string :=
  let n := name p in
  match rfind_dot n with
  | Some i =>
      if (0 <? i)%nat && (i <? String.length n - 1)%nat then String.substring 0 i n else n
  | None => n
  end.

(** [p.relative_to(base)]; [None] stands for the [ValueError]. *)
Fixpoint relative_to (base p : Path) : option Path :=
  match base with
  | [] => Some p
  | b :: base' =>
      match p with
      | [] => None
      | c :: p' => if String.eqb b c then relative_to base' p' else None
      end
  end.

(** The order of [sorted] on paths: component by component. *)
Fixpoint compare (p q : Path) : comparison :=
  match p, q with
  | [], [] => Eq
  | [], _ :: _ => Lt
  | _ :: _, [] => Gt
  | a :: p', b :: q' =>
      match String.compare a b with
      | Eq => compare p' q'
      | c => c
      end
  end.

Definition leb (p q : Path) : bool :=
  match compare p q with Gt => false | _ => true end.

Fixpoint insert_sorted (p : Path) (l : list Path) : list Path :=
  match l with
  | [] => [p]
  | q :: l' => if leb p q then p :: l else q :: insert_sorted p l'
  end.

(** [sorted(l)] *)
Definition sorted (l : list Path) : list Path := foldr insert_sorted [] l.

End Path.

(** ** The builder *)

(** The object keeps [base_path]; the other paths derive from it. *)
Record DocumentationBuilder := { base_path : Path }.

Definition docs_path (self : DocumentationBuilder) : Path := base_path self ++ ["docs"].
Definition workflows_path (self : DocumentationBuilder) : Path := docs_path self ++ ["workflows"].
Definition source_workflows (self : DocumentationBuilder) : Path := base_path self ++ ["workflows"].
Definition repo_url : string := "https://github.com/Fabbiologia/vibe-coding-for-ecology".

(** [self.workflow_categories], in the order of the literal. *)
Definition workflow_categories : list (string * string) :=
  [("00_agentic_prompt_templates", "🤖 Agentic AI Templates");
   ("01_data_wrangling", "🧹 Data Wrangling");
   ("02_visualization", "📊 Visualization");
   ("03_univariate_models", "📈 Univariate Models");
   ("04_multivariate_analysis", "🔬 Multivariate Analysis");
   ("05_diversity_metrics", "🌿 Diversity Metrics");
   ("06_mixed_effects_models", "🔄 Mixed Effects Models");
   ("07_time_series_analysis", "⏰ Time Series Analysis");
   ("08_spatial_analysis", "🗺️ Spatial Analysis");
   ("09_species_distribution", "🦋 Species Distribution");
   ("10_population_simulation", "🔢 Population Simulation")].

(** The [file_map] dictionary: four keys, each a list of destination paths. *)
Record FileMap := {
  workflows : list Path;
  examples : list Path;
  rules : list Path;
  main : list Path
}.

Definition empty_file_map : FileMap :=
  {| workflows := []; examples := []; rules := []; main := [] |}.

(** [file_map.values()], flattened as [validate_internal_links] does. *)
Definition all_listed (file_map : FileMap) : list Path :=
  workflows file_map ++ examples file_map ++ rules file_map ++ main file_map.

(** *** Files and directories *)

(** [p.is_file()] *)
Definition is_file (fs : FS) (p : Path) : bool := bool_decide (is_Some (fs !! p)).

(** [p.is_dir()]: some entry lies below [p]. *)
Definition is_dir (fs : FS) (p : Path) : bool :=
  existsb
    (fun k => match Path.relative_to p k with
              | Some (_ :: _) => true
              | _ => false
              end)
    (map_to_list fs).*1.

(** A file stands where a directory on the way to [p] should be. *)
Definition file_above (fs : FS) (p : Path) : bool :=
  existsb (fun i => is_file fs (take i p)) (seq 0 (length p)).

(** [p.mkdir(exist_ok=True)]: raises when [p] or a path above it is a file;
    the map has nothing to record for the directory itself. *)
Definition mkdir (p : Path) (fs : FS) : option FS :=
  if file_above fs p || is_file fs p then None else Some fs.

(** [p.write_text(content)] and the [open] for writing in [shutil]: raises
    when [p] is a directory or a path above it is a file. *)
Definition write_text (p : Path) (content : string) (fs : FS) : option FS :=
  if file_above fs p || is_dir fs p then None else Some (<[p := content]> fs).

(** [DocumentationBuilder.__init__]: the two [mkdir] calls can raise. *)
Definition DocumentationBuilder_init (base : Path) (fs : FS)
    : option DocumentationBuilder :=
  let self := {| base_path := base |} in
  fs ← mkdir (docs_path self) fs;
  fs ← mkdir (workflows_path self) fs;
  Some self.

(** *** Discovery *)

(** [directory.glob] with the pattern [*.md]: the entries right in
    [directory] whose name ends in [.md], files and directories alike, each
    once.  The order of a directory scan is the file system's; the model
    takes the enumeration of the map. *)
Definition glob_md (directory : Path) (fs : FS) : list Path :=
  remove_dups
    (omap
       (fun k => match Path.relative_to directory k with
                 | Some (n :: _) =>
                     if Py.endswith ".md" n then Some (directory ++ [n]) else None
                 | _ => None
                 end)
       (map_to_list fs).*1).

(** [directory.glob] with the recursive pattern: the same at every depth
    below [directory].  A file of the map gives itself and every directory
    on the way to it. *)
Definition rglob_md (directory : Path) (fs : FS) : list Path :=
  remove_dups
    (flat_map
       (fun k => match Path.relative_to directory k with
                 | Some rel =>
                     omap
                       (fun i => if Py.endswith ".md" (Path.name (take i rel))
                                 then Some (directory ++ take i rel) else None)
                       (seq 1 (length rel))
                 | None => []
                 end)
       (map_to_list fs).*1).

(** [find_all_markdown_files].  A directory exists when a file lies below
    it, and an absent directory has no match, so the two [exists] tests do
    not show. *)
Definition find_all_markdown_files (self : DocumentationBuilder) (fs : FS) : list Path :=
  glob_md (base_path self) fs
  ++ rglob_md (source_workflows self) fs
  ++ flat_map (fun subdir => rglob_md (base_path self ++ [subdir]) fs)
       ["examples"; "rules"; "manuscript"].

(** *** Copy and categorize *)

(** [shutil.copy2(src, dst)]: a directory as [dst] receives the copy under
    the name of [src].  It raises when [src] is missing or is a directory,
    when source and destination are one file, and when the destination cannot
    be written. *)
Definition copy2 (src dst : Path) (fs : FS) : option FS :=
  content ← fs !! src;
  let dst := if is_dir fs dst then dst ++ [Path.name src] else dst in
  if bool_decide (src = dst) then None else write_text dst content fs.

(** The body of the loop of [copy_and_organize_files]. *)
Definition copy_one (self : DocumentationBuilder) (file_path : Path)
    (st : FileMap * FS) : option (FileMap * FS) :=
  let '(file_map, fs) := st in
  relative_path ← Path.relative_to (base_path self) file_path;
  if Py.contains "workflows" (Path.str relative_path) then
    let dest_path := workflows_path self ++ [Path.name relative_path] in
    fs' ← copy2 file_path dest_path fs;
    Some ({| workflows := workflows file_map ++ [dest_path];
             examples := examples file_map;
             rules := rules file_map;
             main := main file_map |}, fs')
  else if Py.contains "examples" (Path.str relative_path) then
    let examples_dir := docs_path self ++ ["examples"] in
    fs ← mkdir examples_dir fs;
    let dest_path := examples_dir ++ [Path.name relative_path] in
    fs' ← copy2 file_path dest_path fs;
    Some ({| workflows := workflows file_map;
             examples := examples file_map ++ [dest_path];
             rules := rules file_map;
             main := main file_map |}, fs')
  else if Py.contains "rules" (Path.str relative_path) then
    let rules_dir := docs_path self ++ ["rules"] in
    fs ← mkdir rules_dir fs;
    let dest_path := rules_dir ++ [Path.name relative_path] in
    fs' ← copy2 file_path dest_path fs;
    Some ({| workflows := workflows file_map;
             examples := examples file_map;
             rules := rules file_map ++ [dest_path];
             main := main file_map |}, fs')
  else if bool_decide (Path.name file_path ∈ ["README.md"; "CODE_OF_CONDUCT.md"]) then
    let dest_path := docs_path self ++ [Path.name file_path] in
    fs' ← copy2 file_path dest_path fs;
    Some ({| workflows := workflows file_map;
             examples := examples file_map;
             rules := rules file_map;
             main := main file_map ++ [dest_path] |}, fs')
  else Some (file_map, fs).

Fixpoint copy_all (self : DocumentationBuilder) (all_files : list Path)
    (st : FileMap * FS) : option (FileMap * FS) :=
  match all_files with
  | [] => Some st
  | file_path :: rest => st' ← copy_one self file_path st; copy_all self rest st'
  end.

(** [copy_and_organize_files]: the files are listed first, then copied one by
    one. *)
Definition copy_and_organize_files (self : DocumentationBuilder) (fs : FS)
    : option (FileMap * FS) :=
  copy_all self (find_all_markdown_files self fs) (empty_file_map, fs).

(** *** Badges *)

(** The text whose presence stops [add_reproduction_badges]. *)
Definition badge_sentinel : string :=
  "![Reproducible](https://img.shields.io/badge/Reproducible-Yes-brightgreen)".

(** The badge block of [add_reproduction_badges] (source lines 134 to 140). *)
Definition badge_section : string :=
  Py.join Py.nl
    ["";
     "[![Reproducible](https://img.shields.io/badge/Reproducible-Yes-brightgreen)](https://github.com/Fabbiologia/vibe-coding-for-ecology)";
     "[![R](https://img.shields.io/badge/R-4.0+-blue)](https://www.r-project.org/)";
     "[![Tidyverse](https://img.shields.io/badge/Tidyverse-Compatible-orange)](https://www.tidyverse.org/)";
     "[![License](https://img.shields.io/badge/License-MIT-yellow.svg)](https://opensource.org/licenses/MIT)";
     "";
     ""].

(** The index of the first line that starts with a hash sign and lies among
    the first ten; the loop stops there. *)
Fixpoint first_heading (i : nat) (lines : list string) : option nat :=
  match lines with
  | [] => None
  | line :: rest =>
      if Py.startswith "#" line && (i <? 10)%nat then Some i
      else first_heading (S i) rest
  end.

(** What [add_reproduction_badges] writes back for a text without the
    sentinel. *)
Definition with_badges (content : string) : string :=
  let lines := Py.split_nl content in
  let lines :=
    match first_heading 0 lines with
    | Some i => Py.list_insert_at (i + 1) badge_section lines
    | None => lines
    end in
  Py.join Py.nl lines.

(** [add_reproduction_badges] *)
Definition add_reproduction_badges (file_path : Path) (fs : FS) : FS :=
  match fs !! file_path with
  | None => fs
  | Some content =>
      if Py.contains badge_sentinel content then fs
      else <[file_path := with_badges content]> fs
  end.

(** *** Categories *)

(** The loop over [self.workflow_categories.keys()] that both
    [determine_category] and [find_related_workflows] run: the first key, in
    the order of the table, that occurs in the text. *)
Fixpoint first_key_in (keys : list string) (file_str : string) : option string :=
  match keys with
  | [] => None
  | category_key :: rest =>
      if Py.contains category_key file_str then Some category_key
      else first_key_in rest file_str
  end.

(** [determine_category] *)
Definition determine_category (file_path : Path) : string :=
  let file_str := Path.str file_path in
  match first_key_in workflow_categories.*1 file_str with
  | Some category_key => category_key
  | None =>
      let name := Py.lower (Path.stem file_path) in
      let has w := Py.contains w name in
      if has "data" || has "wrangle" || has "tidy" then "01_data_wrangling"
      else if has "viz" || has "plot" || has "ggplot" then "02_visualization"
      else if has "model" || has "lm" || has "glm" then "03_univariate_models"
      else if has "pca" || has "ordination" || has "multivariate" then "04_multivariate_analysis"
      else if has "diversity" || has "shannon" || has "richness" then "05_diversity_metrics"
      else if has "mixed" || has "lmm" || has "glmm" then "06_mixed_effects_models"
      else if has "spatial" || has "gis" || has "raster" then "08_spatial_analysis"
      else if has "species" || has "distribution" || has "sdm" then "09_species_distribution"
      else if has "time" || has "series" || has "temporal" then "07_time_series_analysis"
      else if has "population" || has "simulation" || has "agent" then "10_population_simulation"
      else "00_other"
  end.

(** *** Cross-references *)

Definition related_header : string := "## Related Workflows".

(** The [relationships] table of [find_related_workflows]. *)
Definition relationships : list (string * list string) :=
  [("data_wrangling", ["visualization"; "univariate"; "multivariate"]);
   ("visualization", ["data_wrangling"; "univariate"; "multivariate"]);
   ("univariate", ["data_wrangling"; "visualization"; "multivariate"]);
   ("multivariate", ["data_wrangling"; "visualization"; "diversity"]);
   ("diversity", ["multivariate"; "spatial"; "mixed_effects"]);
   ("mixed_effects", ["univariate"; "diversity"; "population"]);
   ("spatial", ["diversity"; "species_distribution"; "time_series"]);
   ("species_distribution", ["spatial"; "multivariate"; "mixed_effects"]);
   ("time_series", ["spatial"; "mixed_effects"; "population"]);
   ("population", ["mixed_effects"; "time_series"; "species_distribution"])].

(** The workflow type of a path: the first category key that occurs in it,
    without its numeric prefix; no key, no type. *)
Definition current_type (file_path : Path) : option string :=
  category ← first_key_in workflow_categories.*1 (Path.str file_path);
  Some (default category (Py.after_first_underscore category)).

(** The two nested loops that fill [related]. *)
Definition collect_related (related_types : list string)
    (workflow_links : list (string * string)) : list (string * string) :=
  foldl
    (fun related related_type =>
       foldl
         (fun related '(workflow_name, workflow_path) =>
            if Py.contains related_type (Py.lower workflow_name)
            then Py.dict_set (Py.title (Py.replace_char "_" " " workflow_name))
                   workflow_path related
            else related)
         related workflow_links)
    [] related_types.

(** What [find_related_workflows] returns, once the file is read: the links
    of the types related to the type of the path, when the path has a type
    and the table knows it. *)
Definition related_for (file_path : Path) (workflow_links : list (string * string))
    : list (string * string) :=
  match current_type file_path with
  | Some (String c t) =>
      match Py.dict_get (String c t) relationships with
      | Some related_types => collect_related related_types workflow_links
      | None => []
      end
  | _ => []
  end.

(** [find_related_workflows]; it reads the file first, so a missing file
    raises.  The text it reads is not used afterwards. *)
Definition find_related_workflows (file_path : Path)
    (workflow_links : list (string * string)) (fs : FS)
    : option (list (string * string)) :=
  content ← fs !! file_path;
  Some (related_for file_path workflow_links).

(** The line added for one related workflow, with the newline that ends it. *)
Definition link_line (entry : string * string) : string :=
  "- [" +:+ entry.1 +:+ "](" +:+ entry.2 +:+ ")" +:+ Py.nl.

(** The section that [add_cross_references_to_file] builds. *)
Definition cross_ref_section (related_workflows : list (string * string)) : string :=
  foldl (fun section entry => section +:+ link_line entry)
    (Py.nl +:+ related_header +:+ Py.nl +:+ Py.nl)
    related_workflows
  +:+ Py.nl.

(** The loop from the last line to the first: the greatest index of a line
    that starts a second-level heading and mentions Summary. *)
Fixpoint last_summary (lines : list string) : option nat :=
  match lines with
  | [] => None
  | line :: rest =>
      match last_summary rest with
      | Some i => Some (S i)
      | None =>
          if Py.startswith "## " line && Py.contains "Summary" line then Some 0 else None
      end
  end.

(** What [add_cross_references_to_file] writes back: the section goes before
    the last Summary heading, or at the end of the text when there is none. *)
Definition with_cross_references (content : string)
    (related_workflows : list (string * string)) : string :=
  let cross_ref_section := cross_ref_section related_workflows in
  let lines := Py.split_nl content in
  match last_summary lines with
  | Some i => Py.join Py.nl (Py.list_insert_at i cross_ref_section lines)
  | None => content +:+ cross_ref_section
  end.

(** [add_cross_references_to_file] *)
Definition add_cross_references_to_file (file_path : Path)
    (workflow_links : list (string * string)) (fs : FS) : option FS :=
  match fs !! file_path with
  | None => Some fs
  | Some content =>
      if Py.contains related_header content then Some fs
      else
        related_workflows ← find_related_workflows file_path workflow_links fs;
        match related_workflows with
        | [] => Some fs
        | _ => Some (<[file_path := with_cross_references content related_workflows]> fs)
        end
  end.

(** The first loop of [create_cross_references]. *)
Definition build_workflow_links (workflow_files : list Path) : list (string * string) :=
  foldl
    (fun workflow_links workflow_file =>
       match Py.dict_get (Path.stem workflow_file) workflow_links with
       | Some _ => workflow_links
       | None =>
           Py.dict_set (Path.stem workflow_file)
             ("workflows/" +:+ Path.name workflow_file) workflow_links
       end)
    [] workflow_files.

Fixpoint add_cross_references_to_all (workflow_files : list Path)
    (workflow_links : list (string * string)) (fs : FS) : option FS :=
  match workflow_files with
  | [] => Some fs
  | workflow_file :: rest =>
      fs' ← add_cross_references_to_file workflow_file workflow_links fs;
      add_cross_references_to_all rest workflow_links fs'
  end.

(** [create_cross_references] *)
Definition create_cross_references (file_map : FileMap) (fs : FS) : option FS :=
  add_cross_references_to_all (workflows file_map)
    (build_workflow_links (workflows file_map)) fs.

(** *** Titles *)

Definition filename_title (file_path : Path) : string :=
  Py.title (Py.replace_char "_" " " (Path.stem file_path)).

(** The prefixes of the three patterns of [extract_workflow_title], in the
    order of the list. *)
Definition title_patterns : list string :=
  ["# Vibe Workflow: "; "**Goal:** "; "# "].

(** The loop over the patterns: the first one that matches gives the title,
    stripped. *)
Fixpoint first_pattern_match (patterns : list string) (content : string) : option string :=
  match patterns with
  | [] => None
  | pattern :: rest =>
      match Py.re_search_line pattern content with
      | Some group => Some (Py.strip group)
      | None => first_pattern_match rest content
      end
  end.

(** [extract_workflow_title] *)
Definition extract_workflow_title (file_path : Path) (fs : FS) : string :=
  match fs !! file_path with
  | None => filename_title file_path
  | Some content =>
      default (filename_title file_path) (first_pattern_match title_patterns content)
  end.

(** [extract_title] *)
Definition extract_title (file_path : Path) (fs : FS) : string :=
  match fs !! file_path with
  | None => filename_title file_path
  | Some content =>
      default (filename_title file_path) (first_pattern_match ["# "] content)
  end.

(** *** The index *)

(** The opening of the index (source lines 238 to 257). *)
Definition index_header : string :=
  Py.join Py.nl
    ["# 🌱 Vibe Coding for Ecology: Documentation Index";
     "";
     "Welcome to the complete documentation for the **Vibe Coding for Ecology** project! This index provides organized access to all workflows, examples, and guidelines for agentic AI-assisted ecological analysis.";
     "";
     "[![Reproducible](https://img.shields.io/badge/Reproducible-Yes-brightgreen)](" +:+ repo_url +:+ ")";
     "[![R](https://img.shields.io/badge/R-4.0+-blue)](https://www.r-project.org/)";
     "[![Tidyverse](https://img.shields.io/badge/Tidyverse-Compatible-orange)](https://www.tidyverse.org/)";
     "[![License](https://img.shields.io/badge/License-MIT-yellow.svg)](https://opensource.org/licenses/MIT)";
     "";
     "## 🎯 Quick Start";
     "";
     "1. **For AI Agents**: Copy any workflow template and paste into your AI coding environment";
     "2. **For Researchers**: Clone the repository and follow the structured workflows";
     "3. **For Contributors**: Check the rules and contributing guidelines";
     "";
     "## 📚 Documentation Structure";
     "";
     "### 🔬 Workflow Categories";
     "";
     ""].

(** Source lines 277 to 281. *)
Definition index_examples_heading : string :=
  Py.join Py.nl
    ["";
     "";
     "### 📖 Examples & Templates";
     "";
     ""].

(** Source lines 288 to 292. *)
Definition index_rules_heading : string :=
  Py.join Py.nl
    ["";
     "";
     "### 📋 Rules & Guidelines";
     "";
     ""].

(** Source lines 299 to 303. *)
Definition index_main_heading : string :=
  Py.join Py.nl
    ["";
     "";
     "### 🏠 Main Documentation";
     "";
     ""].

(** The closing block of the index (source lines 310 to 363). *)
Definition index_footer : string :=
  Py.join Py.nl
    ["";
     "";
     "## 🔄 Workflow Dependencies";
     "";
     "The workflows are designed to build upon each other:";
     "";
     "```mermaid";
     "graph TD";
     "    A[00_agentic_prompt_templates] --> B[01_data_wrangling]";
     "    B --> C[02_visualization]";
     "    B --> D[03_univariate_models]";
     "    B --> E[04_multivariate_analysis]";
     "    E --> F[05_diversity_metrics]";
     "    D --> G[06_mixed_effects_models]";
     "    F --> H[08_spatial_analysis]";
     "    H --> I[09_species_distribution]";
     "    G --> J[10_population_simulation]";
     "    H --> K[07_time_series_analysis]";
     "```";
     "";
     "## 🧪 Quality Assurance";
     "";
     "All documentation has been:";
     "- ✅ **Linted** with markdownlint for consistency";
     "- ✅ **Cross-referenced** for workflow interconnections";
     "- ✅ **Badge-enhanced** for reproducibility tracking";
     "- ✅ **Organized** in logical categories";
     "- ✅ **Validated** for internal link integrity";
     "";
     "## 🚀 Getting Started";
     "";
     "### For AI Agents";
     "1. Browse the workflow categories above";
     "2. Copy the relevant workflow template";
     "3. Paste into your AI coding environment (Claude, ChatGPT, Cursor, etc.)";
     "4. Adapt to your specific research question";
     "";
     "### For Manual Use";
     "1. Clone the repository: `git clone " +:+ repo_url +:+ "`";
     "2. Navigate to the workflow of interest";
     "3. Follow the 5-part structure: 🪴 Setup → 🧹 Wrangle → 🔬 Analyze → 📊 Visualize → 🧬 Reproduce";
     "";
     "## 📞 Support";
     "";
     "- **Issues**: Report bugs or request features on [GitHub Issues](" +:+ repo_url +:+ "/issues)";
     "- **Discussions**: Join the conversation on [GitHub Discussions](" +:+ repo_url +:+ "/discussions)";
     "- **Contributing**: See [CONTRIBUTING.md](rules/CONTRIBUTING.md)";
     "";
     "---";
     "";
     "**Ready to start coding with vibe?** Choose your workflow and feel the difference that clarity and intention make in your analysis!";
     "";
     "*Generated automatically by build_documentation.py*";
     ""].

(** The loop over the sorted workflow files: a heading each time the category
    differs from the one before, then the link.  [current_category] starts
    as [None]. *)
Definition index_workflow_lines (workflow_files : list Path) (fs : FS)
    (index_content : string) : string :=
  (foldl
     (fun '(index_content, current_category) workflow_file =>
        let category := determine_category workflow_file in
        let '(index_content, current_category) :=
          if bool_decide (Some category = current_category)
          then (index_content, current_category)
          else
            let category_name := default category (Py.dict_get category workflow_categories) in
            (index_content +:+ Py.nl +:+ "#### " +:+ category_name +:+ Py.nl +:+ Py.nl,
             Some category) in
        let workflow_title := extract_workflow_title workflow_file fs in
        (index_content +:+ "- [" +:+ workflow_title +:+ "](workflows/"
           +:+ Path.name workflow_file +:+ ")" +:+ Py.nl,
         current_category))
     (index_content, None) workflow_files).1.

(** The loops over the example, rule and main files. *)
Definition index_plain_lines (prefix : string) (files : list Path) (fs : FS)
    (index_content : string) : string :=
  foldl
    (fun index_content file =>
       index_content +:+ "- [" +:+ extract_title file fs +:+ "](" +:+ prefix
         +:+ Path.name file +:+ ")" +:+ Py.nl)
    index_content (Path.sorted files).

Definition index_text (file_map : FileMap) (fs : FS) : string :=
  let index_content := index_header in
  let index_content := index_workflow_lines (Path.sorted (workflows file_map)) fs index_content in
  let index_content := index_content +:+ index_examples_heading in
  let index_content := index_plain_lines "examples/" (examples file_map) fs index_content in
  let index_content := index_content +:+ index_rules_heading in
  let index_content := index_plain_lines "rules/" (rules file_map) fs index_content in
  let index_content := index_content +:+ index_main_heading in
  let index_content := index_plain_lines "" (main file_map) fs index_content in
  index_content +:+ index_footer.

(** [generate_index_readme]: the new file system and the line it prints. *)
Definition generate_index_readme (self : DocumentationBuilder) (file_map : FileMap)
    (fs : FS) : option (FS * string) :=
  let index_file := docs_path self ++ ["README.md"] in
  fs' ← write_text index_file (index_text file_map fs) fs;
  Some (fs', "✅ Generated documentation index: " +:+ Path.str index_file).

(** *** Link validation *)

(** The two entries that a listed file adds to [available_files]; the second
    raises when the file is not below [docs_path]. *)
Fixpoint available_files (docs : Path) (all_files : list Path) : option (gset string) :=
  match all_files with
  | [] => Some ∅
  | file_path :: rest =>
      relative ← Path.relative_to docs file_path;
      available ← available_files docs rest;
      Some ({[Path.name file_path]} ∪ {[Path.str relative]} ∪ available)
  end.

Definition broken_link_message (file_path : Path) (link : string * string) : string :=
  "Broken link in " +:+ Path.name file_path +:+ ": [" +:+ link.1 +:+ "](" +:+ link.2 +:+ ")".

(** A link is reported when its target neither starts with [http] nor is in
    [available_files]. *)
Definition link_is_reported (available : gset string) (link : string * string) : bool :=
  if Py.startswith "http" link.2 then false
  else bool_decide (link.2 ∉ available).

(** The inner loop over the links of one file. *)
Definition issues_of_file (available : gset string) (file_path : Path)
    (content : string) : list string :=
  foldl
    (fun issues link =>
       if Py.startswith "http" link.2 then issues
       else if bool_decide (link.2 ∉ available)
            then issues ++ [broken_link_message file_path link]
            else issues)
    [] (Py.findall_links content).

(** The outer loop; reading a missing file raises. *)
Fixpoint check_files (available : gset string) (all_files : list Path) (fs : FS)
    (issues : list string) : option (list string) :=
  match all_files with
  | [] => Some issues
  | file_path :: rest =>
      content ← fs !! file_path;
      check_files available rest fs (issues ++ issues_of_file available file_path content)
  end.

(** [validate_internal_links] *)
Definition validate_internal_links (self : DocumentationBuilder) (file_map : FileMap)
    (fs : FS) : option (list string) :=
  let all_files := all_listed file_map in
  available ← available_files (docs_path self) all_files;
  check_files available all_files fs [].

(** *** The external linter *)

(** What [subprocess.run] can do: fail to find the executable, or run it to
    its end with a return code and its captured output. *)
Inductive lint_run :=
  | ToolNotFound
  | Completed (returncode : Z) (stdout : string).

Definition lint_passed_message : string := "✅ All markdown files pass linting".
Definition lint_issues_prefix : string := "❌ Markdown linting issues:" +:+ Py.nl.
Definition lint_not_found_message : string :=
  "❌ markdownlint not found. Please install with: npm install -g markdownlint-cli".

(** [run_markdown_lint] *)
Definition run_markdown_lint (result : lint_run) : bool * string :=
  match result with
  | Completed returncode stdout =>
      if (returncode =? 0)%Z then (true, lint_passed_message)
      else (false, lint_issues_prefix +:+ stdout)
  | ToolNotFound => (false, lint_not_found_message)
  end.

(** *** The pipeline *)

Fixpoint add_badges_to_all (workflow_files : list Path) (fs : FS) : FS :=
  match workflow_files with
  | [] => fs
  | workflow_file :: rest => add_badges_to_all rest (add_reproduction_badges workflow_file fs)
  end.

(** [build_documentation]: the files at the end of the run and the lines
    printed, or [None] when a step raises. *)
Definition build_documentation (self : DocumentationBuilder) (lint : lint_run)
    (fs : FS) : option (FS * list string) :=
  let out := ["🚀 Building comprehensive documentation..."] in
  let out := out ++ ["📁 Copying and organizing files..."] in
  '(file_map, fs) ← copy_and_organize_files self fs;
  let out := out ++ ["🏆 Adding reproduction badges..."] in
  let fs := add_badges_to_all (workflows file_map) fs in
  let out := out ++ ["🔗 Creating cross-references..."] in
  fs ← create_cross_references file_map fs;
  let out := out ++ ["📋 Generating documentation index..."] in
  '(fs, line) ← generate_index_readme self file_map fs;
  let out := out ++ [line] in
  let out := out ++ ["🔍 Validating internal links..."] in
  link_issues ← validate_internal_links self file_map fs;
  let out :=
    match link_issues with
    | [] => out ++ ["✅ All internal links are valid"]
    | _ => out ++ ["⚠️  Link validation issues:"]
               ++ map (fun issue => "  - " +:+ issue) link_issues
    end in
  let out := out ++ ["🧹 Running markdown linting..."] in
  let '(lint_passed, lint_message) := run_markdown_lint lint in
  let out := out ++ [lint_message] in
  let out := out ++ [Py.nl +:+ "🎉 Documentation build complete!"] in
  let out := out ++ ["📖 Main index: " +:+ Path.str (docs_path self ++ ["README.md"])] in
  let out := out ++ ["🔬 Workflows: " +:+ pretty (length (workflows file_map)) +:+ " files"] in
  let out := out ++ ["📚 Examples: " +:+ pretty (length (examples file_map)) +:+ " files"] in
  let out := out ++ ["📋 Rules: " +:+ pretty (length (rules file_map)) +:+ " files"] in
  Some (fs, out).

(** The script's entry point builds from the current directory. *)
Definition default_builder : DocumentationBuilder := {| base_path := [] |}.

Definition minimal_tree : FS :=
  {[ ["workflows"; "01_data_wrangling"; "intro.md"] := "# Intro" ]}.

(** ** Notions used in the statements *)

(** The link lines of a section, one after the other. *)
Definition links_text (related_workflows : list (string * string)) : string :=
  foldr (λ entry text, link_line entry +:+ text) "" related_workflows.

(** The eight keys that come before the spatial one in the table. *)
Definition keys_before_spatial : list string :=
  ["00_agentic_prompt_templates"; "01_data_wrangling"; "02_visualization";
   "03_univariate_models"; "04_multivariate_analysis"; "05_diversity_metrics";
   "06_mixed_effects_models"; "07_time_series_analysis"].

(** The two names that the last test of the copy loop accepts. *)
Definition main_filenames : list string := ["README.md"; "CODE_OF_CONDUCT.md"].

(** A discovered file that passes none of the four tests of the loop. *)
Definition dropped (self : DocumentationBuilder) (file_path : Path) : bool :=
  match Path.relative_to (base_path self) file_path with
  | Some relative_path =>
      negb (Py.contains "workflows" (Path.str relative_path))
      && negb (Py.contains "examples" (Path.str relative_path))
      && negb (Py.contains "rules" (Path.str relative_path))
      && negb (bool_decide (Path.name file_path ∈ main_filenames))
  | None => false
  end.

(** The file map with one more destination in one of its four lists. *)
Definition add_workflow (file_map : FileMap) (dest_path : Path) : FileMap :=
  {| workflows := workflows file_map ++ [dest_path]; examples := examples file_map;
     rules := rules file_map; main := main file_map |}.
Definition add_example (file_map : FileMap) (dest_path : Path) : FileMap :=
  {| workflows := workflows file_map; examples := examples file_map ++ [dest_path];
     rules := rules file_map; main := main file_map |}.
Definition add_rule (file_map : FileMap) (dest_path : Path) : FileMap :=
  {| workflows := workflows file_map; examples := examples file_map;
     rules := rules file_map ++ [dest_path]; main := main file_map |}.
Definition add_main (file_map : FileMap) (dest_path : Path) : FileMap :=
  {| workflows := workflows file_map; examples := examples file_map;
     rules := rules file_map; main := main file_map ++ [dest_path] |}.

(** The listed files exist and lie below the documentation directory. *)
Definition listed_ok (self : DocumentationBuilder) (file_map : FileMap) (fs : FS) : Prop :=
  ∀ d, d ∈ all_listed file_map →
       is_Some (fs !! d) ∧ is_Some (Path.relative_to (docs_path self) d).

(** The words of the claim: a target that begins with a URL scheme.  The
    syntax is that of RFC 3986: a letter, then letters, digits, plus, minus
    or dot, then a colon. *)
Definition is_scheme_char (c : ascii) : bool :=
  let n := nat_of_ascii c in
  Py.is_cased c || ((48 <=? n) && (n <=? 57)) || (n =? 43) || (n =? 45) || (n =? 46).

Fixpoint scheme_then_colon (s : string) : bool :=
  match s with
  | EmptyString => false
  | String c s' =>
      if Ascii.eqb c ":"%char then true
      else if is_scheme_char c then scheme_then_colon s' else false
  end.

Definition begins_with_url_scheme (target : string) : bool :=
  match target with
  | EmptyString => false
  | String c s => Py.is_cased c && scheme_then_colon s
  end.

(** The files that [build_documentation] leaves, without what it prints. *)
Definition build_files (self : DocumentationBuilder) (fs : FS) : option FS :=
  '(file_map, fs) ← copy_and_organize_files self fs;
  fs ← create_cross_references file_map (add_badges_to_all (workflows file_map) fs);
  '(fs, _) ← generate_index_readme self file_map fs;
  _ ← validate_internal_links self file_map fs;
  Some fs.

(** Where the copy loop sends a file: the list of the file map that receives
    the destination, and the destination.  The tests are those of [copy_one],
    in its order. *)
Inductive destination_list := ToWorkflows | ToExamples | ToRules | ToMain.

Definition route (self : DocumentationBuilder) (file_path : Path)
    : option (destination_list * Path) :=
  relative_path ← Path.relative_to (base_path self) file_path;
  if Py.contains "workflows" (Path.str relative_path) then
    Some (ToWorkflows, workflows_path self ++ [Path.name relative_path])
  else if Py.contains "examples" (Path.str relative_path) then
    Some (ToExamples, docs_path self ++ ["examples"; Path.name relative_path])
  else if Py.contains "rules" (Path.str relative_path) then
    Some (ToRules, docs_path self ++ ["rules"; Path.name relative_path])
  else if bool_decide (Path.name file_path ∈ main_filenames) then
    Some (ToMain, docs_path self ++ [Path.name file_path])
  else None.

Definition add_to (list_key : destination_list) (file_map : FileMap) (dest_path : Path)
    : FileMap :=
  match list_key with
  | ToWorkflows => add_workflow file_map dest_path
  | ToExamples => add_example file_map dest_path
  | ToRules => add_rule file_map dest_path
  | ToMain => add_main file_map dest_path
  end.

(** The directory of the destinations of each list. *)
Definition directory_of (self : DocumentationBuilder) (list_key : destination_list) : Path :=
  match list_key with
  | ToWorkflows => workflows_path self
  | ToExamples => docs_path self ++ ["examples"]
  | ToRules => docs_path self ++ ["rules"]
  | ToMain => docs_path self
  end.

Definition list_of (list_key : destination_list) (file_map : FileMap) : list Path :=
  match list_key with
  | ToWorkflows => workflows file_map
  | ToExamples => examples file_map
  | ToRules => rules file_map
  | ToMain => main file_map
  end.

(** The keys of a dictionary, in its order. *)
Definition dict_keys {V} (d : list (string * V)) : list string := d.*1.

(** The line of the index for a file, under the prefix of its section. *)
Definition index_link (title prefix : string) (file : Path) : string :=
  "- [" +:+ title +:+ "](" +:+ prefix +:+ Path.name file +:+ ")" +:+ Py.nl.

(** A line that is a second-level heading and mentions Summary. *)
Definition is_summary_heading (line : string) : bool :=
  Py.startswith "## " line && Py.contains "Summary" line.

#[global] Instance destination_list_eq_dec : EqDecision destination_list.
Proof. solve_decision. Defined.

(** The destinations that the copy loop appends to one list of the file map
    for a list of discovered files, in the order of the files. *)
Definition routed_to (self : DocumentationBuilder) (list_key : destination_list)
    (all_files : list Path) : list Path :=
  omap (λ file_path,
          match route self file_path with
          | Some (k, dest_path) => if decide (k = list_key) then Some dest_path else None
          | None => None
          end) all_files.

(** A string of ASCII characters.  [Py.lower] and [Py.title] case the
    letters of ASCII and leave every other byte; on a string of ASCII
    characters that is what Python does. *)
Fixpoint is_ascii (s : string) : bool :=
  match s with
  | EmptyString => true
  | String c s' => (nat_of_ascii c <? 128) && is_ascii s'
  end.

(** No directory below [base] has a name that ends in [.md]. *)
Definition no_md_directory (base : Path) (fs : FS) : bool :=
  forallb
    (fun k => match Path.relative_to base k with
              | Some rel =>
                  forallb (fun i => negb (Py.endswith ".md" (Path.name (take i rel))))
                    (seq 1 (length rel - 1))
              | None => true
              end)
    (map_to_list fs).*1.

(** A tree on which the builder was made, in which the two other directories
    of destinations can be made, and which has no directory named like a
    Markdown file. *)
Definition plain_tree (self : DocumentationBuilder) (fs : FS) : Prop :=
  is_Some (DocumentationBuilder_init (base_path self) fs)
  ∧ is_Some (mkdir (docs_path self ++ ["examples"]) fs)
  ∧ is_Some (mkdir (docs_path self ++ ["rules"]) fs)
  ∧ no_md_directory (base_path self) fs = true.

(** What the copy loop relies on and keeps: no file stands at or above a
    directory of destinations, and no directory below the base directory has
    a name that ends in [.md]. *)
Definition writable (self : DocumentationBuilder) (fs : FS) : Prop :=
  (∀ k q r, directory_of self k = q ++ r → fs !! q = None)
  ∧ (∀ rel c rest,
       is_Some (fs !! (base_path self ++ rel ++ c :: rest)) →
       rel ≠ [] → Py.endswith ".md" (Path.name rel) = false).

(** The directory of the destinations of each list, from the base
    directory. *)
Definition directory_rel (list_key : destination_list) : Path :=
  match list_key with
  | ToWorkflows => ["docs"; "workflows"]
  | ToExamples => ["docs"; "examples"]
  | ToRules => ["docs"; "rules"]
  | ToMain => ["docs"]
  end.

(** ** Sample inputs *)

(** Ten lines of prose, then a heading on the eleventh line. *)
Definition late_heading_text : string :=
  Py.join Py.nl ["a"; "b"; "c"; "d"; "e"; "f"; "g"; "h"; "i"; "j"; "# Heading"; "text"].

(** A workflow file whose name holds a category key, and one related
    workflow. *)
Definition wrangling_file : Path := ["docs"; "workflows"; "01_data_wrangling.md"].
Definition wrangling_fs : FS := {[ wrangling_file := "# Tidy the survey data" ]}.
Definition plain_links : list (string * string) :=
  [("visualization_basics", "workflows/visualization_basics.md")].

(** A link map with a workflow whose file name holds the header text. *)
Definition header_in_name_links : list (string * string) :=
  [("visualization ## related workflows",
    "workflows/visualization ## related workflows.md")].

(** What the run on that link map writes. *)
Definition header_in_name_text : string :=
  with_cross_references "# Tidy the survey data"
    [("Visualization ## Related Workflows",
      "workflows/visualization ## related workflows.md")].

(** A destination path as the copy step makes them, with a name that the
    keywords of [determine_category] recognise. *)
Definition tidy_file : Path := ["docs"; "workflows"; "tidy_data.md"].
Definition tidy_fs : FS := {[ tidy_file := "# Tidy data" ]}.



(** A listed file with one broken link. *)
Definition linked_file : Path := ["docs"; "workflows"; "a.md"].
Definition linked_map : FileMap :=
  {| workflows := [linked_file]; examples := []; rules := []; main := [] |}.
Definition broken_link_fs : FS := {[ linked_file := "See [text](nonexistent.md)." ]}.

(** The same file with a link to an FTP server. *)
Definition ftp_link_fs : FS :=
  {[ linked_file := "Data: [data](ftp://example.org/data.md)" ]}.

(** A directory of the workflows whose name ends in [.md], and the same
    directory when it is empty. *)
Definition md_directory_tree : FS :=
  {[ ["workflows"; "notes.md"; "figure.txt"] := "A figure." ]}.
Definition empty_md_directory_tree : FS :=
  {[ ["workflows"; "notes.md"; ""] := "" ]}.

(** Two workflow directories with a file of the same name. *)
Definition two_readmes : FS :=
  {[ ["workflows"; "01_data_wrangling"; "README.md"] := "[text](nonexistent.md)";
     ["workflows"; "02_visualization"; "README.md"] := "[text](nonexistent.md)" ]}.

(** ** Notions and sample inputs of the further properties *)

Definition docs_and_source : FS :=
  {[ ["docs"; "workflows"; "intro.md"] := "# Copy";
     ["workflows"; "01_data_wrangling"; "intro.md"] := "# Intro" ]}.

Definition preamble_text : string :=
  Py.join Py.nl ["---"; "title: reefs"; "---"; "# Reef survey"; "Text."; "## Methods"].

Definition link_step (workflow_links : list (string * string)) (workflow_file : Path)
    : list (string * string) :=
  match Py.dict_get (Path.stem workflow_file) workflow_links with
  | Some _ => workflow_links
  | None =>
      Py.dict_set (Path.stem workflow_file)
        ("workflows/" +:+ Path.name workflow_file) workflow_links
  end.

(** What an entry of [related] is: the title of a workflow of the link map
    whose lower-cased name holds one of the related types, with the path of
    that workflow. *)
Definition related_entry_ok (related_types : list string)
    (workflow_links : list (string * string)) (entry : string * string) : Prop :=
  ∃ workflow_name related_type,
    (workflow_name, entry.2) ∈ workflow_links
    ∧ related_type ∈ related_types
    ∧ Py.contains related_type (Py.lower workflow_name) = true
    ∧ entry.1 = Py.title (Py.replace_char "_" " " workflow_name).

(** The three categories whose name without the numeric prefix is a key of
    the relationship table. *)
Definition categories_with_relations : list string :=
  ["01_data_wrangling"; "02_visualization"; "09_species_distribution"].

Definition summary_text : string :=
  Py.join Py.nl ["# Tidy"; "## Summary of inputs"; "text"; "## Summary"; "end"].

(** The body of the loop over the workflow files. *)
Definition index_workflow_step (fs : FS)
    : string * option string → Path → string * option string :=
  λ '(index_content, current_category) workflow_file,
  let category := determine_category workflow_file in
  let '(index_content, current_category) :=
    if bool_decide (Some category = current_category)
    then (index_content, current_category)
    else
      let category_name := default category (Py.dict_get category workflow_categories) in
      (index_content +:+ Py.nl +:+ "#### " +:+ category_name +:+ Py.nl +:+ Py.nl,
       Some category) in
  let workflow_title := extract_workflow_title workflow_file fs in
  (index_content +:+ "- [" +:+ workflow_title +:+ "](workflows/"
     +:+ Path.name workflow_file +:+ ")" +:+ Py.nl,
   current_category).

Definition linked_pair_map : FileMap :=
  {| workflows := [["docs"; "workflows"; "a.md"]; ["docs"; "workflows"; "b.md"]];
     examples := []; rules := []; main := [] |}.
Definition linked_pair_fs : FS :=
  {[ ["docs"; "workflows"; "a.md"] := "See [b](b.md) and [site](https://example.org).";
     ["docs"; "workflows"; "b.md"] := "Back to [a](workflows/a.md)." ]}.

Definition guide_file : Path := ["docs"; "rules"; "style_guide.md"].
Definition guide_text : string := Py.join Py.nl ["Intro"; "#  House style  "; "# Second"].

(** What the badge step makes of a text. *)
Definition badged (content : string) : string :=
  if Py.contains badge_sentinel content then content else with_badges content.

(** What the cross-reference step makes of the text of a file. *)
Definition cross_referenced (workflow_links : list (string * string)) (file_path : Path)
    (content : string) : string :=
  if Py.contains related_header content then content
  else match related_for file_path workflow_links with
       | [] => content
       | related => with_cross_references content related
       end.

(** * Properties *)

(** ** Strings *)

Section StringFacts.

Implicit Types (s sub a b : string) (c : ascii).

Lemma string_app_cons c a b : String c a +:+ b = String c (a +:+ b).
Proof. reflexivity. Qed.

Lemma string_app_nil_l s : "" +:+ s = s.
Proof. reflexivity. Qed.

Lemma string_app_assoc a b s : (a +:+ b) +:+ s = a +:+ (b +:+ s).
Proof. induction a as [|c a IH]; [done |]. rewrite !string_app_cons. by f_equal. Qed.

Lemma string_app_empty_r s : s +:+ "" = s.
Proof. induction s as [|c s IH]; [done |]. rewrite string_app_cons. by f_equal. Qed.

Lemma join_cons sep l l' (ls : list string) :
  Py.join sep (l :: l' :: ls) = l +:+ sep +:+ Py.join sep (l' :: ls).
Proof. reflexivity. Qed.

Lemma split_nl_nonempty s : Py.split_nl s ≠ [].
Proof.
  destruct s as [|c s]; simpl; [done |].
  destruct (Ascii.eqb c Py.nl_char); [done |].
  by destruct (Py.split_nl s).
Qed.

(** Joining what [split] gave restores the text. *)
Lemma join_split_nl s : Py.join Py.nl (Py.split_nl s) = s.
Proof.
  induction s as [|c s IH]; [done |].
  pose proof (split_nl_nonempty s) as Hne.
  simpl. destruct (Ascii.eqb c Py.nl_char) eqn:E.
  - apply Ascii.eqb_eq in E. subst c.
    destruct (Py.split_nl s) as [|l ls]; [done |].
    rewrite join_cons, IH. reflexivity.
  - destruct (Py.split_nl s) as [|l ls]; [done |].
    rewrite <- IH. destruct ls; [done |].
    rewrite !join_cons. reflexivity.
Qed.

Lemma startswith_app sub s b :
  Py.startswith sub s = true → Py.startswith sub (s +:+ b) = true.
Proof.
  revert s. induction sub as [|x sub IH]; intros s H; [done |].
  destruct s as [|c s]; [done |].
  rewrite string_app_cons. simpl in *.
  destruct (Ascii.eqb x c); [by apply IH | done].
Qed.

Lemma startswith_self sub b : Py.startswith sub (sub +:+ b) = true.
Proof.
  induction sub as [|x sub IH]; [done |].
  rewrite string_app_cons. simpl. by rewrite Ascii.eqb_refl.
Qed.

Lemma contains_cons sub c s :
  Py.contains sub (String c s) = Py.startswith sub (String c s) || Py.contains sub s.
Proof. reflexivity. Qed.

Lemma contains_app_l sub s b :
  Py.contains sub s = true → Py.contains sub (s +:+ b) = true.
Proof.
  induction s as [|c s IH]; intros H.
  - destruct sub; [by destruct b | done].
  - rewrite string_app_cons, contains_cons. rewrite contains_cons in H.
    apply orb_true_iff in H as [H | H]; apply orb_true_iff.
    + left. rewrite <- string_app_cons. by apply startswith_app.
    + right. by apply IH.
Qed.

Lemma contains_app_r sub a s :
  Py.contains sub s = true → Py.contains sub (a +:+ s) = true.
Proof.
  intros H. induction a as [|c a IH]; [done |].
  rewrite string_app_cons, contains_cons, IH. apply orb_true_r.
Qed.

Lemma contains_join sub sep (ls : list string) x :
  x ∈ ls → Py.contains sub x = true → Py.contains sub (Py.join sep ls) = true.
Proof.
  intros Hin Hx. induction ls as [|l ls IH]; [by apply elem_of_nil in Hin |].
  apply elem_of_cons in Hin as [-> | Hin].
  - destruct ls; [done |]. rewrite join_cons. by apply contains_app_l.
  - specialize (IH Hin). destruct ls as [|l' ls]; [by apply elem_of_nil in Hin |].
    rewrite join_cons. by do 2 apply contains_app_r.
Qed.

Lemma elem_of_list_insert_at {A} i (x : A) ls : x ∈ Py.list_insert_at i x ls.
Proof.
  revert i. induction ls as [|l ls IH]; intros [|i]; simpl; try apply list_elem_of_here.
  apply list_elem_of_further, IH.
Qed.

Lemma occurrences_cons sub c s :
  Py.occurrences sub (String c s)
  = (if Py.startswith sub (String c s) then 1 else 0) + Py.occurrences sub s.
Proof. reflexivity. Qed.

Lemma contains_false_occurrences sub s :
  Py.contains sub s = false ↔ Py.occurrences sub s = 0.
Proof.
  induction s as [|c s IH].
  - destruct sub; simpl; split; intros; done.
  - rewrite contains_cons, occurrences_cons, orb_false_iff, IH.
    destruct (Py.startswith sub (String c s)); split; intros; try lia; intuition lia.
Qed.

Lemma contains_nl_cons x sub :
  Py.contains Py.nl (String x sub) = false →
  Ascii.eqb x Py.nl_char = false ∧ Py.contains Py.nl sub = false.
Proof.
  rewrite contains_cons. intros [H1 H2]%orb_false_iff. split; [|done].
  change (Py.startswith Py.nl (String x sub))
    with (if Ascii.eqb Py.nl_char x then true else false) in H1.
  rewrite Ascii.eqb_sym. by destruct (Ascii.eqb Py.nl_char x).
Qed.

(** A text without a newline cannot start across a newline. *)
Lemma startswith_across_nl sub a b :
  sub ≠ "" → Py.contains Py.nl sub = false →
  Py.startswith sub (a +:+ Py.nl +:+ b) = Py.startswith sub a.
Proof.
  revert sub. induction a as [|c a IH]; intros [|x sub] Hne Hnl; try done.
  - apply contains_nl_cons in Hnl as [Hx _].
    unfold Py.nl. rewrite string_app_nil_l, string_app_cons.
    change (Py.startswith (String x sub) (String Py.nl_char ("" +:+ b)))
      with (if Ascii.eqb x Py.nl_char then Py.startswith sub ("" +:+ b) else false).
    by rewrite Hx.
  - apply contains_nl_cons in Hnl as [_ Hnl].
    rewrite string_app_cons.
    change (Py.startswith (String x sub) (String c (a +:+ Py.nl +:+ b)))
      with (if Ascii.eqb x c then Py.startswith sub (a +:+ Py.nl +:+ b) else false).
    change (Py.startswith (String x sub) (String c a))
      with (if Ascii.eqb x c then Py.startswith sub a else false).
    destruct (Ascii.eqb x c); [|done].
    destruct sub as [|y sub]; [done |]. by apply IH.
Qed.

Lemma occurrences_across_nl sub a b :
  sub ≠ "" → Py.contains Py.nl sub = false →
  Py.occurrences sub (a +:+ Py.nl +:+ b) = Py.occurrences sub a + Py.occurrences sub b.
Proof.
  intros Hne Hnl. induction a as [|c a IH].
  - pose proof (startswith_across_nl sub "" b Hne Hnl) as H.
    rewrite string_app_nil_l in *. unfold Py.nl in *. rewrite string_app_cons, string_app_nil_l in *.
    rewrite occurrences_cons, H. by destruct sub.
  - rewrite string_app_cons, !occurrences_cons, IH.
    rewrite <- string_app_cons, (startswith_across_nl sub (String c a) b Hne Hnl). lia.
Qed.

Lemma occurrences_empty sub : sub ≠ "" → Py.occurrences sub "" = 0.
Proof. by destruct sub. Qed.

Lemma occurrences_join sub (ls : list string) :
  sub ≠ "" → Py.contains Py.nl sub = false →
  Py.occurrences sub (Py.join Py.nl ls) = sum_list (Py.occurrences sub <$> ls).
Proof.
  intros Hne Hnl. induction ls as [|l ls IH]; [by apply occurrences_empty |].
  destruct ls as [|l' ls].
  - change (Py.occurrences sub l = Py.occurrences sub l + 0). lia.
  - rewrite join_cons, occurrences_across_nl, IH by done. reflexivity.
Qed.

Lemma sum_list_insert_at (f : string → nat) i x (ls : list string) :
  sum_list (f <$> Py.list_insert_at i x ls) = f x + sum_list (f <$> ls).
Proof.
  revert i. induction ls as [|l ls IH]; intros [|i]; try reflexivity.
  change (f l + sum_list (f <$> Py.list_insert_at i x ls)
          = f x + (f l + sum_list (f <$> ls))).
  rewrite IH. lia.
Qed.

End StringFacts.

(** ** Badge injection *)

Section Badges.

Lemma first_heading_cons i line (rest : list string) :
  first_heading i (line :: rest)
  = if Py.startswith "#" line && (i <? 10) then Some i else first_heading (S i) rest.
Proof. reflexivity. Qed.

Lemma first_heading_none i (lines : list string) :
  (∀ j line, lines !! j = Some line → i + j < 10 → Py.startswith "#" line = false) →
  first_heading i lines = None.
Proof.
  revert i. induction lines as [|line rest IH]; intros i H; [done |].
  rewrite first_heading_cons. destruct (Py.startswith "#" line && (i <? 10)) eqn:E.
  - apply andb_true_iff in E as [E1 E2]. apply Nat.ltb_lt in E2.
    rewrite (H 0 line) in E1; [done | done | lia].
  - apply IH. intros j l Hj Hlt. apply (H (S j) l); [done | lia].
Qed.

Lemma with_badges_no_heading content :
  first_heading 0 (Py.split_nl content) = None → with_badges content = content.
Proof. intros H. unfold with_badges. rewrite H. apply join_split_nl. Qed.

Lemma badge_section_sentinel : Py.contains badge_sentinel badge_section = true.
Proof. vm_compute. reflexivity. Qed.

Lemma with_badges_heading content i :
  first_heading 0 (Py.split_nl content) = Some i →
  Py.contains badge_sentinel (with_badges content) = true.
Proof.
  intros H. unfold with_badges. rewrite H.
  eapply contains_join; [apply elem_of_list_insert_at | apply badge_section_sentinel].
Qed.

(** A second pass over a text that the first pass wrote changes nothing. *)
Lemma with_badges_settled content :
  Py.contains badge_sentinel (with_badges content) = true
  ∨ with_badges (with_badges content) = with_badges content.
Proof.
  destruct (first_heading 0 (Py.split_nl content)) as [i|] eqn:E.
  - left. by eapply with_badges_heading.
  - right. rewrite (with_badges_no_heading content E).
    by apply with_badges_no_heading.
Qed.

Lemma add_reproduction_badges_changed file_path fs :
  add_reproduction_badges file_path fs ≠ fs →
  ∃ content i,
    fs !! file_path = Some content
    ∧ Py.contains badge_sentinel content = false
    ∧ first_heading 0 (Py.split_nl content) = Some i
    ∧ add_reproduction_badges file_path fs = <[file_path := with_badges content]> fs.
Proof.
  unfold add_reproduction_badges.
  destruct (fs !! file_path) as [content|] eqn:Hc; [|done].
  destruct (Py.contains badge_sentinel content) eqn:Hs; [done |].
  intros Hne.
  destruct (first_heading 0 (Py.split_nl content)) as [i|] eqn:E.
  - by exists content, i.
  - rewrite (with_badges_no_heading content E) in Hne.
    by rewrite insert_id in Hne.
Qed.

(** C2.  Running the badge step a second time on a file leaves the file system
    exactly as the first run left it, for every path and every file system;
    and whenever the first run changed the file, the text it wrote holds the
    badge sentinel, which is what stops the second run. *)
Theorem add_reproduction_badges_idempotent (file_path : Path) (fs : FS) :
  add_reproduction_badges file_path (add_reproduction_badges file_path fs)
  = add_reproduction_badges file_path fs
  ∧ (add_reproduction_badges file_path fs ≠ fs →
     ∃ content',
       add_reproduction_badges file_path fs !! file_path = Some content'
       ∧ Py.contains badge_sentinel content' = true).
Proof.
  split.
  - unfold add_reproduction_badges at 2 3.
    destruct (fs !! file_path) as [content|] eqn:Hc.
    + destruct (Py.contains badge_sentinel content) eqn:Hs.
      * unfold add_reproduction_badges. by rewrite Hc, Hs.
      * unfold add_reproduction_badges. rewrite lookup_insert_eq.
        destruct (with_badges_settled content) as [H | H].
        -- by rewrite H.
        -- destruct (Py.contains badge_sentinel (with_badges content)); [done |].
           rewrite H. by rewrite insert_insert_eq.
    + unfold add_reproduction_badges. by rewrite Hc.
  - intros Hne.
    destruct (add_reproduction_badges_changed _ _ Hne) as (content & i & Hc & Hs & Hh & ->).
    exists (with_badges content). split; [apply lookup_insert_eq |].
    by eapply with_badges_heading.
Qed.

Lemma add_reproduction_badges_idempotent_witness :
  ∃ content',
    add_reproduction_badges ["docs"; "workflows"; "intro.md"]
      {[ ["docs"; "workflows"; "intro.md"] := "# Intro" ]}
      !! ["docs"; "workflows"; "intro.md"] = Some content'
    ∧ Py.contains badge_sentinel content' = true.
Proof.
  apply (add_reproduction_badges_idempotent ["docs"; "workflows"; "intro.md"]
           {[ ["docs"; "workflows"; "intro.md"] := "# Intro" ]}).
  intros H. apply (f_equal (λ m : FS, m !! ["docs"; "workflows"; "intro.md"])) in H.
  vm_compute in H. discriminate H.
Defined.

(** C8.  A file without the sentinel and without a line starting with a hash
    sign among its first ten lines is left as it is: nothing is written after
    a heading further down either. *)
Theorem add_reproduction_badges_no_heading (file_path : Path) (fs : FS) (content : string) :
  fs !! file_path = Some content →
  Py.contains badge_sentinel content = false →
  (∀ i line, i < 10 → Py.split_nl content !! i = Some line →
             Py.startswith "#" line = false) →
  add_reproduction_badges file_path fs = fs.
Proof.
  intros Hc Hs Hlines. unfold add_reproduction_badges. rewrite Hc, Hs.
  rewrite with_badges_no_heading; [by apply insert_id |].
  apply first_heading_none. intros j line Hj Hlt. apply (Hlines j line); [lia | done].
Qed.

Lemma add_reproduction_badges_no_heading_witness :
  add_reproduction_badges ["docs"; "workflows"; "late.md"]
    {[ ["docs"; "workflows"; "late.md"] := late_heading_text ]}
  = {[ ["docs"; "workflows"; "late.md"] := late_heading_text ]}.
Proof.
  apply (add_reproduction_badges_no_heading _ _ late_heading_text).
  - reflexivity.
  - vm_compute. reflexivity.
  - intros i line Hi Hl.
    do 10 (destruct i as [|i]; [vm_compute in Hl; injection Hl as <-; reflexivity |]).
    lia.
Defined.

End Badges.

(** ** Cross-references *)

Section CrossReferences.

Lemma related_header_nonempty : related_header ≠ "".
Proof. done. Qed.

Lemma related_header_one_line : Py.contains Py.nl related_header = false.
Proof. vm_compute. reflexivity. Qed.

Lemma related_header_once : Py.occurrences related_header related_header = 1.
Proof. vm_compute. reflexivity. Qed.

Lemma cross_ref_section_eq related_workflows :
  cross_ref_section related_workflows
  = "" +:+ Py.nl +:+ related_header +:+ Py.nl +:+ "" +:+ Py.nl
       +:+ links_text related_workflows +:+ Py.nl +:+ "".
Proof.
  unfold cross_ref_section.
  assert (∀ init, foldl (λ section entry, section +:+ link_line entry) init related_workflows
                  = init +:+ links_text related_workflows) as ->.
  { induction related_workflows as [|e r IH]; intros init; simpl.
    - by rewrite string_app_empty_r.
    - by rewrite IH, string_app_assoc. }
  rewrite !string_app_assoc, string_app_empty_r. reflexivity.
Qed.

Lemma occurrences_link_line sub entry text :
  sub ≠ "" → Py.contains Py.nl sub = false →
  Py.occurrences sub (link_line entry +:+ text)
  = Py.occurrences sub (link_line entry) + Py.occurrences sub text.
Proof.
  intros Hne Hnl. unfold link_line.
  rewrite <- (string_app_empty_r (_ +:+ Py.nl)) at 2.
  rewrite !string_app_assoc.
  rewrite <- !(string_app_assoc _ _ (Py.nl +:+ _)).
  rewrite !occurrences_across_nl by done.
  rewrite (occurrences_empty sub Hne). lia.
Qed.

Lemma occurrences_links_text sub related_workflows :
  sub ≠ "" → Py.contains Py.nl sub = false →
  Forall (λ entry, Py.contains sub (link_line entry) = false) related_workflows →
  Py.occurrences sub (links_text related_workflows) = 0.
Proof.
  intros Hne Hnl. induction 1 as [|e r He Hr IH]; [by apply occurrences_empty |].
  change (links_text (e :: r)) with (link_line e +:+ links_text r).
  rewrite occurrences_link_line, IH by done.
  apply contains_false_occurrences in He. lia.
Qed.

Lemma occurrences_cross_ref_section related_workflows :
  Py.occurrences related_header (cross_ref_section related_workflows)
  = 1 + Py.occurrences related_header (links_text related_workflows).
Proof.
  rewrite cross_ref_section_eq.
  rewrite !occurrences_across_nl
    by (apply related_header_nonempty || apply related_header_one_line).
  rewrite related_header_once, (occurrences_empty _ related_header_nonempty). lia.
Qed.

Lemma contains_cross_ref_section related_workflows :
  Py.contains related_header (cross_ref_section related_workflows) = true.
Proof.
  destruct (Py.contains related_header (cross_ref_section related_workflows)) eqn:E; [done |].
  apply contains_false_occurrences in E.
  rewrite occurrences_cross_ref_section in E. lia.
Qed.

(** The text written back holds the header: the guard of a later run fires. *)
Lemma contains_with_cross_references content related_workflows :
  Py.contains related_header (with_cross_references content related_workflows) = true.
Proof.
  unfold with_cross_references. destruct (last_summary (Py.split_nl content)).
  - eapply contains_join; [apply elem_of_list_insert_at | apply contains_cross_ref_section].
  - apply contains_app_r, contains_cross_ref_section.
Qed.

(** The header occurs as often as in the text before, plus once for the new
    section, plus the occurrences inside the link lines. *)
Lemma occurrences_with_cross_references content related_workflows :
  Py.occurrences related_header (with_cross_references content related_workflows)
  = Py.occurrences related_header content + 1
    + Py.occurrences related_header (links_text related_workflows).
Proof.
  pose proof related_header_nonempty as Hne.
  pose proof related_header_one_line as Hnl.
  unfold with_cross_references. destruct (last_summary (Py.split_nl content)).
  - rewrite occurrences_join, sum_list_insert_at, <- occurrences_join by done.
    rewrite join_split_nl, occurrences_cross_ref_section. lia.
  - rewrite cross_ref_section_eq at 1. rewrite string_app_nil_l.
    rewrite occurrences_across_nl by done.
    pose proof (occurrences_cross_ref_section related_workflows) as H.
    rewrite cross_ref_section_eq in H.
    rewrite (occurrences_across_nl _ "") in H by done.
    rewrite (occurrences_empty _ Hne) in H. lia.
Qed.

(** The method in one expression. *)
Lemma add_cross_references_to_file_eq file_path workflow_links fs :
  add_cross_references_to_file file_path workflow_links fs
  = Some
      match fs !! file_path with
      | None => fs
      | Some content =>
          if Py.contains related_header content then fs
          else match related_for file_path workflow_links with
               | [] => fs
               | related =>
                   <[file_path := with_cross_references content related]> fs
               end
      end.
Proof.
  unfold add_cross_references_to_file, find_related_workflows.
  destruct (fs !! file_path) as [content|]; [|done].
  destruct (Py.contains related_header content); [done |]. simpl.
  by destruct (related_for file_path workflow_links).
Qed.

(** C3, as the code has it.  Cross-reference injection always returns, and a
    second run leaves the file system as the first run left it.  Whenever the
    first run changed the file, the text it wrote holds the header, and holds
    it exactly once provided that none of the link lines it added holds the
    header text itself. *)
Theorem add_cross_references_twice (file_path : Path)
    (workflow_links : list (string * string)) (fs : FS) :
  ∃ fs1,
    add_cross_references_to_file file_path workflow_links fs = Some fs1
    ∧ add_cross_references_to_file file_path workflow_links fs1 = Some fs1
    ∧ (fs1 ≠ fs →
       ∃ related content1,
         find_related_workflows file_path workflow_links fs = Some related
         ∧ fs1 !! file_path = Some content1
         ∧ Py.contains related_header content1 = true
         ∧ (Forall (λ entry, Py.contains related_header (link_line entry) = false) related →
            Py.occurrences related_header content1 = 1)).
Proof.
  rewrite add_cross_references_to_file_eq. eexists. split; [reflexivity |].
  rewrite add_cross_references_to_file_eq.
  destruct (fs !! file_path) as [content|] eqn:Hc; [|by rewrite Hc].
  destruct (Py.contains related_header content) eqn:Hh; [by rewrite Hc, Hh |].
  destruct (related_for file_path workflow_links) as [|e r] eqn:Hr; [by rewrite Hc, Hh |].
  rewrite lookup_insert_eq, contains_with_cross_references.
  split; [done |]. intros _.
  exists (e :: r), (with_cross_references content (e :: r)).
  split; [unfold find_related_workflows; by rewrite Hc, <- Hr |].
  split; [done |].
  split; [apply contains_with_cross_references |].
  intros Hlinks. rewrite occurrences_with_cross_references.
  apply contains_false_occurrences in Hh. rewrite Hh.
  rewrite occurrences_links_text;
    [done | apply related_header_nonempty | apply related_header_one_line | done].
Qed.

Lemma add_cross_references_twice_witness :
  ∃ fs1 content1,
    add_cross_references_to_file wrangling_file plain_links wrangling_fs = Some fs1
    ∧ fs1 !! wrangling_file = Some content1
    ∧ Py.occurrences related_header content1 = 1.
Proof.
  destruct (add_cross_references_twice wrangling_file plain_links wrangling_fs)
    as (fs1 & H1 & _ & H3).
  destruct H3 as (related & content1 & Hr & Hc & _ & Hocc).
  { intros ->.
    apply (f_equal (λ o : option FS, o ≫= (λ m, m !! wrangling_file))) in H1.
    vm_compute in H1. discriminate H1. }
  exists fs1, content1. split; [exact H1 |]. split; [exact Hc |].
  apply Hocc. vm_compute in Hr. injection Hr as <-.
  constructor; [vm_compute; reflexivity | constructor].
Defined.

(** C3, as the claim has it, fails: a related workflow whose file name holds
    the header text puts the header into its link line, and the text written
    then holds the header twice. *)
Lemma related_header_twice :
  add_cross_references_to_file wrangling_file header_in_name_links wrangling_fs
  = Some (<[wrangling_file := header_in_name_text]> wrangling_fs)
  ∧ <[wrangling_file := header_in_name_text]> wrangling_fs ≠ wrangling_fs
  ∧ (<[wrangling_file := header_in_name_text]> wrangling_fs) !! wrangling_file
    = Some header_in_name_text
  ∧ Py.occurrences related_header header_in_name_text = 2.
Proof.
  split.
  { rewrite add_cross_references_to_file_eq.
    assert (wrangling_fs !! wrangling_file = Some "# Tidy the survey data") as ->
      by apply lookup_singleton_eq.
    assert (Py.contains related_header "# Tidy the survey data" = false) as ->
      by (vm_compute; reflexivity).
    assert (related_for wrangling_file header_in_name_links
            = [("Visualization ## Related Workflows",
                "workflows/visualization ## related workflows.md")]) as ->
      by (vm_compute; reflexivity).
    reflexivity. }
  split.
  { intros H. apply (f_equal (λ m : FS, m !! wrangling_file)) in H.
    rewrite lookup_insert_eq in H. unfold wrangling_fs in H.
    rewrite lookup_singleton_eq in H. vm_compute in H. discriminate H. }
  split; [apply lookup_insert_eq | vm_compute; reflexivity].
Qed.

(** C4, as the code has it.  When no category key occurs in the path, the file
    has no workflow type: the file-name keywords of [determine_category] are
    not consulted, no related workflow is found whatever the link map holds,
    and cross-reference injection leaves every file as it is. *)
Theorem no_category_key_no_related (file_path : Path)
    (workflow_links : list (string * string)) (fs : FS) :
  first_key_in workflow_categories.*1 (Path.str file_path) = None →
  current_type file_path = None
  ∧ (∀ related, find_related_workflows file_path workflow_links fs = Some related →
                related = [])
  ∧ add_cross_references_to_file file_path workflow_links fs = Some fs.
Proof.
  intros Hk.
  assert (current_type file_path = None) as Ht by (unfold current_type; by rewrite Hk).
  assert (related_for file_path workflow_links = []) as Hr
    by (unfold related_for; by rewrite Ht).
  split; [done |]. split.
  - unfold find_related_workflows. intros related H.
    destruct (fs !! file_path); simpl in H; [|done]. by simplify_eq.
  - rewrite add_cross_references_to_file_eq, Hr.
    destruct (fs !! file_path) as [content|]; [|done].
    by destruct (Py.contains related_header content).
Qed.

Lemma no_category_key_no_related_witness :
  current_type tidy_file = None
  ∧ (∀ related, find_related_workflows tidy_file plain_links tidy_fs = Some related →
                related = [])
  ∧ add_cross_references_to_file tidy_file plain_links tidy_fs = Some tidy_fs.
Proof.
  apply (no_category_key_no_related tidy_file plain_links tidy_fs).
  vm_compute. reflexivity.
Defined.

(** C4, as the claim has it, fails: the file-name keywords put this file in
    the data wrangling category, whose type has a related workflow in the link
    map, yet the file gets no link. *)
Lemma fallback_category_not_used :
  first_key_in workflow_categories.*1 (Path.str tidy_file) = None
  ∧ determine_category tidy_file = "01_data_wrangling"
  ∧ (related_types ← Py.dict_get "data_wrangling" relationships;
     Some (collect_related related_types plain_links))
    = Some [("Visualization Basics", "workflows/visualization_basics.md")]
  ∧ find_related_workflows tidy_file plain_links tidy_fs = Some []
  ∧ add_cross_references_to_file tidy_file plain_links tidy_fs = Some tidy_fs.
Proof. repeat split; vm_compute; reflexivity. Qed.

End CrossReferences.

(** ** Categories *)

Section Categories.

Lemma first_key_in_app (before after : list string) key file_str :
  Forall (λ k, Py.contains k file_str = false) before →
  first_key_in (before ++ key :: after) file_str
  = if Py.contains key file_str then Some key else first_key_in after file_str.
Proof.
  induction 1 as [|k before Hk _ IH]; [done |].
  change (first_key_in ((k :: before) ++ key :: after) file_str)
    with (if Py.contains k file_str then Some k
          else first_key_in (before ++ key :: after) file_str).
  by rewrite Hk.
Qed.

(** C5, as the code has it.  A path that holds the spatial key, and none of
    the eight keys that the table lists before it, is in the spatial category,
    whatever the file name is otherwise. *)
Theorem determine_category_spatial (file_path : Path) :
  Py.contains "08_spatial_analysis" (Path.str file_path) = true →
  Forall (λ key, Py.contains key (Path.str file_path) = false) keys_before_spatial →
  determine_category file_path = "08_spatial_analysis".
Proof.
  intros Hin Hbefore. unfold determine_category.
  change (workflow_categories.*1)
    with (keys_before_spatial
          ++ "08_spatial_analysis" :: ["09_species_distribution"; "10_population_simulation"]).
  by rewrite first_key_in_app, Hin.
Qed.

Lemma determine_category_spatial_witness :
  determine_category ["docs"; "workflows"; "08_spatial_analysis_model_of_plots.md"]
  = "08_spatial_analysis".
Proof.
  apply determine_category_spatial.
  - vm_compute. reflexivity.
  - repeat (constructor; [vm_compute; reflexivity |]). constructor.
Defined.

(** C5, as the claim has it, fails: the table is searched in its order, so a
    file name that holds an earlier key decides the category. *)
Lemma earlier_key_wins :
  Py.contains "08_spatial_analysis"
    (Path.str ["docs"; "workflows"; "01_data_wrangling_for_08_spatial_analysis.md"]) = true
  ∧ determine_category ["docs"; "workflows"; "01_data_wrangling_for_08_spatial_analysis.md"]
    = "01_data_wrangling".
Proof. split; vm_compute; reflexivity. Qed.

End Categories.

(** ** Titles *)

Section Titles.

Lemma drop_prefix_app P X : Py.drop_prefix P (P +:+ X) = Some X.
Proof.
  induction P as [|c P IH]; [done |].
  rewrite string_app_cons.
  change (Py.drop_prefix (String c P) (String c (P +:+ X)))
    with (if Ascii.eqb c c then Py.drop_prefix P (P +:+ X) else None).
  by rewrite Ascii.eqb_refl.
Qed.

Lemma line_capture_app P X : X ≠ "" → Py.line_capture P (P +:+ X) = Some X.
Proof. intros HX. unfold Py.line_capture. rewrite drop_prefix_app. by destruct X. Qed.

Lemma first_capture_cons P line (lines : list string) :
  Py.first_capture P (line :: lines)
  = match Py.line_capture P line with
    | Some g => Some g
    | None => Py.first_capture P lines
    end.
Proof. reflexivity. Qed.

Lemma first_capture_app P (before after : list string) line :
  Forall (λ l, Py.line_capture P l = None) before →
  Py.first_capture P (before ++ line :: after) = Py.first_capture P (line :: after).
Proof.
  induction 1 as [|l before Hl _ IH]; [done |].
  rewrite <- app_comm_cons, first_capture_cons. by rewrite Hl.
Qed.

Lemma first_capture_none P (lines : list string) :
  Forall (λ l, Py.line_capture P l = None) lines → Py.first_capture P lines = None.
Proof.
  induction 1 as [|l lines Hl _ IH]; [done |]. by rewrite first_capture_cons, Hl.
Qed.

Lemma first_pattern_match_cons pattern (rest : list string) content :
  first_pattern_match (pattern :: rest) content
  = match Py.re_search_line pattern content with
    | Some group => Some (Py.strip group)
    | None => first_pattern_match rest content
    end.
Proof. reflexivity. Qed.




End Titles.

(** ** Paths, files and directories *)

(** A closed tree is plain by computation. *)
Ltac plain_tree_by_computation :=
  unfold plain_tree; split; [|split; [|split]];
  [apply (bool_decide_unpack _); vm_compute; exact I ..| vm_compute; reflexivity].

Section Trees.

Lemma relative_to_app (base rel : Path) : Path.relative_to base (base ++ rel) = Some rel.
Proof.
  induction base as [|b base IH]; [done |].
  change (Path.relative_to (b :: base) ((b :: base) ++ rel))
    with (if String.eqb b b then Path.relative_to base (base ++ rel) else None).
  by rewrite String.eqb_refl.
Qed.

Lemma relative_to_Some (base p rel : Path) :
  Path.relative_to base p = Some rel → p = base ++ rel.
Proof.
  revert p. induction base as [|b base IH]; intros p H.
  - simpl in H. by simplify_eq.
  - destruct p as [|c p]; [done |].
    change (Path.relative_to (b :: base) (c :: p))
      with (if String.eqb b c then Path.relative_to base p else None) in H.
    destruct (String.eqb b c) eqn:E; [|done].
    apply String.eqb_eq in E. subst c. simpl. f_equal. by apply IH.
Qed.

Lemma relative_to_below (base sub p rel : Path) :
  Path.relative_to (base ++ sub) p = Some rel →
  Path.relative_to base p = Some (sub ++ rel).
Proof.
  intros H. apply relative_to_Some in H. subst p.
  rewrite <- app_assoc. apply relative_to_app.
Qed.

Lemma relative_to_app_app (base a b : Path) :
  Path.relative_to (base ++ a) (base ++ b) = Path.relative_to a b.
Proof.
  induction base as [|c base IH]; [done |].
  change (Path.relative_to ((c :: base) ++ a) ((c :: base) ++ b))
    with (if String.eqb c c then Path.relative_to (base ++ a) (base ++ b) else None).
  by rewrite String.eqb_refl.
Qed.

Lemma relative_to_further (base p r : Path) :
  is_Some (Path.relative_to base p) → is_Some (Path.relative_to base (p ++ r)).
Proof.
  intros [rel H]. apply relative_to_Some in H. subst p.
  rewrite <- app_assoc, relative_to_app. by eexists.
Qed.

Lemma name_app (directory rel : Path) :
  rel ≠ [] → Path.name (directory ++ rel) = Path.name rel.
Proof.
  intros Hrel. unfold Path.name. rewrite last_app.
  destruct (last rel) eqn:E; [done |]. by apply last_None in E.
Qed.

Lemma elem_of_listing (fs : FS) (p : Path) : p ∈ (map_to_list fs).*1 ↔ is_Some (fs !! p).
Proof.
  split.
  - intros ([q c] & -> & H)%list_elem_of_fmap.
    apply elem_of_map_to_list in H. by exists c.
  - intros [c H]. apply list_elem_of_fmap. exists (p, c). split; [done |].
    by apply elem_of_map_to_list.
Qed.

Lemma insert_keeps (fs : FS) (p q : Path) c :
  is_Some (fs !! q) → is_Some (<[p := c]> fs !! q).
Proof. intros H. rewrite lookup_insert_is_Some. destruct (decide (p = q)); auto. Qed.

Lemma is_file_true (fs : FS) (p : Path) : is_file fs p = true ↔ is_Some (fs !! p).
Proof. unfold is_file. apply bool_decide_eq_true. Qed.

(** A directory is a path with a file below it. *)
Lemma is_dir_true (fs : FS) (p : Path) :
  is_dir fs p = true ↔ ∃ c rest, is_Some (fs !! (p ++ c :: rest)).
Proof.
  unfold is_dir. rewrite existsb_exists. split.
  - intros (k & Hk & H). apply list_elem_of_In, elem_of_listing in Hk.
    destruct (Path.relative_to p k) as [[|c rest]|] eqn:E; try done.
    apply relative_to_Some in E. subst k. by exists c, rest.
  - intros (c & rest & H). exists (p ++ c :: rest). split.
    + by apply list_elem_of_In, elem_of_listing.
    + by rewrite relative_to_app.
Qed.

Lemma file_above_true (fs : FS) (p : Path) :
  file_above fs p = true ↔ ∃ q r, p = q ++ r ∧ r ≠ [] ∧ is_Some (fs !! q).
Proof.
  unfold file_above. rewrite existsb_exists. split.
  - intros (i & Hi & H). apply in_seq in Hi. apply is_file_true in H.
    exists (take i p), (drop i p). split; [by rewrite take_drop |]. split; [|done].
    intros Hd. apply (f_equal length) in Hd. rewrite length_drop in Hd. simpl in Hd. lia.
  - intros (q & r & -> & Hr & H). exists (length q). split.
    + apply in_seq. rewrite length_app. destruct r; [done |]. simpl. lia.
    + apply is_file_true. by rewrite take_app_length.
Qed.

Lemma mkdir_same (p : Path) (fs fs' : FS) : mkdir p fs = Some fs' → fs' = fs.
Proof. unfold mkdir. destruct (_ || _); [done |]. by intros [= <-]. Qed.

(** [mkdir] returns when no file stands at the path or above it. *)
Lemma mkdir_Some (p : Path) (fs : FS) :
  mkdir p fs = Some fs ↔ ∀ q r, p = q ++ r → fs !! q = None.
Proof.
  unfold mkdir. split.
  - destruct (file_above fs p) eqn:Ha; [done |].
    destruct (is_file fs p) eqn:Hf; [done |].
    intros _ q r ->. apply eq_None_not_Some. intros Hq.
    destruct r as [|c r].
    + rewrite app_nil_r in Hf. apply is_file_true in Hq. congruence.
    + assert (file_above fs (q ++ c :: r) = true) as Habs; [|congruence].
      apply file_above_true. by exists q, (c :: r).
  - intros H. destruct (file_above fs p) eqn:Ha.
    { apply file_above_true in Ha as (q & r & -> & _ & [x Hq]).
      by rewrite (H q r) in Hq. }
    destruct (is_file fs p) eqn:Hf; [|done].
    apply is_file_true in Hf as [x Hx].
    rewrite (H p []) in Hx; [done | by rewrite app_nil_r].
Qed.

Lemma no_md_directory_true (base : Path) (fs : FS) :
  no_md_directory base fs = true ↔
  ∀ rel c rest,
    is_Some (fs !! (base ++ rel ++ c :: rest)) →
    rel ≠ [] → Py.endswith ".md" (Path.name rel) = false.
Proof.
  unfold no_md_directory. rewrite forallb_forall. split.
  - intros H rel c rest Hk Hrel.
    apply elem_of_listing, list_elem_of_In in Hk. specialize (H _ Hk).
    rewrite relative_to_app in H. rewrite forallb_forall in H.
    specialize (H (length rel)). rewrite take_app_length in H.
    apply negb_true_iff, H. apply in_seq. rewrite length_app. simpl.
    destruct rel; [done |]. simpl. lia.
  - intros H k Hk. apply list_elem_of_In, elem_of_listing in Hk.
    destruct (Path.relative_to base k) as [rel|] eqn:E; [|done].
    apply relative_to_Some in E. subst k.
    apply forallb_forall. intros i Hi. apply in_seq in Hi. apply negb_true_iff.
    destruct (drop i rel) as [|c rest] eqn:Ed.
    { apply (f_equal length) in Ed. rewrite length_drop in Ed. simpl in Ed. lia. }
    apply (H (take i rel) c rest).
    + by rewrite <- Ed, take_drop.
    + intros Ht. apply (f_equal length) in Ht. rewrite length_take in Ht.
      simpl in Ht. lia.
Qed.

Lemma directory_of_rel (self : DocumentationBuilder) (k : destination_list) :
  directory_of self k = base_path self ++ directory_rel k.
Proof. destruct k; cbn; unfold workflows_path, docs_path; by rewrite <- ?app_assoc. Qed.

Lemma directory_below_docs (self : DocumentationBuilder) (k : destination_list) (n : string) :
  is_Some (Path.relative_to (docs_path self) (directory_of self k ++ [n])).
Proof.
  destruct k; cbn [directory_of]; unfold workflows_path; rewrite <- ?app_assoc;
    rewrite relative_to_app; by eexists.
Qed.

(** A plain tree is one on which the copy loop can write. *)
Lemma plain_tree_writable (self : DocumentationBuilder) (fs : FS) :
  plain_tree self fs → writable self fs.
Proof.
  intros ([self' Hinit] & [fs3 Hex] & [fs4 Hru] & Hmd).
  split; [|by apply no_md_directory_true].
  pose proof (mkdir_same _ _ _ Hex) as ->. pose proof (mkdir_same _ _ _ Hru) as ->.
  destruct self as [base]. unfold DocumentationBuilder_init in Hinit.
  cbn [base_path] in Hinit. cbv zeta in Hinit.
  destruct (mkdir (docs_path {| base_path := base |}) fs) as [fs1|] eqn:H1; [|done].
  pose proof (mkdir_same _ _ _ H1) as ->. cbn [mbind option_bind] in Hinit.
  destruct (mkdir (workflows_path {| base_path := base |}) fs) as [fs2|] eqn:H2; [|done].
  pose proof (mkdir_same _ _ _ H2) as ->.
  intros k q r Hk. destruct k; cbn [directory_of] in Hk.
  - by apply (proj1 (mkdir_Some _ _) H2 q r).
  - by apply (proj1 (mkdir_Some _ _) Hex q r).
  - by apply (proj1 (mkdir_Some _ _) Hru q r).
  - by apply (proj1 (mkdir_Some _ _) H1 q r).
Qed.

(** Fewer files, fewer obstacles. *)
Lemma writable_anti (self : DocumentationBuilder) (fs fs' : FS) :
  (∀ q, is_Some (fs' !! q) → is_Some (fs !! q)) → writable self fs → writable self fs'.
Proof.
  intros Hsub [Hdirs Hmd]. split.
  - intros k q r Hk. apply eq_None_not_Some. intros Hq%Hsub.
    rewrite (Hdirs k q r Hk) in Hq. by destruct Hq.
  - intros rel c rest Hk. apply (Hmd rel c rest). by apply Hsub.
Qed.

(** A new file in a directory of destinations, with a name that ends in
    [.md], is no obstacle. *)
Lemma writable_insert (self : DocumentationBuilder) (fs : FS) (k : destination_list)
    (n content : string) :
  writable self fs → Py.endswith ".md" n = true →
  writable self (<[directory_of self k ++ [n] := content]> fs).
Proof.
  intros [Hdirs Hmd] Hn. split.
  - intros k' q r Hk'. rewrite lookup_insert_ne; [by eapply Hdirs |].
    intros Heq. subst q. rewrite !directory_of_rel, <- !app_assoc in Hk'.
    apply app_inv_head in Hk'.
    destruct k, k'; cbn in Hk'; simplify_eq; vm_compute in Hn; discriminate Hn.
  - intros rel c rest Hk Hrel.
    apply lookup_insert_is_Some in Hk as [Heq | [_ Hk]]; [|by eapply Hmd].
    rewrite directory_of_rel, <- !app_assoc in Heq. apply app_inv_head in Heq.
    assert (length rel ≤ length (directory_rel k)) as Hlen.
    { apply (f_equal length) in Heq. rewrite !length_app in Heq. simpl in Heq. lia. }
    destruct k; destruct rel as [|a [|b [|? ?]]]; simpl in Hlen; try lia; try done;
      cbn in Heq; simplify_eq; reflexivity.
Qed.

Lemma writable_destination (self : DocumentationBuilder) (fs : FS) (k : destination_list)
    (n : string) :
  writable self fs → Py.endswith ".md" n = true →
  file_above fs (directory_of self k ++ [n]) = false
  ∧ is_dir fs (directory_of self k ++ [n]) = false.
Proof.
  intros [Hdirs Hmd] Hn. split.
  - apply not_true_is_false. intros (q & r & Heq & Hr & [x Hq])%file_above_true.
    destruct r as [|y r _] using rev_ind; [done |].
    rewrite app_assoc in Heq. apply app_inj_tail in Heq as [Hd _].
    by rewrite (Hdirs k q r Hd) in Hq.
  - apply not_true_is_false. intros (c & rest & Hk)%is_dir_true.
    pose proof (Hmd (directory_rel k ++ [n]) c rest) as H.
    rewrite directory_of_rel in Hk. rewrite <- !app_assoc in Hk. rewrite <- !app_assoc in H.
    specialize (H Hk). rewrite name_app in H by done.
    change (Path.name [n]) with n in H.
    rewrite H in Hn; [done | by destruct (directory_rel k)].
Qed.

Lemma write_text_writable (self : DocumentationBuilder) (fs : FS) (k : destination_list)
    (n content : string) :
  writable self fs → Py.endswith ".md" n = true →
  write_text (directory_of self k ++ [n]) content fs
  = Some (<[directory_of self k ++ [n] := content]> fs).
Proof.
  intros Hw Hn. unfold write_text.
  by destruct (writable_destination self fs k n Hw Hn) as [-> ->].
Qed.

(** What [shutil.copy2] has done when it returns. *)
Lemma copy2_returned (src dst : Path) (fs fs' : FS) :
  copy2 src dst fs = Some fs' →
  ∃ content w,
    fs !! src = Some content ∧ fs' = <[w := content]> fs ∧ w ≠ src
    ∧ (w = dst ∨ w = dst ++ [Path.name src])
    ∧ (is_dir fs dst = false → w = dst).
Proof.
  unfold copy2. destruct (fs !! src) as [content|]; [|done]. cbn [mbind option_bind].
  destruct (is_dir fs dst) eqn:Hd; cbv zeta.
  - case_bool_decide as Hne; [done |]. unfold write_text.
    destruct (_ || _); [done |]. intros [= <-].
    exists content, (dst ++ [Path.name src]).
    split; [done |]. split; [done |]. split; [congruence |]. split; [by right | done].
  - case_bool_decide as Hne; [done |]. unfold write_text.
    destruct (_ || _); [done |]. intros [= <-].
    exists content, dst.
    split; [done |]. split; [done |]. split; [congruence |]. split; [by left | done].
Qed.

Lemma copy2_writable (self : DocumentationBuilder) (src : Path) (k : destination_list)
    (n content : string) (fs : FS) :
  writable self fs → Py.endswith ".md" n = true → fs !! src = Some content →
  src ≠ directory_of self k ++ [n] →
  copy2 src (directory_of self k ++ [n]) fs
  = Some (<[directory_of self k ++ [n] := content]> fs).
Proof.
  intros Hw Hn Hc Hne. unfold copy2. rewrite Hc. cbn [mbind option_bind].
  rewrite (proj2 (writable_destination self fs k n Hw Hn)). cbv zeta.
  rewrite bool_decide_eq_false_2 by done. by apply write_text_writable.
Qed.

End Trees.

(** ** Discovery *)

Section Discovery.

Lemma endswith_md_not_docs n : Py.endswith ".md" n = true → n ≠ "docs".
Proof. intros H ->. vm_compute in H. discriminate H. Qed.

Lemma glob_md_spec (directory : Path) (fs : FS) (p : Path) :
  p ∈ glob_md directory fs →
  ∃ n rest, p = directory ++ [n] ∧ Py.endswith ".md" n = true
            ∧ is_Some (fs !! (directory ++ n :: rest)).
Proof.
  unfold glob_md. rewrite elem_of_remove_dups, list_elem_of_omap.
  intros (k & Hk & H). apply elem_of_listing in Hk.
  destruct (Path.relative_to directory k) as [[|n rest]|] eqn:E; try done.
  destruct (Py.endswith ".md" n) eqn:Hn; [|done]. injection H as <-.
  apply relative_to_Some in E. subst k. by exists n, rest.
Qed.

Lemma rglob_md_spec (directory : Path) (fs : FS) (p : Path) :
  p ∈ rglob_md directory fs →
  ∃ rel rest, rel ≠ [] ∧ p = directory ++ rel
              ∧ Py.endswith ".md" (Path.name rel) = true
              ∧ is_Some (fs !! (directory ++ rel ++ rest)).
Proof.
  unfold rglob_md. rewrite elem_of_remove_dups, list_elem_of_In, in_flat_map.
  intros (k & Hk & H). apply list_elem_of_In, elem_of_listing in Hk.
  destruct (Path.relative_to directory k) as [rel|] eqn:E; [|done].
  apply list_elem_of_In, list_elem_of_omap in H as (i & Hi & H).
  destruct (Py.endswith ".md" (Path.name (take i rel))) eqn:Hn; [|done].
  injection H as <-. apply relative_to_Some in E. subst k.
  apply list_elem_of_In, in_seq in Hi.
  exists (take i rel), (drop i rel).
  split; [|split; [done | split; [done | by rewrite take_drop]]].
  intros Ht. apply (f_equal length) in Ht. rewrite length_take in Ht.
  simpl in Ht. destruct rel; simpl in *; lia.
Qed.

(** Where a discovered path lies: right in the base directory, or below one
    of the four source directories; and it is a file, or a directory above a
    file. *)
Lemma find_all_markdown_files_spec (self : DocumentationBuilder) (fs : FS) (p : Path) :
  p ∈ find_all_markdown_files self fs →
  Py.endswith ".md" (Path.name p) = true
  ∧ (∃ rest, is_Some (fs !! (p ++ rest)))
  ∧ ((∃ n, p = base_path self ++ [n])
     ∨ (∃ subdir rel, subdir ∈ ["workflows"; "examples"; "rules"; "manuscript"]
                      ∧ rel ≠ [] ∧ p = base_path self ++ subdir :: rel)).
Proof.
  unfold find_all_markdown_files, source_workflows.
  rewrite !elem_of_app. intros [H | [H | H]].
  - apply glob_md_spec in H as (n & rest & -> & Hn & Hex).
    split; [by rewrite name_app |]. split; [|left; by exists n].
    exists rest. by rewrite <- app_assoc.
  - apply rglob_md_spec in H as (rel & rest & Hrel & -> & Hn & Hex).
    split; [by rewrite name_app |]. split; [exists rest; by rewrite <- app_assoc |].
    right. exists "workflows", rel.
    split; [apply list_elem_of_here |]. split; [done |]. by rewrite <- app_assoc.
  - apply list_elem_of_In, in_flat_map in H as (subdir & Hs & H).
    apply list_elem_of_In, rglob_md_spec in H as (rel & rest & Hrel & -> & Hn & Hex).
    split; [by rewrite name_app |]. split; [exists rest; by rewrite <- app_assoc |].
    right. exists subdir, rel.
    split; [apply list_elem_of_further; by apply list_elem_of_In |].
    split; [done |]. by rewrite <- app_assoc.
Qed.

Lemma find_all_markdown_files_outside_docs (self : DocumentationBuilder) (fs : FS)
    (p : Path) :
  p ∈ find_all_markdown_files self fs →
  Py.endswith ".md" (Path.name p) = true
  ∧ (∃ rel, rel ≠ [] ∧ Path.relative_to (base_path self) p = Some rel)
  ∧ Path.relative_to (docs_path self) p = None
  ∧ (is_Some (fs !! p) ∨ is_dir fs p = true).
Proof.
  intros H. pose proof H as (Hmd & [rest Hex] & Hwhere)%find_all_markdown_files_spec.
  split; [done |].
  assert (is_Some (fs !! p) ∨ is_dir fs p = true) as Hkind.
  { destruct rest as [|c rest]; [left; by rewrite app_nil_r in Hex |].
    right. apply is_dir_true. by exists c, rest. }
  destruct Hwhere as [(n & ->) | (subdir & rel & Hs & Hrel & ->)].
  - split; [exists [n]; split; [done | apply relative_to_app] |]. split; [|done].
    unfold docs_path. rewrite relative_to_app_app.
    rewrite name_app in Hmd by done.
    change (Path.relative_to ["docs"] [n])
      with (if String.eqb "docs" n then Some ([] : Path) else None).
    destruct (String.eqb "docs" n) eqn:E; [|done].
    apply String.eqb_eq in E. by apply endswith_md_not_docs in Hmd.
  - split; [exists (subdir :: rel); split; [done | apply relative_to_app] |].
    split; [|done].
    unfold docs_path. rewrite relative_to_app_app.
    change (Path.relative_to ["docs"] (subdir :: rel))
      with (if String.eqb "docs" subdir then Some rel else None).
    destruct (String.eqb "docs" subdir) eqn:E; [|done].
    apply String.eqb_eq in E. subst subdir.
    repeat (apply elem_of_cons in Hs as [Hs | Hs]; [discriminate Hs |]).
    by apply elem_of_nil in Hs.
Qed.

(** In a tree without a directory named like a Markdown file, what is
    discovered is a file. *)
Lemma discovered_is_file (self : DocumentationBuilder) (fs : FS) (p : Path) :
  writable self fs → p ∈ find_all_markdown_files self fs → is_Some (fs !! p).
Proof.
  intros [_ Hmd] (Hn & (rel & Hrel & Hr) & _ & [H | Hd])%find_all_markdown_files_outside_docs;
    [done |].
  apply is_dir_true in Hd as (c & rest & Hk). apply relative_to_Some in Hr. subst p.
  rewrite <- app_assoc in Hk. rewrite name_app in Hn by done.
  by rewrite (Hmd rel c rest Hk Hrel) in Hn.
Qed.

End Discovery.

(** ** Copy and categorize *)

Section Copy.


Lemma copy_all_cons self file_path (rest : list Path) st :
  copy_all self (file_path :: rest) st
  = copy_one self file_path st ≫= copy_all self rest.
Proof. reflexivity. Qed.


Lemma str_nil_has_no_word w : w ≠ "" → Py.contains w (Path.str []) = true → w = ".".
Proof.
  intros Hw H. change (Path.str []) with "." in H.
  destruct w as [|a [|b w]]; [done | | by destruct a as [[] [] [] [] [] [] [] []]].
  destruct a as [[] [] [] [] [] [] [] []]; try discriminate H. reflexivity.
Qed.

(** A relative path that holds one of the three directory words has the
    name of the file. *)
Lemma routed_name (base file_path rel : Path) :
  Path.relative_to base file_path = Some rel →
  Py.contains "workflows" (Path.str rel) = true
  ∨ Py.contains "examples" (Path.str rel) = true
  ∨ Py.contains "rules" (Path.str rel) = true →
  Path.name rel = Path.name file_path.
Proof.
  intros Hrel Hw. apply relative_to_Some in Hrel. subst file_path.
  destruct rel as [|c rel]; [|by rewrite name_app].
  destruct Hw as [Hw | [Hw | Hw]]; apply str_nil_has_no_word in Hw; done.
Qed.

(** A destination lies in the directory of its list and keeps the name of
    the source. *)
Lemma route_dest (self : DocumentationBuilder) (file_path dest_path : Path)
    (k : destination_list) :
  route self file_path = Some (k, dest_path) →
  dest_path = directory_of self k ++ [Path.name file_path].
Proof.
  unfold route.
  destruct (Path.relative_to (base_path self) file_path) as [rel|] eqn:Hrel; [|done].
  cbn [mbind option_bind].
  pose proof (routed_name _ _ _ Hrel) as Hname.
  destruct (Py.contains "workflows" (Path.str rel)) eqn:Hw.
  { intros [= <- <-]. rewrite Hname by auto. reflexivity. }
  destruct (Py.contains "examples" (Path.str rel)) eqn:He.
  { intros [= <- <-]. rewrite Hname by auto. cbn [directory_of]. by rewrite <- app_assoc. }
  destruct (Py.contains "rules" (Path.str rel)) eqn:Hr.
  { intros [= <- <-]. rewrite Hname by auto. cbn [directory_of]. by rewrite <- app_assoc. }
  destruct (bool_decide (Path.name file_path ∈ main_filenames)); [|done].
  by intros [= <- <-].
Qed.

Lemma route_below_docs (self : DocumentationBuilder) (file_path dest_path : Path)
    (k : destination_list) (r : Path) :
  route self file_path = Some (k, dest_path) →
  is_Some (Path.relative_to (docs_path self) (dest_path ++ r)).
Proof.
  intros ->%route_dest. apply relative_to_further, directory_below_docs.
Qed.

Lemma route_none_dropped (self : DocumentationBuilder) (file_path : Path) :
  is_Some (Path.relative_to (base_path self) file_path) →
  dropped self file_path = match route self file_path with Some _ => false | None => true end.
Proof.
  intros [rel Hrel]. unfold dropped, route. rewrite Hrel. cbn [mbind option_bind].
  destruct (Py.contains "workflows" (Path.str rel)); [done |].
  destruct (Py.contains "examples" (Path.str rel)); [done |].
  destruct (Py.contains "rules" (Path.str rel)); [done |].
  by destruct (bool_decide (Path.name file_path ∈ main_filenames)).
Qed.

Lemma list_of_add_to (k k' : destination_list) (file_map : FileMap) (d : Path) :
  list_of k (add_to k' file_map d)
  = list_of k file_map ++ (if decide (k' = k) then [d] else []).
Proof. destruct k, k'; case_decide; try done; cbn; by rewrite ?app_nil_r. Qed.

Lemma routed_to_cons (self : DocumentationBuilder) (k : destination_list) (f : Path)
    (rest : list Path) :
  routed_to self k (f :: rest)
  = match route self f with
    | Some (k', d) => if decide (k' = k) then [d] else []
    | None => []
    end ++ routed_to self k rest.
Proof.
  unfold routed_to. cbn [omap list_omap].
  destruct (route self f) as [[k' d]|]; [|done]. by destruct (decide (k' = k)).
Qed.

Lemma elem_of_routed_to (self : DocumentationBuilder) (k : destination_list) (d : Path)
    (all_files : list Path) :
  d ∈ routed_to self k all_files ↔ ∃ src, src ∈ all_files ∧ route self src = Some (k, d).
Proof.
  unfold routed_to. rewrite list_elem_of_omap. split.
  - intros (src & Hsrc & H). exists src. split; [done |].
    destruct (route self src) as [[k' d']|]; [|done].
    case_decide; [|done]. by simplify_eq.
  - intros (src & Hsrc & H). exists src. split; [done |]. rewrite H.
    by rewrite decide_True.
Qed.

Lemma elem_of_all_listed (file_map : FileMap) (d : Path) :
  d ∈ all_listed file_map ↔ ∃ k, d ∈ list_of k file_map.
Proof.
  unfold all_listed. rewrite !elem_of_app. split.
  - intros [H | [H | [H | H]]];
      [by exists ToWorkflows | by exists ToExamples | by exists ToRules | by exists ToMain].
  - intros [[] H]; cbn in H; auto.
Qed.

Lemma length_routed_to (self : DocumentationBuilder) (all_files : list Path) :
  (∀ f, f ∈ all_files → is_Some (Path.relative_to (base_path self) f)) →
  length (routed_to self ToWorkflows all_files) + length (routed_to self ToExamples all_files)
  + length (routed_to self ToRules all_files) + length (routed_to self ToMain all_files)
  = length (List.filter (λ f, negb (dropped self f)) all_files).
Proof.
  induction all_files as [|f rest IH]; intros Hrel; [done |].
  change (List.filter (λ f, negb (dropped self f)) (f :: rest))
    with (if negb (dropped self f)
          then f :: List.filter (λ f, negb (dropped self f)) rest
          else List.filter (λ f, negb (dropped self f)) rest).
  rewrite !routed_to_cons, !length_app.
  rewrite route_none_dropped by (apply Hrel, list_elem_of_here).
  specialize (IH (λ g Hg, Hrel g (list_elem_of_further _ _ _ Hg))).
  destruct (route self f) as [[k d]|]; [|cbn; lia].
  destruct k; repeat case_decide; try done; cbn; lia.
Qed.

(** What the loop body has done when it returns: nothing for a file that
    [route] sends nowhere; for another file, one more destination in its list
    and one file written, at the destination or, when the destination is a
    directory, in it. *)
Lemma copy_one_returned (self : DocumentationBuilder) (file_path : Path)
    (file_map file_map' : FileMap) (fs fs' : FS) :
  copy_one self file_path (file_map, fs) = Some (file_map', fs') →
  match route self file_path with
  | Some (k, d) =>
      file_map' = add_to k file_map d
      ∧ ∃ content w,
          fs !! file_path = Some content ∧ fs' = <[w := content]> fs ∧ w ≠ file_path
          ∧ (w = d ∨ w = d ++ [Path.name file_path])
          ∧ (is_dir fs d = false → w = d)
  | None => file_map' = file_map ∧ fs' = fs
  end.
Proof.
  unfold copy_one, route.
  destruct (Path.relative_to (base_path self) file_path) as [relative_path|]; [|done].
  cbn [mbind option_bind]. fold main_filenames.
  destruct (Py.contains "workflows" (Path.str relative_path)).
  { destruct (copy2 _ _ fs) as [fs1|] eqn:Hc; [|done]. intros [= <- <-].
    split; [done |]. by apply copy2_returned. }
  destruct (Py.contains "examples" (Path.str relative_path)).
  { destruct (mkdir _ fs) as [fs0|] eqn:Hm; [|done]. apply mkdir_same in Hm as ->.
    cbn [mbind option_bind].
    destruct (copy2 _ _ fs) as [fs1|] eqn:Hc; [|done]. intros [= <- <-].
    rewrite <- app_assoc in Hc. split; [by rewrite <- app_assoc |].
    by apply copy2_returned. }
  destruct (Py.contains "rules" (Path.str relative_path)).
  { destruct (mkdir _ fs) as [fs0|] eqn:Hm; [|done]. apply mkdir_same in Hm as ->.
    cbn [mbind option_bind].
    destruct (copy2 _ _ fs) as [fs1|] eqn:Hc; [|done]. intros [= <- <-].
    rewrite <- app_assoc in Hc. split; [by rewrite <- app_assoc |].
    by apply copy2_returned. }
  destruct (bool_decide (Path.name file_path ∈ main_filenames)); [|by intros [= <- <-]].
  destruct (copy2 _ _ fs) as [fs1|] eqn:Hc; [|done]. intros [= <- <-].
  split; [done |]. by apply copy2_returned.
Qed.

(** The loop when it returns: the lists grow by the destinations that [route]
    gives, in order, and a path that is no destination of a routed file, nor
    a path in such a destination, holds what it held. *)
Lemma copy_all_returned (self : DocumentationBuilder) (all_files : list Path)
    (file_map file_map' : FileMap) (fs fs' : FS) :
  copy_all self all_files (file_map, fs) = Some (file_map', fs') →
  (∀ k, list_of k file_map' = list_of k file_map ++ routed_to self k all_files)
  ∧ (∀ q, (∀ src k d, src ∈ all_files → route self src = Some (k, d) →
                      q ≠ d ∧ q ≠ d ++ [Path.name src]) →
          fs' !! q = fs !! q).
Proof.
  revert file_map fs. induction all_files as [|f rest IH]; intros file_map fs.
  - intros [= <- <-]. split; [intros k; by rewrite app_nil_r | done].
  - rewrite copy_all_cons.
    destruct (copy_one self f (file_map, fs)) as [[fm1 fs1]|] eqn:H1; [|done].
    cbn [mbind option_bind]. intros [Hl Hu]%IH.
    apply copy_one_returned in H1.
    destruct (route self f) as [[k0 d0]|] eqn:Hr.
    + destruct H1 as (-> & content & w & Hc & -> & Hne & Hw & _). split.
      * intros k. rewrite Hl, list_of_add_to, routed_to_cons, Hr.
        by rewrite <- app_assoc.
      * intros q Hq. rewrite Hu.
        -- apply lookup_insert_ne. intros <-.
           destruct (Hq f k0 d0 (list_elem_of_here _ _) Hr). by destruct Hw.
        -- intros src k d Hsrc. apply Hq. by apply list_elem_of_further.
    + destruct H1 as [-> ->]. split.
      * intros k. by rewrite Hl, routed_to_cons, Hr.
      * intros q Hq. apply Hu. intros src k d Hsrc. apply Hq.
        by apply list_elem_of_further.
Qed.

(** When the loop returns, nothing outside the documentation directory has
    changed. *)
Lemma copy_all_frame (self : DocumentationBuilder) (all_files : list Path)
    (file_map file_map' : FileMap) (fs fs' : FS) (q : Path) :
  copy_all self all_files (file_map, fs) = Some (file_map', fs') →
  Path.relative_to (docs_path self) q = None → fs' !! q = fs !! q.
Proof.
  intros [_ Hu]%copy_all_returned Hq. apply Hu. intros src k d _ Hr.
  split; intros ->.
  - destruct (route_below_docs self src d k [] Hr) as [x Hx].
    rewrite app_nil_r in Hx. congruence.
  - destruct (route_below_docs self src d k [Path.name src] Hr) as [x Hx]. congruence.
Qed.

(** When the loop returns over sources outside the documentation directory,
    every source that [route] sends somewhere was a file. *)
Lemma copy_all_sources (self : DocumentationBuilder) (all_files : list Path)
    (file_map file_map' : FileMap) (fs fs' : FS) :
  copy_all self all_files (file_map, fs) = Some (file_map', fs') →
  (∀ f, f ∈ all_files → Path.relative_to (docs_path self) f = None) →
  ∀ src, src ∈ all_files → route self src ≠ None → is_Some (fs !! src).
Proof.
  revert file_map fs. induction all_files as [|f rest IH]; intros file_map fs Hrun Hout src Hsrc Hr.
  - by apply elem_of_nil in Hsrc.
  - rewrite copy_all_cons in Hrun.
    destruct (copy_one self f (file_map, fs)) as [[fm1 fs1]|] eqn:H1; [|done].
    cbn [mbind option_bind] in Hrun.
    pose proof (copy_all_frame self [f] file_map fm1 fs fs1 src) as Hframe.
    rewrite copy_all_cons, H1 in Hframe. specialize (Hframe eq_refl (Hout src Hsrc)).
    apply elem_of_cons in Hsrc as [-> | Hsrc].
    + apply copy_one_returned in H1.
      destruct (route self f) as [[k d]|]; [|done].
      destruct H1 as (_ & content & w & Hc & _). by eexists.
    + rewrite <- Hframe. apply (IH fm1 fs1 Hrun); [|done | done].
      intros g Hg. apply Hout. by apply list_elem_of_further.
Qed.

(** The loop body on a tree on which it can write. *)
Lemma copy_one_writable (self : DocumentationBuilder) (file_path : Path) (content : string)
    (file_map : FileMap) (fs : FS) :
  writable self fs →
  fs !! file_path = Some content →
  is_Some (Path.relative_to (base_path self) file_path) →
  Path.relative_to (docs_path self) file_path = None →
  Py.endswith ".md" (Path.name file_path) = true →
  copy_one self file_path (file_map, fs)
  = Some match route self file_path with
         | Some (k, dest_path) => (add_to k file_map dest_path, <[dest_path := content]> fs)
         | None => (file_map, fs)
         end.
Proof.
  intros Hw Hc [relative_path Hrel] Hout Hn.
  assert (∀ k, mkdir (directory_of self k) fs = Some fs) as Hmk.
  { intros k. apply mkdir_Some. intros q r. apply (proj1 Hw). }
  assert (∀ k n, Py.endswith ".md" n = true →
                 copy2 file_path (directory_of self k ++ [n]) fs
                 = Some (<[directory_of self k ++ [n] := content]> fs)) as Hcopy.
  { intros k n Hn'. apply (copy2_writable self); try done. intros ->.
    destruct (directory_below_docs self k n) as [r Hr]. congruence. }
  pose proof (routed_name _ _ _ Hrel) as Hname.
  unfold copy_one, route. rewrite Hrel. cbn [mbind option_bind]. fold main_filenames.
  destruct (Py.contains "workflows" (Path.str relative_path)) eqn:H1.
  { change (workflows_path self) with (directory_of self ToWorkflows).
    rewrite Hcopy by (rewrite Hname; auto). reflexivity. }
  destruct (Py.contains "examples" (Path.str relative_path)) eqn:H2.
  { change (docs_path self ++ ["examples"]) with (directory_of self ToExamples).
    rewrite Hmk. cbn [mbind option_bind].
    rewrite Hcopy by (rewrite Hname; auto). cbn [directory_of mbind option_bind].
    by rewrite <- !app_assoc. }
  destruct (Py.contains "rules" (Path.str relative_path)) eqn:H3.
  { change (docs_path self ++ ["rules"]) with (directory_of self ToRules).
    rewrite Hmk. cbn [mbind option_bind].
    rewrite Hcopy by (rewrite Hname; auto). cbn [directory_of mbind option_bind].
    by rewrite <- !app_assoc. }
  destruct (bool_decide (Path.name file_path ∈ main_filenames)); [|done].
  change (docs_path self) with (directory_of self ToMain).
  by rewrite Hcopy.
Qed.

(** The loop on a tree on which it can write, over Markdown files that exist
    below the base directory and outside the documentation directory: it
    returns, the tree stays one on which it can write, no file is lost, and
    every new destination holds the text of a source. *)
Lemma copy_all_writable (self : DocumentationBuilder) (all_files : list Path)
    (file_map : FileMap) (fs : FS) :
  writable self fs →
  (∀ f, f ∈ all_files →
        is_Some (fs !! f) ∧ is_Some (Path.relative_to (base_path self) f)
        ∧ Path.relative_to (docs_path self) f = None
        ∧ Py.endswith ".md" (Path.name f) = true) →
  ∃ file_map' fs',
    copy_all self all_files (file_map, fs) = Some (file_map', fs')
    ∧ writable self fs'
    ∧ (∀ q, is_Some (fs !! q) → is_Some (fs' !! q))
    ∧ (∀ d, d ∈ all_listed file_map' →
            (d ∈ all_listed file_map ∧ fs' !! d = fs !! d)
            ∨ ∃ src k, src ∈ all_files ∧ route self src = Some (k, d)
                       ∧ fs' !! d = fs !! src).
Proof.
  revert file_map fs. induction all_files as [|f rest IH]; intros file_map fs Hw Hfiles.
  - exists file_map, fs. split; [done |]. split; [done |]. split; [done | auto].
  - destruct (Hfiles f) as ([content Hc] & Hrel & Hout & Hn); [apply list_elem_of_here |].
    rewrite copy_all_cons, (copy_one_writable self f content file_map fs Hw Hc Hrel Hout Hn).
    cbn [mbind option_bind].
    destruct (route self f) as [[k0 d0]|] eqn:Hroute.
    + pose proof (route_dest _ _ _ _ Hroute) as Hd0.
      assert (∀ q, Path.relative_to (docs_path self) q = None →
                   <[d0 := content]> fs !! q = fs !! q) as Hframe.
      { intros q Hq. apply lookup_insert_ne. intros <-.
        pose proof (directory_below_docs self k0 (Path.name f)) as [r Hr].
        rewrite <- Hd0 in Hr. congruence. }
      destruct (IH (add_to k0 file_map d0) (<[d0 := content]> fs))
        as (fm' & fs' & Hrun & Hw' & Hkeep & Hcontent).
      { rewrite Hd0. by apply writable_insert. }
      { intros g Hg. destruct (Hfiles g) as (Hg1 & Hg2 & Hg3 & Hg4);
          [by apply list_elem_of_further |].
        split; [by apply insert_keeps | done]. }
      exists fm', fs'. split; [done |]. split; [done |].
      split; [intros q Hq; by apply Hkeep, insert_keeps |].
      intros d Hd. destruct (Hcontent d Hd) as [[Hold Hsame] | (src & k & Hsrc & Hr & Hs)].
      * destruct (decide (d = d0)) as [-> | Hne].
        -- right. exists f, k0. split; [apply list_elem_of_here |]. split; [done |].
           by rewrite Hsame, lookup_insert_eq.
        -- left. rewrite Hsame, lookup_insert_ne by done. split; [|done].
           apply elem_of_all_listed in Hold as [k Hold]. apply elem_of_all_listed.
           exists k. rewrite list_of_add_to, elem_of_app in Hold.
           destruct Hold as [? | Hold]; [done |].
           case_decide; [by apply list_elem_of_singleton in Hold | by apply elem_of_nil in Hold].
      * right. exists src, k. split; [by apply list_elem_of_further |]. split; [done |].
        rewrite Hs. apply Hframe.
        by destruct (Hfiles src) as (_ & _ & ? & _); [apply list_elem_of_further |].
    + destruct (IH file_map fs) as (fm' & fs' & Hrun & Hw' & Hkeep & Hcontent); [done | |].
      { intros g Hg. apply Hfiles. by apply list_elem_of_further. }
      exists fm', fs'. split; [done |]. split; [done |]. split; [done |].
      intros d Hd. destruct (Hcontent d Hd) as [? | (src & k & Hsrc & Hr & Hs)]; [by left |].
      right. exists src, k. split; [by apply list_elem_of_further | done].
Qed.

(** The copy step when it returns. *)
Lemma copy_and_organize_files_returned (self : DocumentationBuilder) (fs fs' : FS)
    (file_map : FileMap) :
  copy_and_organize_files self fs = Some (file_map, fs') →
  (∀ k, list_of k file_map = routed_to self k (find_all_markdown_files self fs))
  ∧ (∀ q, (∀ src k d, src ∈ find_all_markdown_files self fs → route self src = Some (k, d) →
                      q ≠ d ∧ q ≠ d ++ [Path.name src]) →
          fs' !! q = fs !! q)
  ∧ (∀ q, Path.relative_to (docs_path self) q = None → fs' !! q = fs !! q)
  ∧ (∀ src, src ∈ find_all_markdown_files self fs → route self src ≠ None →
            is_Some (fs !! src)).
Proof.
  unfold copy_and_organize_files. intros Hrun.
  pose proof (copy_all_returned _ _ _ _ _ _ Hrun) as [Hl Hu].
  split; [intros k; rewrite Hl; by destruct k |]. split; [done |].
  split; [intros q; by apply (copy_all_frame _ _ _ _ _ _ _ Hrun) |].
  apply (copy_all_sources _ _ _ _ _ _ Hrun).
  intros f Hf. by apply find_all_markdown_files_outside_docs in Hf as (_ & _ & ? & _).
Qed.

(** The copy step on a plain tree: it returns, and every listed destination
    is a file below the documentation directory that holds the text of a
    discovered source. *)
Lemma copy_and_organize_files_plain (self : DocumentationBuilder) (fs : FS) :
  plain_tree self fs →
  ∃ file_map fs',
    copy_and_organize_files self fs = Some (file_map, fs')
    ∧ writable self fs'
    ∧ listed_ok self file_map fs'
    ∧ (∀ d, d ∈ all_listed file_map →
            ∃ src k content,
              src ∈ find_all_markdown_files self fs ∧ route self src = Some (k, d)
              ∧ fs !! src = Some content ∧ fs' !! d = Some content).
Proof.
  intros Hw%plain_tree_writable.
  destruct (copy_all_writable self (find_all_markdown_files self fs) empty_file_map fs Hw)
    as (fm & fs' & Hrun & Hw' & _ & Hcontent).
  { intros f Hf. split; [by apply (discovered_is_file self) |].
    apply find_all_markdown_files_outside_docs in Hf as (? & (rel & _ & ?) & ? & _).
    split; [by eexists | done]. }
  assert (∀ d, d ∈ all_listed fm →
               ∃ src k content,
                 src ∈ find_all_markdown_files self fs ∧ route self src = Some (k, d)
                 ∧ fs !! src = Some content ∧ fs' !! d = Some content) as Hall.
  { intros d Hd. destruct (Hcontent d Hd) as [[Hold _] | (src & k & Hsrc & Hr & Hs)];
      [by apply elem_of_nil in Hold |].
    destruct (discovered_is_file self fs src Hw Hsrc) as [content Hc].
    exists src, k, content. split; [done |]. split; [done |]. split; [done |].
    by rewrite Hs. }
  exists fm, fs'. split; [done |]. split; [done |]. split; [|done].
  intros d Hd. destruct (Hall d Hd) as (src & k & content & _ & Hr & _ & Hd').
  split; [by eexists |].
  pose proof (route_below_docs self src d k [] Hr) as H. by rewrite app_nil_r in H.
Qed.



End Copy.

(** ** The run as a whole *)

Section Run.

Lemma add_reproduction_badges_keeps (file_path q : Path) (fs : FS) :
  is_Some (fs !! q) → is_Some (add_reproduction_badges file_path fs !! q).
Proof.
  unfold add_reproduction_badges. destruct (fs !! file_path); [|done].
  destruct (Py.contains badge_sentinel s); [done | apply insert_keeps].
Qed.

Lemma add_badges_to_all_keeps (workflow_files : list Path) (q : Path) (fs : FS) :
  is_Some (fs !! q) → is_Some (add_badges_to_all workflow_files fs !! q).
Proof.
  revert fs. induction workflow_files as [|f rest IH]; intros fs H; [done |].
  apply IH. by apply add_reproduction_badges_keeps.
Qed.

Lemma add_cross_references_to_all_total (workflow_files : list Path)
    (workflow_links : list (string * string)) (fs : FS) :
  ∃ fs',
    add_cross_references_to_all workflow_files workflow_links fs = Some fs'
    ∧ ∀ q, is_Some (fs !! q) → is_Some (fs' !! q).
Proof.
  revert fs. induction workflow_files as [|f rest IH]; intros fs.
  - by exists fs.
  - change (add_cross_references_to_all (f :: rest) workflow_links fs)
      with (add_cross_references_to_file f workflow_links fs
              ≫= add_cross_references_to_all rest workflow_links).
    rewrite add_cross_references_to_file_eq.
    match goal with |- context [Some ?m ≫= _] => destruct (IH m) as (fs' & H & Hkeep) end.
    exists fs'. split; [exact H |]. intros q Hq. apply Hkeep.
    destruct (fs !! f) as [content|]; [|done].
    destruct (Py.contains related_header content); [done |].
    destruct (related_for f workflow_links); [done | by apply insert_keeps].
Qed.

Lemma issues_of_file_eq (available : gset string) (file_path : Path) content :
  issues_of_file available file_path content
  = broken_link_message file_path
      <$> List.filter (link_is_reported available) (Py.findall_links content).
Proof.
  unfold issues_of_file.
  assert (∀ links issues,
            foldl (λ issues link,
                     if Py.startswith "http" link.2 then issues
                     else if bool_decide (link.2 ∉ available)
                          then issues ++ [broken_link_message file_path link]
                          else issues) issues links
            = issues ++ (broken_link_message file_path
                           <$> List.filter (link_is_reported available) links)) as H.
  { induction links as [|link links IH]; intros issues.
    - by rewrite app_nil_r.
    - change (List.filter (link_is_reported available) (link :: links))
        with (if link_is_reported available link
              then link :: List.filter (link_is_reported available) links
              else List.filter (link_is_reported available) links).
      unfold link_is_reported at 1.
      cbn [foldl]. rewrite IH.
      destruct (Py.startswith "http" link.2); [done |].
      destruct (bool_decide (link.2 ∉ available)); [|done].
      by rewrite fmap_cons, <- app_assoc. }
  apply H.
Qed.

Lemma check_files_eq (available : gset string) (all_files : list Path) (fs : FS)
    (issues : list string) :
  (∀ f, f ∈ all_files → is_Some (fs !! f)) →
  check_files available all_files fs issues
  = Some (issues
          ++ flat_map (λ f, issues_of_file available f (default "" (fs !! f))) all_files).
Proof.
  revert issues. induction all_files as [|f rest IH]; intros issues Hex.
  - by rewrite app_nil_r.
  - destruct (Hex f) as [content Hc]; [apply list_elem_of_here |].
    change (check_files available (f :: rest) fs issues)
      with (fs !! f ≫= λ content,
              check_files available rest fs (issues ++ issues_of_file available f content)).
    rewrite Hc. cbn [mbind option_bind]. rewrite IH.
    + cbn [flat_map]. rewrite Hc. cbn [default]. by rewrite app_assoc.
    + intros g Hg. apply Hex. by apply list_elem_of_further.
Qed.

Lemma available_files_total (docs : Path) (all_files : list Path) :
  (∀ f, f ∈ all_files → is_Some (Path.relative_to docs f)) →
  ∃ available,
    available_files docs all_files = Some available
    ∧ ∀ target, target ∈ available ↔
        ∃ f relative, f ∈ all_files ∧ Path.relative_to docs f = Some relative
                      ∧ (target = Path.name f ∨ target = Path.str relative).
Proof.
  induction all_files as [|f rest IH]; intros Hrel.
  - exists ∅. split; [done |]. intros target. split; [set_solver |].
    intros (g & _ & Hg & _). by apply elem_of_nil in Hg.
  - destruct (Hrel f) as [relative Hf]; [apply list_elem_of_here |].
    destruct IH as (available & Hav & Hmem).
    { intros g Hg. apply Hrel. by apply list_elem_of_further. }
    exists ({[Path.name f]} ∪ {[Path.str relative]} ∪ available). split.
    + change (available_files docs (f :: rest))
        with (Path.relative_to docs f ≫= λ relative,
                available_files docs rest ≫= λ available,
                  Some ({[Path.name f]} ∪ {[Path.str relative]} ∪ available)).
      by rewrite Hf, Hav.
    + intros target. rewrite !elem_of_union, !elem_of_singleton, Hmem. split.
      * intros [[-> | ->] | (g & r & Hg & Hr & Ht)].
        -- exists f, relative. split; [apply list_elem_of_here | auto].
        -- exists f, relative. split; [apply list_elem_of_here | auto].
        -- exists g, r. split; [by apply list_elem_of_further | auto].
      * intros (g & r & Hg & Hr & Ht). apply elem_of_cons in Hg as [-> | Hg].
        -- left. rewrite Hf in Hr. simplify_eq. destruct Ht; auto.
        -- right. by exists g, r.
Qed.

Lemma validate_internal_links_eq (self : DocumentationBuilder) (file_map : FileMap)
    (fs : FS) (available : gset string) :
  (∀ f, f ∈ all_listed file_map → is_Some (fs !! f)) →
  available_files (docs_path self) (all_listed file_map) = Some available →
  validate_internal_links self file_map fs
  = Some (flat_map
            (λ f, broken_link_message f
                    <$> List.filter (link_is_reported available)
                          (Py.findall_links (default "" (fs !! f))))
            (all_listed file_map)).
Proof.
  intros Hex Hav. unfold validate_internal_links. rewrite Hav. cbn [mbind option_bind].
  rewrite check_files_eq by done.
  rewrite app_nil_l. f_equal. apply flat_map_ext. intros f. apply issues_of_file_eq.
Qed.

(** What validation returns on listed files that exist below the documentation
    directory. *)
Lemma validate_internal_links_of_listed (self : DocumentationBuilder)
    (file_map : FileMap) (fs : FS) :
  (∀ f, f ∈ all_listed file_map →
        is_Some (fs !! f) ∧ is_Some (Path.relative_to (docs_path self) f)) →
  ∃ available,
    available_files (docs_path self) (all_listed file_map) = Some available
    ∧ (∀ target, target ∈ available ↔
         ∃ f relative, f ∈ all_listed file_map
                       ∧ Path.relative_to (docs_path self) f = Some relative
                       ∧ (target = Path.name f ∨ target = Path.str relative))
    ∧ validate_internal_links self file_map fs
      = Some (flat_map
                (λ f, broken_link_message f
                        <$> List.filter (link_is_reported available)
                              (Py.findall_links (default "" (fs !! f))))
                (all_listed file_map))
    ∧ (∀ link, link_is_reported available link = true ↔
               Py.startswith "http" link.2 = false ∧ link.2 ∉ available)
    ∧ (∀ f text target,
         all_listed file_map = [f] →
         Py.findall_links (default "" (fs !! f)) = [(text, target)] →
         Py.startswith "http" target = false →
         target ∉ available →
         validate_internal_links self file_map fs
         = Some ["Broken link in " +:+ Path.name f +:+ ": [" +:+ text +:+ "]("
                   +:+ target +:+ ")"]).
Proof.
  intros Hok.
  destruct (available_files_total (docs_path self) (all_listed file_map))
    as (available & Hav & Hmem); [intros f Hf; by apply Hok |].
  assert (validate_internal_links self file_map fs
          = Some (flat_map
                    (λ f, broken_link_message f
                            <$> List.filter (link_is_reported available)
                                  (Py.findall_links (default "" (fs !! f))))
                    (all_listed file_map))) as Hval.
  { apply validate_internal_links_eq; [intros f Hf; by apply Hok | done]. }
  assert (∀ link, link_is_reported available link = true ↔
                  Py.startswith "http" link.2 = false ∧ link.2 ∉ available) as Hrep.
  { intros link. unfold link_is_reported.
    destruct (Py.startswith "http" link.2); [intuition discriminate |].
    rewrite bool_decide_eq_true. tauto. }
  exists available. split; [done |]. split; [done |]. split; [done |]. split; [done |].
  intros f text target Hone Hlinks Hhttp Hnew.
  rewrite Hval, Hone. cbn [flat_map]. rewrite Hlinks.
  change (List.filter (link_is_reported available) [(text, target)])
    with (if link_is_reported available (text, target) then [(text, target)] else []).
  rewrite (proj2 (Hrep (text, target))) by done. reflexivity.
Qed.

Lemma add_badges_to_all_back (workflow_files : list Path) (q : Path) (fs : FS) :
  is_Some (add_badges_to_all workflow_files fs !! q) → is_Some (fs !! q).
Proof.
  revert fs. induction workflow_files as [|f rest IH]; intros fs H; [done |].
  apply IH in H. unfold add_reproduction_badges in H.
  destruct (fs !! f) as [content|] eqn:E; [|done].
  destruct (Py.contains badge_sentinel content); [done |].
  apply lookup_insert_is_Some in H as [<- | [_ H]]; [by rewrite E | done].
Qed.

Lemma add_cross_references_to_all_back (workflow_files : list Path)
    (workflow_links : list (string * string)) (q : Path) (fs fs' : FS) :
  add_cross_references_to_all workflow_files workflow_links fs = Some fs' →
  is_Some (fs' !! q) → is_Some (fs !! q).
Proof.
  revert fs. induction workflow_files as [|f rest IH]; intros fs Hrun H.
  - cbn in Hrun. by simplify_eq.
  - change (add_cross_references_to_all (f :: rest) workflow_links fs)
      with (add_cross_references_to_file f workflow_links fs
              ≫= add_cross_references_to_all rest workflow_links) in Hrun.
    rewrite add_cross_references_to_file_eq in Hrun. cbn [mbind option_bind] in Hrun.
    apply (IH _ Hrun) in H.
    destruct (fs !! f) as [content|] eqn:E; [|done].
    destruct (Py.contains related_header content); [done |].
    destruct (related_for f workflow_links); [done |].
    apply lookup_insert_is_Some in H as [<- | [_ H]]; [by rewrite E | done].
Qed.

Lemma write_text_Some (p : Path) (content : string) (fs fs' : FS) :
  write_text p content fs = Some fs' → fs' = <[p := content]> fs.
Proof. unfold write_text. destruct (_ || _); [done |]. by intros [= <-]. Qed.

(** The linter's outcome has no part in the files. *)
Lemma build_documentation_files (self : DocumentationBuilder) (lint : lint_run) (fs : FS) :
  fst <$> build_documentation self lint fs = build_files self fs.
Proof.
  unfold build_documentation, build_files.
  destruct (copy_and_organize_files self fs) as [[file_map fs1]|]; [|done].
  cbn [mbind option_bind].
  destruct (create_cross_references file_map (add_badges_to_all (workflows file_map) fs1))
    as [fs2|]; [|done].
  cbn [mbind option_bind].
  destruct (generate_index_readme self file_map fs2) as [[fs3 line]|]; [|done].
  cbn [mbind option_bind].
  destruct (validate_internal_links self file_map fs3) as [link_issues|]; [|done].
  cbn [mbind option_bind].
  by destruct (run_markdown_lint lint).
Qed.

(** When the steps before the lint step return, the run returns and prints
    the message of the lint step. *)
Lemma build_documentation_printed (self : DocumentationBuilder) (lint : lint_run)
    (fs fs' : FS) :
  build_files self fs = Some fs' →
  ∃ printed,
    build_documentation self lint fs = Some (fs', printed)
    ∧ (run_markdown_lint lint).2 ∈ printed.
Proof.
  unfold build_documentation, build_files.
  destruct (copy_and_organize_files self fs) as [[file_map fs1]|]; [|done].
  cbn [mbind option_bind].
  destruct (create_cross_references file_map (add_badges_to_all (workflows file_map) fs1))
    as [fs2|]; [|done].
  cbn [mbind option_bind].
  destruct (generate_index_readme self file_map fs2) as [[fs3 line]|]; [|done].
  cbn [mbind option_bind].
  destruct (validate_internal_links self file_map fs3) as [link_issues|]; [|done].
  cbn [mbind option_bind]. intros [= <-].
  destruct (run_markdown_lint lint) as [lint_passed lint_message].
  eexists. split; [reflexivity |].
  cbn [snd]. rewrite !elem_of_app, !list_elem_of_singleton. tauto.
Qed.

(** On a plain tree the steps before the lint step return. *)
Lemma build_files_plain (self : DocumentationBuilder) (fs : FS) :
  plain_tree self fs → is_Some (build_files self fs).
Proof.
  intros Hp. unfold build_files.
  destruct (copy_and_organize_files_plain self fs Hp) as (file_map & fs1 & -> & Hw & Hok & _).
  cbn [mbind option_bind]. unfold create_cross_references.
  destruct (add_cross_references_to_all_total (workflows file_map)
              (build_workflow_links (workflows file_map))
              (add_badges_to_all (workflows file_map) fs1)) as (fs2 & Hcross & Hkeep).
  rewrite Hcross. cbn [mbind option_bind].
  assert (writable self fs2) as Hw2.
  { apply (writable_anti self fs1); [|done]. intros q Hq.
    eapply add_badges_to_all_back, add_cross_references_to_all_back; done. }
  unfold generate_index_readme.
  pose proof (write_text_writable self fs2 ToMain "README.md"
                (index_text file_map fs2) Hw2 eq_refl) as Hwrite.
  cbn [directory_of] in Hwrite. rewrite Hwrite. cbn [mbind option_bind].
  destruct (available_files_total (docs_path self) (all_listed file_map))
    as (available & Hav & _); [intros d Hd; by apply Hok |].
  rewrite (validate_internal_links_eq _ _ _ available); [|
    intros d Hd; destruct (Hok d Hd) as [Hex _];
    by apply insert_keeps, Hkeep, add_badges_to_all_keeps | done].
  cbn [mbind option_bind]. by eexists.
Qed.

(** On a plain tree the run completes, and prints the message of the lint
    step. *)
Lemma build_documentation_plain (self : DocumentationBuilder) (lint : lint_run) (fs : FS) :
  plain_tree self fs →
  ∃ fs' printed,
    build_documentation self lint fs = Some (fs', printed)
    ∧ (run_markdown_lint lint).2 ∈ printed.
Proof.
  intros [fs' Hfiles]%build_files_plain.
  destruct (build_documentation_printed self lint fs fs' Hfiles) as (printed & ? & ?).
  by exists fs', printed.
Qed.

(** C9, as the code has it.  When the listed files exist below the
    documentation directory, validation returns a list and does not raise.
    The known targets are the names of the listed files and their paths
    relative to the documentation directory.  Each listed occurrence of a file
    gives, in order, one diagnostic for each link of its text whose target
    neither starts with the four letters http nor is a known target; a target
    that starts with http gives none.  A file map with one file whose text
    has one link, with such a target, gives exactly one diagnostic, which
    names that file and that link.  On a plain tree the copy step returns a
    file map whose listed files exist below the documentation directory, and
    the whole run completes whatever the links are. *)
Theorem validate_internal_links_collects (self : DocumentationBuilder) :
  (∀ file_map fs,
      (∀ f, f ∈ all_listed file_map →
            is_Some (fs !! f) ∧ is_Some (Path.relative_to (docs_path self) f)) →
      ∃ available,
        available_files (docs_path self) (all_listed file_map) = Some available
        ∧ (∀ target, target ∈ available ↔
             ∃ f relative, f ∈ all_listed file_map
                           ∧ Path.relative_to (docs_path self) f = Some relative
                           ∧ (target = Path.name f ∨ target = Path.str relative))
        ∧ validate_internal_links self file_map fs
          = Some (flat_map
                    (λ f, broken_link_message f
                            <$> List.filter (link_is_reported available)
                                  (Py.findall_links (default "" (fs !! f))))
                    (all_listed file_map))
        ∧ (∀ link, link_is_reported available link = true ↔
                   Py.startswith "http" link.2 = false ∧ link.2 ∉ available)
        ∧ (∀ f text target,
             all_listed file_map = [f] →
             Py.findall_links (default "" (fs !! f)) = [(text, target)] →
             Py.startswith "http" target = false →
             target ∉ available →
             validate_internal_links self file_map fs
             = Some ["Broken link in " +:+ Path.name f +:+ ": [" +:+ text +:+ "]("
                       +:+ target +:+ ")"]))
  ∧ (∀ tree,
       plain_tree self tree →
       ∃ file_map fs,
         copy_and_organize_files self tree = Some (file_map, fs)
         ∧ (∀ f, f ∈ all_listed file_map →
                 is_Some (fs !! f) ∧ is_Some (Path.relative_to (docs_path self) f))
         ∧ is_Some (validate_internal_links self file_map fs))
  ∧ (∀ lint tree,
       plain_tree self tree →
       ∃ fs' printed, build_documentation self lint tree = Some (fs', printed)).
Proof.
  split; [|split].
  - intros file_map fs. apply validate_internal_links_of_listed.
  - intros tree Hp.
    destruct (copy_and_organize_files_plain self tree Hp) as (fm & fs & Hrun & _ & Hok & _).
    exists fm, fs. split; [done |]. split; [done |].
    destruct (validate_internal_links_of_listed self fm fs Hok) as (? & _ & _ & -> & _).
    by eexists.
  - intros lint tree Hp.
    destruct (build_documentation_plain self lint tree Hp) as (fs' & printed & H & _).
    by exists fs', printed.
Qed.

Lemma validate_internal_links_collects_witness :
  validate_internal_links default_builder linked_map broken_link_fs
  = Some ["Broken link in a.md: [text](nonexistent.md)"]
  ∧ ∃ fs' printed,
      build_documentation default_builder ToolNotFound two_readmes = Some (fs', printed).
Proof.
  split.
  - destruct (proj1 (validate_internal_links_collects default_builder)
                linked_map broken_link_fs)
      as (available & _ & Hmem & _ & _ & Hone).
    + intros f Hf. apply list_elem_of_singleton in Hf as ->. split.
      * unfold broken_link_fs. rewrite lookup_singleton_eq. by eexists.
      * vm_compute. by eexists.
    + apply (Hone linked_file "text" "nonexistent.md").
      * reflexivity.
      * unfold broken_link_fs. rewrite lookup_singleton_eq. vm_compute. reflexivity.
      * vm_compute. reflexivity.
      * intros Hin. apply Hmem in Hin as (g & relative & Hg & Hrel & Ht).
        apply list_elem_of_singleton in Hg as ->.
        vm_compute in Hrel. injection Hrel as <-.
        destruct Ht as [Ht | Ht]; vm_compute in Ht; discriminate Ht.
  - apply (proj2 (proj2 (validate_internal_links_collects default_builder))
             ToolNotFound two_readmes).
    plain_tree_by_computation.
Defined.

(** C9, as the claim has it, fails twice.  The test for external links is the
    prefix http, so a target with another URL scheme is reported as broken.
    And two source files with one name are copied to one destination that is
    listed twice, so its one broken link gives two diagnostics. *)
Lemma validation_scheme_and_repeats :
  (begins_with_url_scheme "ftp://example.org/data.md" = true
   ∧ validate_internal_links default_builder linked_map ftp_link_fs
     = Some ["Broken link in a.md: [data](ftp://example.org/data.md)"])
  ∧ (fst <$> copy_and_organize_files default_builder two_readmes
     = Some {| workflows := [["docs"; "workflows"; "README.md"];
                             ["docs"; "workflows"; "README.md"]];
               examples := []; rules := []; main := [] |}
     ∧ ('(file_map, fs) ← copy_and_organize_files default_builder two_readmes;
        validate_internal_links default_builder file_map fs)
       = Some ["Broken link in README.md: [text](nonexistent.md)";
               "Broken link in README.md: [text](nonexistent.md)"]).
Proof. repeat split; vm_compute; reflexivity. Qed.

(** C10.  When the executable is not found, the lint step returns a failure
    with the message that names the missing tool.  A lint run that ends with
    a return code other than zero returns a failure with another message,
    whatever the tool wrote, and so does every other outcome of the linter.
    The missing tool does not stop the run: the run completes with the tool
    missing exactly when it completes with any other outcome of the linter,
    with the same files, and it prints the message of the missing tool; on a
    plain tree it does complete. *)
Theorem run_markdown_lint_tool_not_found :
  run_markdown_lint ToolNotFound
  = (false, "❌ markdownlint not found. Please install with: npm install -g markdownlint-cli")
  ∧ (∀ returncode stdout,
       returncode ≠ 0%Z →
       run_markdown_lint (Completed returncode stdout)
       = (false, ("❌ Markdown linting issues:" +:+ Py.nl) +:+ stdout)
       ∧ (run_markdown_lint (Completed returncode stdout)).2
         ≠ (run_markdown_lint ToolNotFound).2)
  ∧ (∀ lint, lint ≠ ToolNotFound →
             (run_markdown_lint lint).2 ≠ (run_markdown_lint ToolNotFound).2)
  ∧ (∀ self fs lint fs' printed,
       build_documentation self lint fs = Some (fs', printed) →
       ∃ printed',
         build_documentation self ToolNotFound fs = Some (fs', printed')
         ∧ "❌ markdownlint not found. Please install with: npm install -g markdownlint-cli"
           ∈ printed')
  ∧ (∀ self fs lint fs' printed,
       build_documentation self ToolNotFound fs = Some (fs', printed) →
       ∃ printed', build_documentation self lint fs = Some (fs', printed'))
  ∧ (∀ self fs,
       plain_tree self fs →
       ∃ fs' printed,
         build_documentation self ToolNotFound fs = Some (fs', printed)
         ∧ "❌ markdownlint not found. Please install with: npm install -g markdownlint-cli"
           ∈ printed).
Proof.
  assert (∀ returncode stdout,
            returncode ≠ 0%Z →
            run_markdown_lint (Completed returncode stdout)
            = (false, ("❌ Markdown linting issues:" +:+ Py.nl) +:+ stdout)
            ∧ (run_markdown_lint (Completed returncode stdout)).2
              ≠ (run_markdown_lint ToolNotFound).2) as Hfail.
  { intros returncode stdout Hrc.
    assert (run_markdown_lint (Completed returncode stdout)
            = (false, ("❌ Markdown linting issues:" +:+ Py.nl) +:+ stdout)) as ->.
    { unfold run_markdown_lint. by rewrite (proj2 (Z.eqb_neq returncode 0) Hrc). }
    split; [done |]. intros H. vm_compute in H. discriminate H. }
  split; [reflexivity |]. split; [exact Hfail |]. split; [|split; [|split]].
  - intros [|returncode stdout] Hne; [done |].
    destruct (decide (returncode = 0%Z)) as [-> | Hrc]; [|by apply Hfail].
    intros H. vm_compute in H. discriminate H.
  - intros self fs lint fs' printed Hrun.
    pose proof (build_documentation_files self lint fs) as Hfiles.
    rewrite Hrun in Hfiles. cbn [fmap option_fmap option_map fst] in Hfiles.
    symmetry in Hfiles.
    exact (build_documentation_printed self ToolNotFound fs fs' Hfiles).
  - intros self fs lint fs' printed Hrun.
    pose proof (build_documentation_files self ToolNotFound fs) as Hfiles.
    rewrite Hrun in Hfiles. cbn [fmap option_fmap option_map fst] in Hfiles.
    symmetry in Hfiles.
    destruct (build_documentation_printed self lint fs fs' Hfiles) as (printed' & H & _).
    by exists printed'.
  - intros self fs Hp. exact (build_documentation_plain self ToolNotFound fs Hp).
Qed.

Lemma run_markdown_lint_tool_not_found_witness :
  (run_markdown_lint (Completed 1 "docs/README.md:3 MD012 Multiple blank lines")
   = (false, ("❌ Markdown linting issues:" +:+ Py.nl)
               +:+ "docs/README.md:3 MD012 Multiple blank lines")
   ∧ (run_markdown_lint (Completed 1 "docs/README.md:3 MD012 Multiple blank lines")).2
     ≠ (run_markdown_lint ToolNotFound).2)
  ∧ ∃ fs' printed,
      build_documentation default_builder ToolNotFound two_readmes = Some (fs', printed)
      ∧ "❌ markdownlint not found. Please install with: npm install -g markdownlint-cli"
        ∈ printed.
Proof.
  split.
  - apply (proj1 (proj2 run_markdown_lint_tool_not_found)). done.
  - apply (proj2 (proj2 (proj2 (proj2 (proj2 run_markdown_lint_tool_not_found))))).
    plain_tree_by_computation.
Defined.

(** C1.  On the tree with the one file workflows/01_data_wrangling/intro.md
    that holds the heading Intro, the run completes whatever the linter does.
    The copy docs/workflows/intro.md holds the heading followed by the badge
    block.  The index docs/README.md holds the link to the copy, but under
    the heading of the category 00_other: the category is looked up in the
    path of the copy, which has lost the directory 01_data_wrangling, and the
    label of the data wrangling category occurs nowhere in the index. *)
Theorem minimal_tree_index (lint : lint_run) :
  ∃ fs' printed index,
    build_documentation default_builder lint minimal_tree = Some (fs', printed)
    ∧ fs' !! ["docs"; "workflows"; "intro.md"] = Some ("# Intro" +:+ Py.nl +:+ badge_section)
    ∧ fs' !! ["docs"; "README.md"] = Some index
    ∧ determine_category ["docs"; "workflows"; "intro.md"] = "00_other"
    ∧ Py.contains
        (Py.nl +:+ "#### 00_other" +:+ Py.nl +:+ Py.nl
           +:+ "- [Intro](workflows/intro.md)" +:+ Py.nl) index = true
    ∧ Py.contains "Data Wrangling" index = false.
Proof.
  assert (plain_tree default_builder minimal_tree) as Hp
    by (plain_tree_by_computation).
  destruct (build_documentation_plain default_builder lint minimal_tree Hp)
    as (fs' & printed & Hrun & _).
  pose proof (build_documentation_files default_builder lint minimal_tree) as Hfiles.
  rewrite Hrun in Hfiles. cbn [fmap option_fmap option_map fst] in Hfiles.
  assert (fs' !! ["docs"; "workflows"; "intro.md"]
          = build_files default_builder minimal_tree
              ≫= λ m : FS, m !! ["docs"; "workflows"; "intro.md"]) as Hcopy
    by (by rewrite <- Hfiles).
  assert (fs' !! ["docs"; "README.md"]
          = build_files default_builder minimal_tree
              ≫= λ m : FS, m !! ["docs"; "README.md"]) as Hindex
    by (by rewrite <- Hfiles).
  destruct (fs' !! ["docs"; "README.md"]) as [index|] eqn:Hi;
    [|vm_compute in Hindex; discriminate Hindex].
  exists fs', printed, index.
  split; [done |].
  split; [rewrite Hcopy; vm_compute; reflexivity |].
  split; [done |].
  split; [vm_compute; reflexivity |].
  assert (Some index = build_files default_builder minimal_tree
                         ≫= λ m : FS, m !! ["docs"; "README.md"]) as Hidx by done.
  vm_compute in Hidx. injection Hidx as ->.
  split; vm_compute; reflexivity.
Qed.

End Run.

(** * Further properties *)

(** ** Discovery *)

Section DiscoveryFacts.

(** X1.  A discovered path has a name that ends in [.md], lies below the
    base directory, and does not lie below the documentation directory: the
    run never takes its own output for a source.  It is a file or a
    directory, since the patterns match both; and when a discovered path
    that passes one of the four tests of the copy loop is a directory, the
    copy step raises. *)
Theorem discovered_files_are_sources (self : DocumentationBuilder) (fs : FS) (p : Path) :
  p ∈ find_all_markdown_files self fs →
  Py.endswith ".md" (Path.name p) = true
  ∧ (∃ rel, rel ≠ [] ∧ Path.relative_to (base_path self) p = Some rel)
  ∧ Path.relative_to (docs_path self) p = None
  ∧ (is_Some (fs !! p) ∨ is_dir fs p = true)
  ∧ (fs !! p = None → route self p ≠ None → copy_and_organize_files self fs = None).
Proof.
  intros Hp.
  pose proof (find_all_markdown_files_outside_docs self fs p Hp) as (H1 & H2 & H3 & H4).
  split; [done |]. split; [done |]. split; [done |]. split; [done |].
  intros Hnone Hroute.
  destruct (copy_and_organize_files self fs) as [[file_map fs']|] eqn:Hrun; [|done].
  pose proof (copy_and_organize_files_returned self fs fs' file_map Hrun) as (_ & _ & _ & Hsrc).
  destruct (Hsrc p Hp Hroute) as [content Hc]. congruence.
Qed.

Lemma discovered_files_are_sources_witness :
  (Py.endswith ".md" (Path.name ["workflows"; "notes.md"]) = true
   ∧ Path.relative_to (docs_path default_builder) ["workflows"; "notes.md"] = None
   ∧ is_dir md_directory_tree ["workflows"; "notes.md"] = true
   ∧ copy_and_organize_files default_builder md_directory_tree = None)
  ∧ find_all_markdown_files default_builder empty_md_directory_tree
    = [["workflows"; "notes.md"]]
  ∧ copy_and_organize_files default_builder empty_md_directory_tree = None.
Proof.
  split; [|split; [vm_compute; reflexivity |]].
  - destruct (discovered_files_are_sources default_builder md_directory_tree
                ["workflows"; "notes.md"]) as (H1 & _ & H3 & _ & H5).
    + vm_compute. apply list_elem_of_here.
    + split; [exact H1 |]. split; [exact H3 |]. split; [vm_compute; reflexivity |].
      apply H5; [vm_compute; reflexivity | vm_compute; discriminate].
  - destruct (discovered_files_are_sources default_builder empty_md_directory_tree
                ["workflows"; "notes.md"]) as (_ & _ & _ & _ & H5).
    + vm_compute. apply list_elem_of_here.
    + apply H5; [vm_compute; reflexivity | vm_compute; discriminate].
Defined.

End DiscoveryFacts.

(** ** The copy step, file by file *)

Section CopyFacts.

(** X2.  When the copy step returns, each list of the file map is, in the
    order of discovery and with repetitions, the list of the destinations that
    [route] gives to the discovered files for that list; every destination is
    a path right in the directory of its list, named as its source; and the
    four lists together have one entry for each discovered file that is not
    dropped. *)
Theorem copy_and_organize_files_lists (self : DocumentationBuilder) (fs fs' : FS)
    (file_map : FileMap) :
  copy_and_organize_files self fs = Some (file_map, fs') →
  (∀ k, list_of k file_map = routed_to self k (find_all_markdown_files self fs))
  ∧ (∀ k d, d ∈ list_of k file_map →
            ∃ src, src ∈ find_all_markdown_files self fs
                   ∧ d = directory_of self k ++ [Path.name src])
  ∧ length (all_listed file_map)
    = length (List.filter (λ f, negb (dropped self f)) (find_all_markdown_files self fs)).
Proof.
  intros Hrun.
  pose proof (copy_and_organize_files_returned self fs fs' file_map Hrun) as (Hlists & _).
  split; [done |]. split.
  - intros k d Hd. rewrite Hlists in Hd.
    apply elem_of_routed_to in Hd as (src & Hsrc & Hr).
    exists src. split; [done |]. by apply route_dest in Hr.
  - unfold all_listed. rewrite !length_app.
    change (workflows file_map) with (list_of ToWorkflows file_map).
    change (examples file_map) with (list_of ToExamples file_map).
    change (rules file_map) with (list_of ToRules file_map).
    change (main file_map) with (list_of ToMain file_map).
    rewrite !Hlists, <- length_routed_to; [lia |].
    intros f Hf. apply find_all_markdown_files_outside_docs in Hf as (_ & (rel & _ & ?) & _).
    by eexists.
Qed.

(** X3.  When the copy step returns, it has written below the documentation
    directory only: every path outside it, and so every discovered path,
    holds after the step what it held before; and every discovered path that
    passes one of the four tests of the loop was a file. *)
Theorem copy_and_organize_files_keeps_sources (self : DocumentationBuilder) (fs fs' : FS)
    (file_map : FileMap) :
  copy_and_organize_files self fs = Some (file_map, fs') →
  (∀ q, Path.relative_to (docs_path self) q = None → fs' !! q = fs !! q)
  ∧ (∀ src, src ∈ find_all_markdown_files self fs → fs' !! src = fs !! src)
  ∧ (∀ src, src ∈ find_all_markdown_files self fs → dropped self src = false →
            is_Some (fs !! src)).
Proof.
  intros Hrun.
  pose proof (copy_and_organize_files_returned self fs fs' file_map Hrun)
    as (_ & _ & Hframe & Hsrc).
  split; [done |]. split.
  - intros src Hin. apply Hframe.
    by apply find_all_markdown_files_outside_docs in Hin as (_ & _ & ? & _).
  - intros src Hin Hd. apply Hsrc; [done |].
    rewrite route_none_dropped in Hd.
    + by destruct (route self src).
    + apply find_all_markdown_files_outside_docs in Hin as (_ & (rel & _ & ?) & _).
      by eexists.
Qed.

(** X4.  On a plain tree the copy step returns, and afterwards every listed
    destination exists and holds, character for character, the text of a
    discovered source with the same name that [route] sends there. *)
Theorem copy_and_organize_files_verbatim (self : DocumentationBuilder) (fs : FS) :
  plain_tree self fs →
  ∃ file_map fs',
    copy_and_organize_files self fs = Some (file_map, fs')
    ∧ ∀ d, d ∈ all_listed file_map →
           ∃ src k content,
             src ∈ find_all_markdown_files self fs
             ∧ route self src = Some (k, d)
             ∧ Path.name d = Path.name src
             ∧ fs !! src = Some content
             ∧ fs' !! d = Some content.
Proof.
  intros Hp.
  destruct (copy_and_organize_files_plain self fs Hp) as (fm & fs' & Hrun & _ & _ & Hcontent).
  exists fm, fs'. split; [done |].
  intros d Hd. destruct (Hcontent d Hd) as (src & k & content & Hsrc & Hroute & Hc & Hd').
  exists src, k, content. split; [done |]. split; [done |].
  split; [rewrite (route_dest _ _ _ _ Hroute); by rewrite name_app |].
  split; done.
Qed.

End CopyFacts.

(** ** Where the badge block goes, and what it leaves alone *)

Section BadgeFacts.

Lemma list_insert_at_take_drop {A} i (x : A) (ls : list A) :
  Py.list_insert_at i x ls = take i ls ++ x :: drop i ls.
Proof.
  revert i. induction ls as [|l ls IH]; intros [|i]; try reflexivity.
  cbn [Py.list_insert_at take drop]. by rewrite IH.
Qed.

Lemma first_heading_app k (before rest : list string) :
  Forall (λ l, Py.startswith "#" l = false) before →
  first_heading k (before ++ rest) = first_heading (k + length before) rest.
Proof.
  intros H. revert k. induction H as [|l before Hl _ IH]; intros k.
  - by rewrite Nat.add_0_r.
  - rewrite <- app_comm_cons, first_heading_cons, Hl, IH. cbn [andb length].
    f_equal. lia.
Qed.

(** X5.  When the text has no sentinel and its first line that starts with a
    hash sign is among the first ten, the badge block is put right after that
    line; the lines before it, the heading and the lines after it are kept as
    they are and in their order. *)
Theorem add_reproduction_badges_after_heading (file_path : Path) (fs : FS)
    (content heading : string) (before after : list string) :
  fs !! file_path = Some content →
  Py.contains badge_sentinel content = false →
  Py.split_nl content = before ++ heading :: after →
  length before < 10 →
  Py.startswith "#" heading = true →
  Forall (λ line, Py.startswith "#" line = false) before →
  add_reproduction_badges file_path fs
  = <[file_path := Py.join Py.nl (before ++ heading :: badge_section :: after)]> fs.
Proof.
  intros Hc Hs Hsplit Hlen Hhead Hbefore.
  unfold add_reproduction_badges. rewrite Hc, Hs. f_equal.
  unfold with_badges. rewrite Hsplit, first_heading_app, first_heading_cons, Hhead by done.
  rewrite (proj2 (Nat.ltb_lt _ _)) by (cbn; lia). cbn [andb].
  rewrite list_insert_at_take_drop.
  replace (0 + length before + 1) with (length (before ++ [heading]))
    by (rewrite length_app; cbn; lia).
  rewrite (app_assoc before [heading] after : before ++ heading :: after = _).
  rewrite take_app_length, drop_app_length. by rewrite <- app_assoc.
Qed.

Lemma add_reproduction_badges_after_heading_witness :
  add_reproduction_badges ["docs"; "workflows"; "reef.md"]
    {[ ["docs"; "workflows"; "reef.md"] := preamble_text ]}
  = <[ ["docs"; "workflows"; "reef.md"] :=
         Py.join Py.nl (["---"; "title: reefs"; "---"]
                        ++ "# Reef survey" :: badge_section :: ["Text."; "## Methods"]) ]>
      {[ ["docs"; "workflows"; "reef.md"] := preamble_text ]}.
Proof.
  apply (add_reproduction_badges_after_heading _ _ preamble_text).
  - apply lookup_singleton_eq.
  - vm_compute. reflexivity.
  - vm_compute. reflexivity.
  - cbn. lia.
  - reflexivity.
  - repeat (constructor; [reflexivity |]). constructor.
Defined.

Lemma split_nl_cons c s :
  Py.split_nl (String c s)
  = if Ascii.eqb c Py.nl_char then "" :: Py.split_nl s
    else match Py.split_nl s with
         | [] => [String c ""]
         | l :: ls => String c l :: ls
         end.
Proof. reflexivity. Qed.

Lemma split_nl_app_nl a b :
  Py.split_nl (a +:+ Py.nl +:+ b) = Py.split_nl a ++ Py.split_nl b.
Proof.
  induction a as [|c a IH].
  - reflexivity.
  - rewrite string_app_cons, !split_nl_cons, IH.
    destruct (Ascii.eqb c Py.nl_char); [done |].
    pose proof (split_nl_nonempty a). by destruct (Py.split_nl a).
Qed.

Lemma split_nl_join (ls : list string) :
  ls ≠ [] → Py.split_nl (Py.join Py.nl ls) = flat_map Py.split_nl ls.
Proof.
  induction ls as [|l ls IH]; [done |]. intros _.
  destruct ls as [|l' ls].
  - cbn [Py.join flat_map]. by rewrite app_nil_r.
  - rewrite join_cons, split_nl_app_nl, IH by done. reflexivity.
Qed.

(** A line that [split] gave holds no newline: splitting it again gives the
    line. *)
Lemma split_nl_lines s : Forall (λ l, Py.split_nl l = [l]) (Py.split_nl s).
Proof.
  induction s as [|c s IH]; [by repeat constructor |].
  rewrite split_nl_cons. destruct (Ascii.eqb c Py.nl_char) eqn:E.
  - by constructor.
  - pose proof (split_nl_nonempty s).
    destruct (Py.split_nl s) as [|l ls]; [done |].
    inversion IH as [|? ? Hl Hls]; subst. constructor; [|done].
    rewrite split_nl_cons, E, Hl. reflexivity.
Qed.

Lemma flat_map_fixed {A} (f : A → list A) (ls : list A) :
  Forall (λ l, f l = [l]) ls → flat_map f ls = ls.
Proof. induction 1 as [|l ls Hl _ IH]; [done |]. cbn [flat_map]. by rewrite Hl, IH. Qed.

Lemma first_capture_app_gen P (l1 l2 : list string) :
  Py.first_capture P (l1 ++ l2)
  = match Py.first_capture P l1 with
    | Some g => Some g
    | None => Py.first_capture P l2
    end.
Proof.
  induction l1 as [|l l1 IH]; [done |].
  rewrite <- app_comm_cons, !first_capture_cons, IH.
  by destruct (Py.line_capture P l).
Qed.

(** A pattern that finds nothing in the badge block finds in the text with
    badges what it finds in the text without. *)
Lemma re_search_line_with_badges P content :
  Py.first_capture P (Py.split_nl badge_section) = None →
  Py.re_search_line P (with_badges content) = Py.re_search_line P content.
Proof.
  intros HP. unfold Py.re_search_line, with_badges.
  destruct (first_heading 0 (Py.split_nl content)) as [i|]; [|by rewrite join_split_nl].
  rewrite list_insert_at_take_drop.
  rewrite split_nl_join by (by destruct (take (i + 1) (Py.split_nl content))).
  rewrite flat_map_app. cbn [flat_map].
  pose proof (split_nl_lines content) as Hfix.
  rewrite (flat_map_fixed _ (take (i + 1) _)) by (by apply Forall_take).
  rewrite (flat_map_fixed _ (drop (i + 1) _)) by (by apply Forall_drop).
  rewrite !first_capture_app_gen, HP.
  transitivity (Py.first_capture P
                  (take (i + 1) (Py.split_nl content) ++ drop (i + 1) (Py.split_nl content)));
    [by rewrite first_capture_app_gen | by rewrite take_drop].
Qed.

Lemma first_pattern_match_with_badges (patterns : list string) content :
  Forall (λ P, Py.first_capture P (Py.split_nl badge_section) = None) patterns →
  first_pattern_match patterns (with_badges content) = first_pattern_match patterns content.
Proof.
  induction 1 as [|P patterns HP _ IH]; [done |].
  by rewrite !first_pattern_match_cons, re_search_line_with_badges, IH.
Qed.

(** X6.  Badge injection does not change a title: whatever file gets the
    badges, [extract_workflow_title] and [extract_title] return for every path
    after the step what they returned before. *)
Theorem titles_survive_badges (file_path q : Path) (fs : FS) :
  extract_workflow_title q (add_reproduction_badges file_path fs)
  = extract_workflow_title q fs
  ∧ extract_title q (add_reproduction_badges file_path fs) = extract_title q fs.
Proof.
  unfold add_reproduction_badges.
  destruct (fs !! file_path) as [content|] eqn:Hc; [|done].
  destruct (Py.contains badge_sentinel content); [done |].
  unfold extract_workflow_title, extract_title.
  destruct (decide (file_path = q)) as [<- | Hne].
  - rewrite lookup_insert_eq, Hc.
    rewrite !first_pattern_match_with_badges; [done | |];
      repeat (constructor; [vm_compute; reflexivity |]); constructor.
  - by rewrite lookup_insert_ne.
Qed.

End BadgeFacts.

(** ** Dictionaries in insertion order *)

Section DictFacts.

Lemma dict_set_cons k v k' v' (d : list (string * string)) :
  Py.dict_set k v ((k', v') :: d)
  = if String.eqb k' k then (k, v) :: d else (k', v') :: Py.dict_set k v d.
Proof. reflexivity. Qed.

Lemma dict_get_cons {V} k k' (v : V) (d : list (string * V)) :
  Py.dict_get k ((k', v) :: d) = if String.eqb k' k then Some v else Py.dict_get k d.
Proof. reflexivity. Qed.

Lemma dict_get_set_eq k v (d : list (string * string)) :
  Py.dict_get k (Py.dict_set k v d) = Some v.
Proof.
  induction d as [|[k' v'] d IH].
  - cbn [Py.dict_set]. by rewrite dict_get_cons, String.eqb_refl.
  - rewrite dict_set_cons. destruct (String.eqb k' k) eqn:E.
    + by rewrite dict_get_cons, String.eqb_refl.
    + by rewrite dict_get_cons, E.
Qed.

Lemma dict_get_set_ne k k' v (d : list (string * string)) :
  k' ≠ k → Py.dict_get k' (Py.dict_set k v d) = Py.dict_get k' d.
Proof.
  intros Hne. induction d as [|[k0 v0] d IH].
  - cbn [Py.dict_set]. rewrite dict_get_cons.
    by rewrite (proj2 (String.eqb_neq k k')).
  - rewrite dict_set_cons. destruct (String.eqb k0 k) eqn:E.
    + apply String.eqb_eq in E. subst k0.
      rewrite !dict_get_cons. by rewrite (proj2 (String.eqb_neq k k')).
    + rewrite !dict_get_cons, IH. reflexivity.
Qed.

Lemma dict_get_None {V} k (d : list (string * V)) :
  Py.dict_get k d = None ↔ k ∉ dict_keys d.
Proof.
  unfold dict_keys. induction d as [|[k' v] d IH].
  - split; [intros _ H; by apply elem_of_nil in H | done].
  - rewrite dict_get_cons, fmap_cons, not_elem_of_cons. cbn [fst].
    destruct (String.eqb k' k) eqn:E.
    + apply String.eqb_eq in E. split; [done | intros [? _]; congruence].
    + apply String.eqb_neq in E. rewrite IH. split; [intros ?; split; congruence | tauto].
Qed.

Lemma dict_keys_set k v (d : list (string * string)) :
  dict_keys (Py.dict_set k v d)
  = if bool_decide (k ∈ dict_keys d) then dict_keys d else dict_keys d ++ [k].
Proof.
  unfold dict_keys. induction d as [|[k' v'] d IH].
  - rewrite bool_decide_eq_false_2; [done | apply not_elem_of_nil].
  - rewrite dict_set_cons. destruct (String.eqb k' k) eqn:E.
    + apply String.eqb_eq in E. subst k'.
      rewrite bool_decide_eq_true_2; [done | apply list_elem_of_here].
    + apply String.eqb_neq in E. rewrite !fmap_cons, IH. cbn [fst].
      destruct (bool_decide (k ∈ d.*1)) eqn:B.
      * apply bool_decide_eq_true in B.
        by rewrite bool_decide_eq_true_2 by (by apply list_elem_of_further).
      * apply bool_decide_eq_false in B.
        rewrite bool_decide_eq_false_2; [done |].
        rewrite elem_of_cons. intros [? | ?]; congruence.
Qed.

Lemma dict_set_NoDup k v (d : list (string * string)) :
  NoDup (dict_keys d) → NoDup (dict_keys (Py.dict_set k v d)).
Proof.
  intros H. rewrite dict_keys_set. case_bool_decide; [done |].
  apply NoDup_app. split; [done |]. split; [|apply NoDup_singleton].
  intros x Hx Hk. apply list_elem_of_singleton in Hk. by subst.
Qed.

(** The dictionaries of the script keep the behaviour of a Python
    dictionary: a key that was set is read back with its value, the other keys
    read as before, a key that was there keeps its place in the order, a new
    key goes to the end, and the keys stay distinct. *)
Theorem dict_set_get (k v : string) (d : list (string * string)) :
  Py.dict_get k (Py.dict_set k v d) = Some v
  ∧ (∀ k', k' ≠ k → Py.dict_get k' (Py.dict_set k v d) = Py.dict_get k' d)
  ∧ dict_keys (Py.dict_set k v d)
    = (if bool_decide (k ∈ dict_keys d) then dict_keys d else dict_keys d ++ [k])
  ∧ (NoDup (dict_keys d) → NoDup (dict_keys (Py.dict_set k v d))).
Proof.
  split; [apply dict_get_set_eq |].
  split; [intros k' Hk'; by apply dict_get_set_ne |].
  split; [apply dict_keys_set | apply dict_set_NoDup].
Qed.

Lemma dict_set_get_witness :
  Py.dict_get "a" (Py.dict_set "b" "2" [("a", "1"); ("b", "0")]) = Some "1"
  ∧ NoDup (dict_keys (Py.dict_set "b" "2" [("a", "1"); ("b", "0")])).
Proof.
  split.
  - rewrite (proj1 (proj2 (dict_set_get "b" "2" [("a", "1"); ("b", "0")])) "a"); done.
  - apply (dict_set_get "b" "2" [("a", "1"); ("b", "0")]).
    apply NoDup_cons. split.
    + intros H. apply list_elem_of_singleton in H. discriminate H.
    + apply NoDup_singleton.
Defined.

End DictFacts.

(** ** The link map and the related workflows *)

Section LinkFacts.

Lemma build_workflow_links_eq (workflow_files : list Path) :
  build_workflow_links workflow_files = foldl link_step [] workflow_files.
Proof. reflexivity. Qed.

Lemma link_step_keeps k v links f :
  Py.dict_get k links = Some v → Py.dict_get k (link_step links f) = Some v.
Proof.
  intros H. unfold link_step.
  destruct (Py.dict_get (Path.stem f) links) eqn:E; [done |].
  rewrite dict_get_set_ne; [done |]. intros ->. congruence.
Qed.

Lemma foldl_link_step_keeps k v links (files : list Path) :
  Py.dict_get k links = Some v → Py.dict_get k (foldl link_step links files) = Some v.
Proof.
  revert links. induction files as [|f files IH]; intros links H; [done |].
  cbn [foldl]. by apply IH, link_step_keeps.
Qed.

Lemma foldl_link_step_first links (before after : list Path) f :
  Py.dict_get (Path.stem f) links = None →
  Forall (λ g, Path.stem g ≠ Path.stem f) before →
  Py.dict_get (Path.stem f) (foldl link_step links (before ++ f :: after))
  = Some ("workflows/" +:+ Path.name f).
Proof.
  intros Hnone Hbefore. revert links Hnone.
  induction Hbefore as [|g before Hg _ IH]; intros links Hnone.
  - cbn [app foldl]. apply foldl_link_step_keeps.
    unfold link_step. rewrite Hnone. apply dict_get_set_eq.
  - cbn [app foldl]. apply IH. unfold link_step.
    destruct (Py.dict_get (Path.stem g) links); [done |].
    by rewrite dict_get_set_ne.
Qed.

Lemma foldl_link_step_keys links (files : list Path) :
  NoDup (dict_keys links) →
  NoDup (dict_keys (foldl link_step links files))
  ∧ ∀ k, k ∈ dict_keys (foldl link_step links files) ↔
         k ∈ dict_keys links ∨ ∃ f, f ∈ files ∧ Path.stem f = k.
Proof.
  revert links. induction files as [|f files IH]; intros links Hnd.
  - split; [done |]. intros k. split; [auto |].
    intros [? | (f & Hf & _)]; [done | by apply elem_of_nil in Hf].
  - cbn [foldl].
    assert (NoDup (dict_keys (link_step links f))
            ∧ ∀ k, k ∈ dict_keys (link_step links f) ↔
                   k ∈ dict_keys links ∨ Path.stem f = k) as [Hnd1 Hk1].
    { unfold link_step. destruct (Py.dict_get (Path.stem f) links) eqn:E.
      - split; [done |]. intros k. split; [auto |]. intros [? | <-]; [done |].
        destruct (decide (Path.stem f ∈ dict_keys links)) as [? | Hn]; [done |].
        apply dict_get_None in Hn. congruence.
      - split; [by apply dict_set_NoDup |]. intros k. rewrite dict_keys_set.
        apply dict_get_None in E. rewrite bool_decide_eq_false_2 by done.
        rewrite elem_of_app, list_elem_of_singleton. intuition congruence. }
    destruct (IH _ Hnd1) as [Hnd2 Hk2]. split; [done |].
    intros k. rewrite Hk2, Hk1. split.
    + intros [[? | <-] | (g & Hg & <-)]; [by left | right | right].
      * exists f. split; [apply list_elem_of_here | done].
      * exists g. split; [by apply list_elem_of_further | done].
    + intros [? | (g & Hg & <-)]; [by left; left |].
      apply elem_of_cons in Hg as [-> | Hg]; [by left; right |].
      right. by exists g.
Qed.

(** X7.  The link map has one entry for each stem among the workflow files,
    and no two entries with one key.  When several files have one stem, the
    entry is that of the first of them in the list: its value is the path of
    that file below the documentation directory. *)
Theorem build_workflow_links_first_wins (workflow_files : list Path) :
  NoDup (dict_keys (build_workflow_links workflow_files))
  ∧ (∀ k, k ∈ dict_keys (build_workflow_links workflow_files) ↔
          ∃ f, f ∈ workflow_files ∧ Path.stem f = k)
  ∧ (∀ before f after,
       workflow_files = before ++ f :: after →
       Forall (λ g, Path.stem g ≠ Path.stem f) before →
       Py.dict_get (Path.stem f) (build_workflow_links workflow_files)
       = Some ("workflows/" +:+ Path.name f)).
Proof.
  rewrite build_workflow_links_eq.
  destruct (foldl_link_step_keys [] workflow_files) as [Hnd Hk]; [apply NoDup_nil_2 |].
  split; [done |]. split.
  - intros k. rewrite Hk. split; [|auto].
    intros [H | ?]; [by apply elem_of_nil in H | done].
  - intros before f after -> Hbefore. by apply foldl_link_step_first.
Qed.

Lemma build_workflow_links_first_wins_witness :
  Py.dict_get "intro"
    (build_workflow_links [["docs"; "workflows"; "intro.md"];
                           ["docs"; "workflows"; "plots.md"];
                           ["docs"; "workflows"; "intro.markdown"]])
  = Some "workflows/intro.md".
Proof.
  apply (proj2 (proj2 (build_workflow_links_first_wins _))
           [] ["docs"; "workflows"; "intro.md"]
           [["docs"; "workflows"; "plots.md"]; ["docs"; "workflows"; "intro.markdown"]]).
  - reflexivity.
  - constructor.
Defined.

Lemma dict_set_Forall (P : string * string → Prop) k v (d : list (string * string)) :
  Forall P d → P (k, v) → Forall P (Py.dict_set k v d).
Proof.
  intros Hd Hkv. induction Hd as [|[k' v'] d Hx Hd IH]; [by repeat constructor |].
  rewrite dict_set_cons. destruct (String.eqb k' k); by constructor.
Qed.

Lemma collect_related_inner (related_types : list string) (links all_links : list (string * string))
    related_type (related : list (string * string)) :
  related_type ∈ related_types →
  (∀ e, e ∈ links → e ∈ all_links) →
  Forall (related_entry_ok related_types all_links) related ∧ NoDup (dict_keys related) →
  let result :=
    foldl (λ related '(workflow_name, workflow_path),
             if Py.contains related_type (Py.lower workflow_name)
             then Py.dict_set (Py.title (Py.replace_char "_" " " workflow_name))
                    workflow_path related
             else related) related links in
  Forall (related_entry_ok related_types all_links) result ∧ NoDup (dict_keys result).
Proof.
  intros Hty. revert related. induction links as [|[name path] links IH];
    intros related Hsub [Hok Hnd]; [done |].
  cbn [foldl]. apply IH; [intros e He; by apply Hsub, list_elem_of_further |].
  destruct (Py.contains related_type (Py.lower name)) eqn:E; [|done].
  split; [|by apply dict_set_NoDup].
  apply dict_set_Forall; [done |].
  exists name, related_type. split; [apply Hsub, list_elem_of_here | done].
Qed.

(** X8.  For a link map whose workflow names are ASCII, where the case
    mapping of the model is that of Python: every entry that
    [find_related_workflows] collects for a list of related types is the
    title-cased name of a workflow of the link map whose lower-cased name
    holds one of those types, together with the path of that workflow; and no
    title is listed twice. *)
Theorem collect_related_entries (related_types : list string)
    (workflow_links : list (string * string)) :
  Forall (λ link, is_ascii link.1 = true) workflow_links →
  Forall (related_entry_ok related_types workflow_links)
    (collect_related related_types workflow_links)
  ∧ NoDup (dict_keys (collect_related related_types workflow_links)).
Proof.
  intros _. unfold collect_related.
  assert (∀ types related,
            (∀ ty, ty ∈ types → ty ∈ related_types) →
            Forall (related_entry_ok related_types workflow_links) related
            ∧ NoDup (dict_keys related) →
            let result :=
              foldl (λ related related_type,
                       foldl (λ related '(workflow_name, workflow_path),
                                if Py.contains related_type (Py.lower workflow_name)
                                then Py.dict_set
                                       (Py.title (Py.replace_char "_" " " workflow_name))
                                       workflow_path related
                                else related) related workflow_links) related types in
            Forall (related_entry_ok related_types workflow_links) result
            ∧ NoDup (dict_keys result)) as H.
  { induction types as [|ty types IH]; intros related Hsub Hinv; [done |].
    cbn [foldl]. apply IH; [intros t Ht; by apply Hsub, list_elem_of_further |].
    apply (collect_related_inner related_types workflow_links workflow_links ty related);
      [apply Hsub, list_elem_of_here | done | done]. }
  apply (H related_types []); [done |]. split; [constructor | apply NoDup_nil_2].
Qed.

Lemma collect_related_entries_witness :
  collect_related ["visualization"] plain_links
  = [("Visualization Basics", "workflows/visualization_basics.md")]
  ∧ Forall (related_entry_ok ["visualization"] plain_links)
      (collect_related ["visualization"] plain_links).
Proof.
  split; [vm_compute; reflexivity |].
  apply (collect_related_entries ["visualization"] plain_links).
  repeat constructor.
Defined.

Lemma first_key_in_elem (keys : list string) file_str key :
  first_key_in keys file_str = Some key →
  key ∈ keys ∧ Py.contains key file_str = true.
Proof.
  induction keys as [|k keys IH]; [done |].
  change (first_key_in (k :: keys) file_str)
    with (if Py.contains k file_str then Some k else first_key_in keys file_str).
  destruct (Py.contains k file_str) eqn:E.
  - intros [= <-]. split; [apply list_elem_of_here | done].
  - intros H. destruct (IH H). split; [by apply list_elem_of_further | done].
Qed.

Lemma related_for_categories (file_path : Path) (workflow_links : list (string * string)) :
  related_for file_path workflow_links ≠ [] →
  ∃ key, first_key_in workflow_categories.*1 (Path.str file_path) = Some key
         ∧ key ∈ categories_with_relations.
Proof.
  unfold related_for, current_type.
  destruct (first_key_in workflow_categories.*1 (Path.str file_path)) as [key|] eqn:Hk;
    [|done].
  intros Hne. exists key. split; [done |].
  apply first_key_in_elem in Hk as [Hin _].
  cbn [mbind option_bind] in Hne.
  repeat (apply elem_of_cons in Hin as [-> | Hin];
          [first [ exfalso; apply Hne; vm_compute; reflexivity
                 | unfold categories_with_relations; repeat constructor ] |]).
  by apply elem_of_nil in Hin.
Qed.

(** X9.  Cross-reference injection changes a file only when the first
    category key in its path is that of data wrangling, of visualization or
    of species distribution: the other eight keys, cut after their numeric
    prefix, are no keys of the relationship table, so files of those
    categories never get a section. *)
Theorem add_cross_references_three_categories (file_path : Path)
    (workflow_links : list (string * string)) (fs : FS) :
  add_cross_references_to_file file_path workflow_links fs ≠ Some fs →
  ∃ key, first_key_in workflow_categories.*1 (Path.str file_path) = Some key
         ∧ key ∈ categories_with_relations.
Proof.
  rewrite add_cross_references_to_file_eq. intros Hne.
  apply (related_for_categories file_path workflow_links). intros Hr. apply Hne.
  rewrite Hr. destruct (fs !! file_path) as [content|]; [|done].
  by destruct (Py.contains related_header content).
Qed.

Lemma add_cross_references_three_categories_witness :
  ∃ key, first_key_in workflow_categories.*1 (Path.str wrangling_file) = Some key
         ∧ key ∈ categories_with_relations.
Proof.
  apply (add_cross_references_three_categories wrangling_file plain_links wrangling_fs).
  intros H.
  apply (f_equal (λ o : option FS, o ≫= (λ m, m !! wrangling_file))) in H.
  vm_compute in H. discriminate H.
Defined.

End LinkFacts.

(** ** Where the section of related workflows goes *)

Section PlacementFacts.

Lemma last_summary_cons line (rest : list string) :
  last_summary (line :: rest)
  = match last_summary rest with
    | Some i => Some (S i)
    | None => if is_summary_heading line then Some 0 else None
    end.
Proof. reflexivity. Qed.

Lemma last_summary_none (lines : list string) :
  Forall (λ l, is_summary_heading l = false) lines → last_summary lines = None.
Proof.
  induction 1 as [|l lines Hl _ IH]; [done |]. by rewrite last_summary_cons, IH, Hl.
Qed.

Lemma last_summary_app (before : list string) summary (after : list string) :
  is_summary_heading summary = true →
  Forall (λ l, is_summary_heading l = false) after →
  last_summary (before ++ summary :: after) = Some (length before).
Proof.
  intros Hs Hafter. induction before as [|l before IH].
  - cbn [app length]. by rewrite last_summary_cons, last_summary_none, Hs.
  - rewrite <- app_comm_cons, last_summary_cons, IH. reflexivity.
Qed.

(** X10.  When a file without the header has related workflows, the section
    is put right before the last line that opens a second-level heading and
    mentions Summary, all other lines staying as they are and in their order;
    when no line is such a heading, the section is added at the end of the
    text. *)
Theorem add_cross_references_placement (file_path : Path)
    (workflow_links : list (string * string)) (fs : FS) (content : string)
    (entry : string * string) (others : list (string * string)) :
  fs !! file_path = Some content →
  Py.contains related_header content = false →
  related_for file_path workflow_links = entry :: others →
  (∀ before summary after,
     Py.split_nl content = before ++ summary :: after →
     is_summary_heading summary = true →
     Forall (λ line, is_summary_heading line = false) after →
     add_cross_references_to_file file_path workflow_links fs
     = Some (<[file_path :=
                 Py.join Py.nl
                   (before ++ cross_ref_section (entry :: others) :: summary :: after)]> fs))
  ∧ (Forall (λ line, is_summary_heading line = false) (Py.split_nl content) →
     add_cross_references_to_file file_path workflow_links fs
     = Some (<[file_path := content +:+ cross_ref_section (entry :: others)]> fs)).
Proof.
  intros Hc Hh Hr. rewrite add_cross_references_to_file_eq, Hc, Hh, Hr.
  unfold with_cross_references. split.
  - intros before summary after Hsplit Hs Hafter.
    rewrite Hsplit, last_summary_app by done.
    rewrite list_insert_at_take_drop, take_app_length, drop_app_length. reflexivity.
  - intros Hnone. by rewrite last_summary_none.
Qed.

Lemma add_cross_references_placement_witness :
  add_cross_references_to_file wrangling_file plain_links
    {[ wrangling_file := summary_text ]}
  = Some (<[wrangling_file :=
              Py.join Py.nl
                (["# Tidy"; "## Summary of inputs"; "text"]
                 ++ cross_ref_section
                      [("Visualization Basics", "workflows/visualization_basics.md")]
                 :: "## Summary" :: ["end"])]> {[ wrangling_file := summary_text ]})
  ∧ add_cross_references_to_file wrangling_file plain_links wrangling_fs
    = Some (<[wrangling_file :=
                "# Tidy the survey data"
                +:+ cross_ref_section
                      [("Visualization Basics", "workflows/visualization_basics.md")]]>
              wrangling_fs).
Proof.
  split.
  - apply (proj1 (add_cross_references_placement wrangling_file plain_links
                    {[ wrangling_file := summary_text ]} summary_text
                    ("Visualization Basics", "workflows/visualization_basics.md") []
                    (lookup_singleton_eq _ _) eq_refl eq_refl)).
    + vm_compute. reflexivity.
    + reflexivity.
    + repeat constructor.
  - apply (proj2 (add_cross_references_placement wrangling_file plain_links
                    wrangling_fs "# Tidy the survey data"
                    ("Visualization Basics", "workflows/visualization_basics.md") []
                    (lookup_singleton_eq _ _) eq_refl eq_refl)).
    repeat constructor.
Defined.

End PlacementFacts.

(** ** Categories of the index *)

Section CategoryFacts.

(** X11.  Category resolution follows the table: the result is the first
    key, in the order of the table, that occurs in the path, whatever else the
    path holds; only when no key occurs do the keywords of the file name
    decide, and then the result is one of ten categories or 00_other, never
    that of the prompt templates. *)
Theorem determine_category_first_key (file_path : Path) :
  (∀ before key after,
     workflow_categories.*1 = before ++ key :: after →
     Py.contains key (Path.str file_path) = true →
     Forall (λ k, Py.contains k (Path.str file_path) = false) before →
     determine_category file_path = key)
  ∧ (Forall (λ k, Py.contains k (Path.str file_path) = false) workflow_categories.*1 →
     determine_category file_path
     ∈ ["01_data_wrangling"; "02_visualization"; "03_univariate_models";
        "04_multivariate_analysis"; "05_diversity_metrics"; "06_mixed_effects_models";
        "08_spatial_analysis"; "09_species_distribution"; "07_time_series_analysis";
        "10_population_simulation"; "00_other"]).
Proof.
  split.
  - intros before key after Hkeys Hin Hbefore. unfold determine_category.
    by rewrite Hkeys, first_key_in_app, Hin.
  - intros Hnone. unfold determine_category.
    assert (first_key_in workflow_categories.*1 (Path.str file_path) = None) as ->.
    { induction Hnone as [|k keys Hk _ IH]; [done |].
      change (first_key_in (k :: keys) (Path.str file_path))
        with (if Py.contains k (Path.str file_path) then Some k
              else first_key_in keys (Path.str file_path)).
      by rewrite Hk. }
    cbv zeta.
    repeat (match goal with
            | |- (if ?b then _ else _) ∈ _ => destruct b
            end; [repeat constructor |]).
    repeat constructor.
Qed.

Lemma determine_category_first_key_witness :
  determine_category ["docs"; "workflows"; "05_diversity_metrics_for_09_species_distribution.md"]
  = "05_diversity_metrics"
  ∧ determine_category ["docs"; "workflows"; "shannon_index.md"]
    ∈ ["01_data_wrangling"; "02_visualization"; "03_univariate_models";
       "04_multivariate_analysis"; "05_diversity_metrics"; "06_mixed_effects_models";
       "08_spatial_analysis"; "09_species_distribution"; "07_time_series_analysis";
       "10_population_simulation"; "00_other"].
Proof.
  split.
  - apply (proj1 (determine_category_first_key _)
             ["00_agentic_prompt_templates"; "01_data_wrangling"; "02_visualization";
              "03_univariate_models"; "04_multivariate_analysis"]
             "05_diversity_metrics"
             ["06_mixed_effects_models"; "07_time_series_analysis"; "08_spatial_analysis";
              "09_species_distribution"; "10_population_simulation"]).
    + reflexivity.
    + vm_compute. reflexivity.
    + repeat (constructor; [vm_compute; reflexivity |]). constructor.
  - apply (proj2 (determine_category_first_key _)).
    repeat (constructor; [vm_compute; reflexivity |]). constructor.
Defined.

End CategoryFacts.

(** ** The index *)

Section IndexFacts.

Lemma elem_of_insert_sorted (p x : Path) (l : list Path) :
  x ∈ Path.insert_sorted p l ↔ x = p ∨ x ∈ l.
Proof.
  induction l as [|q l IH].
  - cbn [Path.insert_sorted]. rewrite list_elem_of_singleton, elem_of_nil. tauto.
  - cbn [Path.insert_sorted]. destruct (Path.leb p q).
    + by rewrite elem_of_cons.
    + rewrite !elem_of_cons, IH. tauto.
Qed.

Lemma elem_of_sorted (x : Path) (l : list Path) : x ∈ Path.sorted l ↔ x ∈ l.
Proof.
  unfold Path.sorted. induction l as [|p l IH]; [done |].
  cbn [foldr]. by rewrite elem_of_insert_sorted, IH, elem_of_cons.
Qed.

Lemma contains_cons_self sub b : Py.contains sub (sub +:+ b) = true.
Proof.
  destruct sub as [|c sub]; [by destruct b |].
  rewrite string_app_cons, contains_cons, <- string_app_cons, startswith_self. reflexivity.
Qed.

Lemma index_workflow_step_grows (fs : FS) state f :
  ∃ heading,
    (index_workflow_step fs state f).1
    = state.1 +:+ heading +:+ index_link (extract_workflow_title f fs) "workflows/" f.
Proof.
  destruct state as [c cat]. unfold index_workflow_step.
  destruct (bool_decide (Some (determine_category f) = cat)).
  - exists "". reflexivity.
  - exists (Py.nl +:+ "#### "
              +:+ default (determine_category f)
                    (Py.dict_get (determine_category f) workflow_categories)
              +:+ Py.nl +:+ Py.nl).
    cbn [fst]. rewrite !string_app_assoc. reflexivity.
Qed.

Lemma foldl_index_workflow_step (fs : FS) (files : list Path) state :
  ∃ suffix,
    (foldl (index_workflow_step fs) state files).1 = state.1 +:+ suffix
    ∧ ∀ f, f ∈ files →
           Py.contains (index_link (extract_workflow_title f fs) "workflows/" f) suffix
           = true.
Proof.
  revert state. induction files as [|g files IH]; intros state.
  - exists "". split; [by rewrite string_app_empty_r |].
    intros f Hf. by apply elem_of_nil in Hf.
  - cbn [foldl].
    destruct (index_workflow_step_grows fs state g) as (heading & Hg).
    destruct (IH (index_workflow_step fs state g)) as (suffix & Hs & Hin).
    exists (heading +:+ index_link (extract_workflow_title g fs) "workflows/" g +:+ suffix).
    split; [rewrite Hs, Hg; by rewrite !string_app_assoc |].
    intros f [-> | Hf]%elem_of_cons.
    + apply contains_app_r, contains_app_l.
      rewrite <- (string_app_empty_r (index_link _ _ _)) at 2.
      rewrite contains_cons_self. reflexivity.
    + by apply contains_app_r, contains_app_r, Hin.
Qed.

Lemma index_workflow_lines_eq (files : list Path) (fs : FS) (index_content : string) :
  index_workflow_lines files fs index_content
  = (foldl (index_workflow_step fs) (index_content, None) files).1.
Proof. reflexivity. Qed.

Lemma index_plain_lines_grows (prefix : string) (files : list Path) (fs : FS)
    (index_content : string) :
  ∃ suffix,
    index_plain_lines prefix files fs index_content = index_content +:+ suffix
    ∧ ∀ f, f ∈ files →
           Py.contains (index_link (extract_title f fs) prefix f) suffix = true.
Proof.
  unfold index_plain_lines.
  assert (∀ (l : list Path) c,
            ∃ suffix,
              foldl (λ index_content file,
                       index_content +:+ index_link (extract_title file fs) prefix file) c l
              = c +:+ suffix
              ∧ ∀ f, f ∈ l →
                     Py.contains (index_link (extract_title f fs) prefix f) suffix = true)
    as H.
  { induction l as [|g l IH]; intros c.
    - exists "". split; [by rewrite string_app_empty_r |].
      intros f Hf. by apply elem_of_nil in Hf.
    - cbn [foldl]. destruct (IH (c +:+ index_link (extract_title g fs) prefix g))
        as (suffix & Hs & Hin).
      exists (index_link (extract_title g fs) prefix g +:+ suffix).
      split; [rewrite Hs; by rewrite string_app_assoc |].
      intros f [-> | Hf]%elem_of_cons.
      + apply contains_cons_self.
      + by apply contains_app_r, Hin. }
  destruct (H (Path.sorted files) index_content) as (suffix & Hs & Hin).
  exists suffix. split; [exact Hs |].
  intros f Hf. apply Hin. by apply elem_of_sorted.
Qed.

(** X12.  The index starts with the fixed opening and ends with the fixed
    closing block, and between them it has a link line for every file of the
    file map: for every workflow file the line with its workflow title, for
    every example, rule and main file the line with its title, each with the
    path of the file below the documentation directory. *)
Theorem index_links_every_file (file_map : FileMap) (fs : FS) :
  (∃ middle, index_text file_map fs = index_header +:+ middle +:+ index_footer)
  ∧ (∀ f, f ∈ workflows file_map →
          Py.contains (index_link (extract_workflow_title f fs) "workflows/" f)
            (index_text file_map fs) = true)
  ∧ (∀ f, f ∈ examples file_map →
          Py.contains (index_link (extract_title f fs) "examples/" f)
            (index_text file_map fs) = true)
  ∧ (∀ f, f ∈ rules file_map →
          Py.contains (index_link (extract_title f fs) "rules/" f)
            (index_text file_map fs) = true)
  ∧ (∀ f, f ∈ main file_map →
          Py.contains (index_link (extract_title f fs) "" f)
            (index_text file_map fs) = true).
Proof.
  unfold index_text. cbv zeta. rewrite index_workflow_lines_eq.
  destruct (foldl_index_workflow_step fs (Path.sorted (workflows file_map))
              (index_header, None)) as (s1 & -> & H1).
  cbn [fst].
  destruct (index_plain_lines_grows "examples/" (examples file_map) fs
              ((index_header +:+ s1) +:+ index_examples_heading)) as (s2 & -> & H2).
  destruct (index_plain_lines_grows "rules/" (rules file_map) fs
              ((((index_header +:+ s1) +:+ index_examples_heading) +:+ s2)
               +:+ index_rules_heading)) as (s3 & -> & H3).
  destruct (index_plain_lines_grows "" (main file_map) fs
              ((((((index_header +:+ s1) +:+ index_examples_heading) +:+ s2)
                 +:+ index_rules_heading) +:+ s3) +:+ index_main_heading))
    as (s4 & -> & H4).
  rewrite !string_app_assoc.
  split.
  { exists (s1 +:+ index_examples_heading +:+ s2 +:+ index_rules_heading +:+ s3
            +:+ index_main_heading +:+ s4).
    rewrite !string_app_assoc. reflexivity. }
  split; [intros f Hf%elem_of_sorted; by apply contains_app_r, contains_app_l, H1 |].
  split; [intros f Hf; by apply contains_app_r, contains_app_r, contains_app_r,
                                 contains_app_l, H2 |].
  split; [intros f Hf; by do 5 apply contains_app_r; apply contains_app_l, H3 |].
  intros f Hf. do 7 apply contains_app_r. by apply contains_app_l, H4.
Qed.

End IndexFacts.

(** ** The links that validation finds *)

Section LinkSyntax.

Lemma span_until_cons stop c s :
  Py.span_until stop (String c s)
  = if Ascii.eqb c stop then Some ("", s)
    else match Py.span_until stop s with
         | Some (run, rest) => Some (String c run, rest)
         | None => None
         end.
Proof. reflexivity. Qed.

Lemma span_until_spec stop s run rest :
  Py.span_until stop s = Some (run, rest) →
  s = run +:+ String stop rest ∧ Py.contains (String stop "") run = false.
Proof.
  revert run. induction s as [|c s IH]; intros run H; [done |].
  rewrite span_until_cons in H. destruct (Ascii.eqb c stop) eqn:E.
  - apply Ascii.eqb_eq in E. by simplify_eq.
  - destruct (Py.span_until stop s) as [[run' rest']|]; [|done]. simplify_eq.
    destruct (IH run' eq_refl) as [-> Hrun]. split; [done |].
    rewrite contains_cons, Hrun, orb_false_r.
    change (Py.startswith (String stop "") (String c run'))
      with (if Ascii.eqb stop c then true else false).
    rewrite Ascii.eqb_sym. by rewrite E.
Qed.

(** What one match of the link pattern is. *)
Lemma match_link_spec s t u n :
  Py.match_link s = Some (t, u, n) →
  (∃ rest, s = "[" +:+ t +:+ "](" +:+ u +:+ ")" +:+ rest)
  ∧ t ≠ "" ∧ u ≠ ""
  ∧ Py.contains "]" t = false ∧ Py.contains ")" u = false
  ∧ n = String.length t + String.length u + 4.
Proof.
  unfold Py.match_link. destruct s as [|c s1]; [done |].
  destruct (Ascii.eqb c "[") eqn:Ec; [|done]. apply Ascii.eqb_eq in Ec. subst c.
  destruct (Py.span_until "]" s1) as [[[|t0 t'] r1]|] eqn:H1; try done.
  destruct r1 as [|pc s2]; [done |].
  destruct (Ascii.eqb pc "(") eqn:Ep; [|done]. apply Ascii.eqb_eq in Ep. subst pc.
  destruct (Py.span_until ")" s2) as [[[|u0 u'] r2]|] eqn:H2; try done.
  intros [= <- <- <-].
  apply span_until_spec in H1 as [-> Ht]. apply span_until_spec in H2 as [-> Hu].
  split; [exists r2; reflexivity |].
  done.
Qed.

Lemma findall_links_from_cons skip c s :
  Py.findall_links_from skip (String c s)
  = match skip with
    | S k => Py.findall_links_from k s
    | O =>
        match Py.match_link (String c s) with
        | Some (t, u, n) => (t, u) :: Py.findall_links_from (n - 1) s
        | None => Py.findall_links_from 0 s
        end
    end.
Proof. reflexivity. Qed.

Lemma findall_links_from_sound s skip t u :
  (t, u) ∈ Py.findall_links_from skip s →
  Py.contains ("[" +:+ t +:+ "](" +:+ u +:+ ")") s = true
  ∧ t ≠ "" ∧ u ≠ "" ∧ Py.contains "]" t = false ∧ Py.contains ")" u = false.
Proof.
  revert skip. induction s as [|c s IH]; intros skip H; [by apply elem_of_nil in H |].
  rewrite findall_links_from_cons in H.
  assert (∀ k, (t, u) ∈ Py.findall_links_from k s →
               Py.contains ("[" +:+ t +:+ "](" +:+ u +:+ ")") (String c s) = true
               ∧ t ≠ "" ∧ u ≠ "" ∧ Py.contains "]" t = false ∧ Py.contains ")" u = false)
    as Hrest.
  { intros k Hk. destruct (IH k Hk) as [Hc ?]. split; [|done].
    rewrite contains_cons, Hc. apply orb_true_r. }
  destruct skip as [|k]; [|by apply (Hrest k)].
  destruct (Py.match_link (String c s)) as [[[t' u'] n]|] eqn:Hm; [|by apply (Hrest 0)].
  apply elem_of_cons in H as [[= -> ->] | H]; [|by apply (Hrest (n - 1))].
  apply match_link_spec in Hm as ((rest & ->) & ? & ? & ? & ? & _).
  split; [|done].
  rewrite <- !string_app_assoc. apply contains_cons_self.
Qed.

(** X13.  Every link that validation extracts from a text is there: the
    text holds the link text in brackets directly followed by the target in
    parentheses; neither is empty, the link text holds no closing bracket and
    the target no closing parenthesis. *)
Theorem findall_links_sound (content text target : string) :
  (text, target) ∈ Py.findall_links content →
  Py.contains ("[" +:+ text +:+ "](" +:+ target +:+ ")") content = true
  ∧ text ≠ "" ∧ target ≠ ""
  ∧ Py.contains "]" text = false ∧ Py.contains ")" target = false.
Proof. apply findall_links_from_sound. Qed.

Lemma findall_links_sound_witness :
  Py.contains ("[" +:+ "a [nested" +:+ "](" +:+ "b.md" +:+ ")")
    "See [a [nested](b.md) and [empty]() here." = true
  ∧ "a [nested" ≠ "" ∧ "b.md" ≠ ""
  ∧ Py.contains "]" "a [nested" = false ∧ Py.contains ")" "b.md" = false.
Proof.
  apply (findall_links_sound "See [a [nested](b.md) and [empty]() here.").
  vm_compute. apply list_elem_of_here.
Defined.

End LinkSyntax.

(** ** What the run writes and what validation accepts *)

Section RunFacts.

Lemma add_reproduction_badges_other (file_path q : Path) (fs : FS) :
  q ≠ file_path → add_reproduction_badges file_path fs !! q = fs !! q.
Proof.
  intros Hne. unfold add_reproduction_badges.
  destruct (fs !! file_path) as [content|]; [|done].
  destruct (Py.contains badge_sentinel content); [done |].
  by rewrite lookup_insert_ne.
Qed.

Lemma add_badges_to_all_other (workflow_files : list Path) (q : Path) (fs : FS) :
  q ∉ workflow_files → add_badges_to_all workflow_files fs !! q = fs !! q.
Proof.
  revert fs. induction workflow_files as [|f rest IH]; intros fs Hq; [done |].
  apply not_elem_of_cons in Hq as [Hne Hq].
  cbn [add_badges_to_all]. rewrite IH by done. by apply add_reproduction_badges_other.
Qed.

Lemma add_cross_references_to_all_other (workflow_files : list Path)
    (workflow_links : list (string * string)) (q : Path) (fs fs' : FS) :
  add_cross_references_to_all workflow_files workflow_links fs = Some fs' →
  q ∉ workflow_files → fs' !! q = fs !! q.
Proof.
  revert fs. induction workflow_files as [|f rest IH]; intros fs Hrun Hq.
  - cbn in Hrun. by simplify_eq.
  - apply not_elem_of_cons in Hq as [Hne Hq].
    change (add_cross_references_to_all (f :: rest) workflow_links fs)
      with (add_cross_references_to_file f workflow_links fs
              ≫= add_cross_references_to_all rest workflow_links) in Hrun.
    rewrite add_cross_references_to_file_eq in Hrun. cbn [mbind option_bind] in Hrun.
    rewrite (IH _ Hrun Hq).
    destruct (fs !! f) as [content|]; [|done].
    destruct (Py.contains related_header content); [done |].
    destruct (related_for f workflow_links); [done | by rewrite lookup_insert_ne].
Qed.

Lemma index_text_header (file_map : FileMap) (fs : FS) :
  Py.startswith index_header (index_text file_map fs) = true.
Proof.
  unfold index_text. cbv zeta. rewrite index_workflow_lines_eq.
  destruct (foldl_index_workflow_step fs (Path.sorted (workflows file_map))
              (index_header, None)) as (s1 & -> & _).
  cbn [fst].
  destruct (index_plain_lines_grows "examples/" (examples file_map) fs
              ((index_header +:+ s1) +:+ index_examples_heading)) as (s2 & -> & _).
  destruct (index_plain_lines_grows "rules/" (rules file_map) fs
              ((((index_header +:+ s1) +:+ index_examples_heading) +:+ s2)
               +:+ index_rules_heading)) as (s3 & -> & _).
  destruct (index_plain_lines_grows "" (main file_map) fs
              ((((((index_header +:+ s1) +:+ index_examples_heading) +:+ s2)
                 +:+ index_rules_heading) +:+ s3) +:+ index_main_heading))
    as (s4 & -> & _).
  rewrite !string_app_assoc. apply startswith_self.
Qed.

(** X14.  On a plain tree the run completes, for every outcome of the
    linter.  When the run completes, it has written below the documentation
    directory only: every path outside it holds after the run what it held
    before, and the index file exists and starts with the fixed opening. *)
Theorem build_documentation_writes_docs_only (self : DocumentationBuilder)
    (lint : lint_run) (fs : FS) :
  (plain_tree self fs → is_Some (build_documentation self lint fs))
  ∧ ∀ fs' printed,
      build_documentation self lint fs = Some (fs', printed) →
      (∀ q, Path.relative_to (docs_path self) q = None → fs' !! q = fs !! q)
      ∧ ∃ index,
          fs' !! (docs_path self ++ ["README.md"]) = Some index
          ∧ Py.startswith index_header index = true.
Proof.
  split.
  { intros Hp. destruct (build_documentation_plain self lint fs Hp) as (fs' & printed & -> & _).
    by eexists. }
  intros fs' printed Hrun.
  pose proof (build_documentation_files self lint fs) as Hfiles.
  rewrite Hrun in Hfiles. cbn [fmap option_fmap option_map fst] in Hfiles.
  unfold build_files in Hfiles.
  destruct (copy_and_organize_files self fs) as [[fm fs1]|] eqn:Hcopy; [|done].
  pose proof (copy_and_organize_files_returned self fs fs1 fm Hcopy) as (Hlists & _ & Hframe & _).
  cbn [mbind option_bind] in Hfiles.
  unfold create_cross_references in Hfiles.
  destruct (add_cross_references_to_all (workflows fm) (build_workflow_links (workflows fm))
              (add_badges_to_all (workflows fm) fs1)) as [fs2|] eqn:Hcross; [|done].
  cbn [mbind option_bind] in Hfiles.
  unfold generate_index_readme in Hfiles.
  destruct (write_text (docs_path self ++ ["README.md"]) (index_text fm fs2) fs2)
    as [fs3|] eqn:Hwrite; [|done].
  apply write_text_Some in Hwrite. subst fs3.
  cbn [mbind option_bind] in Hfiles.
  destruct (validate_internal_links self fm _); [|done].
  cbn [mbind option_bind] in Hfiles. injection Hfiles as Hfs'. subst fs'.
  split; [|exists (index_text fm fs2); split; [apply lookup_insert_eq | apply index_text_header]].
  intros q Hq.
  assert (q ∉ workflows fm) as Hnot.
  { intros Hin. change (workflows fm) with (list_of ToWorkflows fm) in Hin.
    rewrite Hlists in Hin. apply elem_of_routed_to in Hin as (src & _ & Hr).
    destruct (route_below_docs self src q ToWorkflows [] Hr) as [x Hx].
    rewrite app_nil_r in Hx. congruence. }
  rewrite lookup_insert_ne.
  - rewrite (add_cross_references_to_all_other _ _ _ _ _ Hcross Hnot).
    rewrite add_badges_to_all_other by done. by apply Hframe.
  - intros <-. rewrite relative_to_app in Hq. discriminate Hq.
Qed.

Lemma flat_map_nil_iff {A B} (f : A → list B) (l : list A) :
  flat_map f l = [] ↔ ∀ x, x ∈ l → f x = [].
Proof.
  induction l as [|a l IH]; [split; [intros _ x Hx; by apply elem_of_nil in Hx | done] |].
  cbn [flat_map]. split.
  - intros [Ha Hl]%app_eq_nil x [-> | Hx]%elem_of_cons; [done | by apply IH].
  - intros H. rewrite (H a) by apply list_elem_of_here. cbn [app].
    apply IH. intros x Hx. by apply H, list_elem_of_further.
Qed.

Lemma filter_nil_iff {A} (f : A → bool) (l : list A) :
  List.filter f l = [] ↔ ∀ x, x ∈ l → f x = false.
Proof.
  induction l as [|a l IH]; [split; [intros _ x Hx; by apply elem_of_nil in Hx | done] |].
  cbn [List.filter]. destruct (f a) eqn:E.
  - split; [done |]. intros H. specialize (H a (list_elem_of_here _ _)). congruence.
  - rewrite IH. split.
    + intros H x [-> | Hx]%elem_of_cons; [done | by apply H].
    + intros H x Hx. by apply H, list_elem_of_further.
Qed.

(** X15.  On listed files that exist below the documentation directory,
    validation reports nothing exactly when every link of every listed file
    either has a target that starts with http, or has for target the name of
    a listed file or the path of a listed file relative to the documentation
    directory. *)
Theorem validate_internal_links_clean (self : DocumentationBuilder) (file_map : FileMap)
    (fs : FS) :
  (∀ f, f ∈ all_listed file_map →
        is_Some (fs !! f) ∧ is_Some (Path.relative_to (docs_path self) f)) →
  validate_internal_links self file_map fs = Some []
  ↔ ∀ f link,
      f ∈ all_listed file_map →
      link ∈ Py.findall_links (default "" (fs !! f)) →
      Py.startswith "http" link.2 = true
      ∨ ∃ g relative,
          g ∈ all_listed file_map
          ∧ Path.relative_to (docs_path self) g = Some relative
          ∧ (link.2 = Path.name g ∨ link.2 = Path.str relative).
Proof.
  intros Hok.
  destruct (available_files_total (docs_path self) (all_listed file_map))
    as (available & Hav & Hmem); [intros f Hf; by apply Hok |].
  rewrite (validate_internal_links_eq self file_map fs available);
    [|intros f Hf; by apply Hok | done].
  assert (∀ link, link_is_reported available link = false ↔
                  Py.startswith "http" link.2 = true
                  ∨ ∃ g relative,
                      g ∈ all_listed file_map
                      ∧ Path.relative_to (docs_path self) g = Some relative
                      ∧ (link.2 = Path.name g ∨ link.2 = Path.str relative)) as Hrep.
  { intros link. unfold link_is_reported. rewrite <- Hmem.
    destruct (Py.startswith "http" link.2); [by split; auto |].
    rewrite bool_decide_eq_false. split.
    - intros H. right. by apply dec_stable.
    - intros [? | ?]; [done | auto]. }
  split.
  - intros [= H] f link Hf Hlink. apply Hrep.
    rewrite flat_map_nil_iff in H. specialize (H f Hf).
    apply fmap_nil_inv in H. rewrite filter_nil_iff in H. by apply H.
  - intros H. f_equal. apply flat_map_nil_iff. intros f Hf.
    assert (List.filter (link_is_reported available)
              (Py.findall_links (default "" (fs !! f))) = []) as ->; [|done].
    apply filter_nil_iff. intros link Hlink. apply Hrep. by apply (H f).
Qed.

Lemma validate_internal_links_clean_witness :
  validate_internal_links default_builder linked_pair_map linked_pair_fs = Some []
  ↔ ∀ f link,
      f ∈ all_listed linked_pair_map →
      link ∈ Py.findall_links (default "" (linked_pair_fs !! f)) →
      Py.startswith "http" link.2 = true
      ∨ ∃ g relative,
          g ∈ all_listed linked_pair_map
          ∧ Path.relative_to (docs_path default_builder) g = Some relative
          ∧ (link.2 = Path.name g ∨ link.2 = Path.str relative).
Proof.
  apply (validate_internal_links_clean default_builder linked_pair_map linked_pair_fs).
  intros f Hf. vm_compute in Hf.
  repeat (apply elem_of_cons in Hf as [-> | Hf];
          [split; [vm_compute; by eexists | vm_compute; by eexists] |]).
  by apply elem_of_nil in Hf.
Defined.

End RunFacts.

(** ** Titles of the other files *)

Section TitleFacts.

(** X16.  The title of an example, rule or main file is the text after the
    hash sign and the space of its first top-level heading line, with the
    white space around it removed; a file without such a line, or a missing
    file, gets its title from the file name, which is stated for a stem of
    ASCII characters, where the case mapping of the model is that of
    Python.  A workflow file without a line
    of the Vibe Workflow form or of the Goal form gets the same title from
    both title functions. *)
Theorem extract_title_first_heading (file_path : Path) (fs : FS) :
  (fs !! file_path = None →
   is_ascii (Path.stem file_path) = true →
   extract_title file_path fs = Py.title (Py.replace_char "_" " " (Path.stem file_path)))
  ∧ (∀ content,
       fs !! file_path = Some content →
       (∀ before after Y,
          Py.split_nl content = before ++ ("# " +:+ Y) :: after →
          Y ≠ "" →
          Forall (λ line, Py.line_capture "# " line = None) before →
          extract_title file_path fs = Py.strip Y)
       ∧ (Forall (λ line, Py.line_capture "# " line = None) (Py.split_nl content) →
          is_ascii (Path.stem file_path) = true →
          extract_title file_path fs
          = Py.title (Py.replace_char "_" " " (Path.stem file_path)))
       ∧ (Forall (λ line, Py.line_capture "# Vibe Workflow: " line = None
                          ∧ Py.line_capture "**Goal:** " line = None)
            (Py.split_nl content) →
          extract_workflow_title file_path fs = extract_title file_path fs)).
Proof.
  unfold extract_title, extract_workflow_title, title_patterns. split.
  - by intros -> _.
  - intros content ->. split; [|split].
    + intros before after Y Hsplit HY Hbefore.
      rewrite first_pattern_match_cons. unfold Py.re_search_line.
      rewrite Hsplit, (first_capture_app _ _ _ _ Hbefore), first_capture_cons.
      by rewrite (line_capture_app _ _ HY).
    + intros Hnone _. rewrite first_pattern_match_cons. unfold Py.re_search_line.
      by rewrite (first_capture_none _ _ Hnone).
    + intros Hnone. rewrite (first_pattern_match_cons "# Vibe Workflow: ").
      rewrite (first_pattern_match_cons "**Goal:** "). unfold Py.re_search_line.
      rewrite !first_capture_none; [done | |];
        (eapply Forall_impl; [exact Hnone |]); by intros l [? ?].
Qed.

Lemma extract_title_first_heading_witness :
  extract_title guide_file ∅ = "Style Guide"
  ∧ extract_title guide_file {[ guide_file := guide_text ]} = Py.strip " House style  "
  ∧ extract_workflow_title guide_file {[ guide_file := guide_text ]}
    = extract_title guide_file {[ guide_file := guide_text ]}.
Proof.
  split.
  { change "Style Guide" with (Py.title (Py.replace_char "_" " " (Path.stem guide_file))).
    apply (extract_title_first_heading guide_file ∅); [apply lookup_empty | reflexivity]. }
  destruct (proj2 (extract_title_first_heading guide_file {[ guide_file := guide_text ]})
              guide_text (lookup_singleton_eq _ _)) as (Hfirst & _ & Hsame).
  split.
  - apply (Hfirst ["Intro"] ["# Second"] " House style  ").
    + vm_compute. reflexivity.
    + done.
    + repeat (constructor; [vm_compute; reflexivity |]). constructor.
  - apply Hsame. vm_compute.
    repeat (constructor; [split; reflexivity |]). constructor.
Defined.

End TitleFacts.

(** ** The two rewriting steps over all the workflow files *)

Section StepFacts.

Lemma add_reproduction_badges_alter (file_path : Path) (fs : FS) :
  add_reproduction_badges file_path fs = alter badged file_path fs.
Proof.
  unfold add_reproduction_badges. apply map_eq. intros q.
  destruct (decide (file_path = q)) as [<- | Hne].
  - rewrite lookup_alter_eq. destruct (fs !! file_path) as [content|] eqn:Hc; [|done].
    cbn [fmap option_fmap option_map]. unfold badged.
    destruct (Py.contains badge_sentinel content); [done | by rewrite lookup_insert_eq].
  - rewrite lookup_alter_ne by done. destruct (fs !! file_path) as [content|]; [|done].
    destruct (Py.contains badge_sentinel content); [done | by rewrite lookup_insert_ne].
Qed.

Lemma badged_idempotent content : badged (badged content) = badged content.
Proof.
  unfold badged. destruct (Py.contains badge_sentinel content) eqn:E; [by rewrite E |].
  destruct (with_badges_settled content) as [H | H]; [by rewrite H |].
  destruct (Py.contains badge_sentinel (with_badges content)); done.
Qed.

Lemma add_cross_references_to_file_alter (file_path : Path)
    (workflow_links : list (string * string)) (fs : FS) :
  add_cross_references_to_file file_path workflow_links fs
  = Some (alter (cross_referenced workflow_links file_path) file_path fs).
Proof.
  rewrite add_cross_references_to_file_eq. f_equal.
  apply map_eq. intros q. destruct (decide (file_path = q)) as [<- | Hne].
  - rewrite lookup_alter_eq. destruct (fs !! file_path) as [content|] eqn:Hc; [|done].
    cbn [fmap option_fmap option_map]. unfold cross_referenced.
    destruct (Py.contains related_header content); [done |].
    destruct (related_for file_path workflow_links); [done | by rewrite lookup_insert_eq].
  - rewrite lookup_alter_ne by done. destruct (fs !! file_path) as [content|]; [|done].
    destruct (Py.contains related_header content); [done |].
    destruct (related_for file_path workflow_links); [done | by rewrite lookup_insert_ne].
Qed.

Lemma cross_referenced_idempotent workflow_links file_path content :
  cross_referenced workflow_links file_path
    (cross_referenced workflow_links file_path content)
  = cross_referenced workflow_links file_path content.
Proof.
  unfold cross_referenced. destruct (Py.contains related_header content) eqn:E;
    [by rewrite E |].
  destruct (related_for file_path workflow_links) as [|e r]; [by rewrite E |].
  by rewrite contains_with_cross_references.
Qed.

(** A pass of per-file rewritings over a list of files, each an [alter] with
    an idempotent function, is idempotent as a whole. *)
Lemma alter_pass_idempotent (h : Path → string → string) (files : list Path) (fs : FS) :
  (∀ p c, h p (h p c) = h p c) →
  foldl (λ m p, alter (h p) p m) (foldl (λ m p, alter (h p) p m) fs files) files
  = foldl (λ m p, alter (h p) p m) fs files.
Proof.
  intros Hh.
  assert (∀ (l : list Path) (m : FS) q,
            foldl (λ m p, alter (h p) p m) m l !! q
            = (if decide (q ∈ l) then h q <$> m !! q else m !! q)) as Hlookup.
  { induction l as [|p l IH]; intros m q; [done |].
    cbn [foldl]. rewrite IH.
    destruct (decide (p = q)) as [-> | Hne].
    - rewrite (decide_True (P := q ∈ q :: l)) by apply list_elem_of_here.
      rewrite lookup_alter_eq.
      destruct (decide (q ∈ l)); [|done].
      destruct (m !! q); [|done]. cbn. by rewrite Hh.
    - rewrite lookup_alter_ne by done.
      destruct (decide (q ∈ l)) as [Hin | Hnin].
      + by rewrite (decide_True (P := q ∈ p :: l)) by (by apply list_elem_of_further).
      + rewrite (decide_False (P := q ∈ p :: l)); [done |].
        intros [? | ?]%elem_of_cons; congruence. }
  apply map_eq. intros q. rewrite !Hlookup.
  destruct (decide (q ∈ files)); [|done].
  destruct (fs !! q); [|done]. cbn. by rewrite Hh.
Qed.

Lemma add_badges_to_all_alter (workflow_files : list Path) (fs : FS) :
  add_badges_to_all workflow_files fs
  = foldl (λ m p, alter badged p m) fs workflow_files.
Proof.
  revert fs. induction workflow_files as [|f rest IH]; intros fs; [done |].
  cbn [add_badges_to_all foldl]. by rewrite IH, add_reproduction_badges_alter.
Qed.

Lemma add_cross_references_to_all_alter (workflow_files : list Path)
    (workflow_links : list (string * string)) (fs : FS) :
  add_cross_references_to_all workflow_files workflow_links fs
  = Some (foldl (λ m p, alter (cross_referenced workflow_links p) p m) fs workflow_files).
Proof.
  revert fs. induction workflow_files as [|f rest IH]; intros fs; [done |].
  change (add_cross_references_to_all (f :: rest) workflow_links fs)
    with (add_cross_references_to_file f workflow_links fs
            ≫= add_cross_references_to_all rest workflow_links).
  rewrite add_cross_references_to_file_alter. cbn [mbind option_bind foldl]. apply IH.
Qed.

(** X17.  The badge step of the run, over all the workflow files of a file
    map and whatever files are listed more than once, is idempotent: a second
    pass leaves every file as the first pass left it. *)
Theorem add_badges_to_all_idempotent (workflow_files : list Path) (fs : FS) :
  add_badges_to_all workflow_files (add_badges_to_all workflow_files fs)
  = add_badges_to_all workflow_files fs.
Proof.
  rewrite !add_badges_to_all_alter.
  apply (alter_pass_idempotent (λ _, badged)). intros _ c. apply badged_idempotent.
Qed.

(** X18.  The cross-reference step of the run always returns, and it is
    idempotent over a whole file map: a second pass, which builds the same
    link map, leaves every file as the first pass left it. *)
Theorem create_cross_references_idempotent (file_map : FileMap) (fs : FS) :
  ∃ fs1,
    create_cross_references file_map fs = Some fs1
    ∧ create_cross_references file_map fs1 = Some fs1.
Proof.
  unfold create_cross_references. rewrite add_cross_references_to_all_alter.
  eexists. split; [reflexivity |].
  rewrite add_cross_references_to_all_alter. f_equal.
  apply (alter_pass_idempotent
           (cross_referenced (build_workflow_links (workflows file_map)))).
  intros p c. apply cross_referenced_idempotent.
Qed.

End StepFacts.

(** ** Instances on sample inputs *)

Section Instances.

Lemma copy_and_organize_files_lists_witness :
  ∃ file_map fs',
    copy_and_organize_files default_builder two_readmes = Some (file_map, fs')
    ∧ list_of ToWorkflows file_map
      = [["docs"; "workflows"; "README.md"]; ["docs"; "workflows"; "README.md"]]
    ∧ ∃ src, src ∈ find_all_markdown_files default_builder two_readmes
             ∧ ["docs"; "workflows"; "README.md"]
               = directory_of default_builder ToWorkflows ++ [Path.name src].
Proof.
  destruct (copy_and_organize_files_plain default_builder two_readmes)
    as (fm & fs' & Hrun & _); [plain_tree_by_computation |].
  destruct (copy_and_organize_files_lists default_builder two_readmes fs' fm Hrun)
    as (Hlists & Hdir & _).
  exists fm, fs'. split; [exact Hrun |]. split.
  - rewrite Hlists. vm_compute. reflexivity.
  - apply Hdir. rewrite Hlists. vm_compute. apply list_elem_of_here.
Defined.

Lemma copy_and_organize_files_keeps_sources_witness :
  ∃ file_map fs',
    copy_and_organize_files default_builder two_readmes = Some (file_map, fs')
    ∧ fs' !! ["workflows"; "01_data_wrangling"; "README.md"]
      = two_readmes !! ["workflows"; "01_data_wrangling"; "README.md"].
Proof.
  destruct (copy_and_organize_files_plain default_builder two_readmes)
    as (fm & fs' & Hrun & _); [plain_tree_by_computation |].
  destruct (copy_and_organize_files_keeps_sources default_builder two_readmes fs' fm Hrun)
    as (Hframe & _).
  exists fm, fs'. split; [exact Hrun |]. apply Hframe. reflexivity.
Defined.

Lemma copy_and_organize_files_verbatim_witness :
  ∃ file_map fs',
    copy_and_organize_files default_builder two_readmes = Some (file_map, fs')
    ∧ ∃ src k content,
        src ∈ find_all_markdown_files default_builder two_readmes
        ∧ route default_builder src = Some (k, ["docs"; "workflows"; "README.md"])
        ∧ Path.name ["docs"; "workflows"; "README.md"] = Path.name src
        ∧ two_readmes !! src = Some content
        ∧ fs' !! ["docs"; "workflows"; "README.md"] = Some content.
Proof.
  destruct (copy_and_organize_files_verbatim default_builder two_readmes)
    as (fm & fs' & Hrun & Hcontent);
    [plain_tree_by_computation |].
  pose proof (copy_and_organize_files_returned default_builder two_readmes fs' fm Hrun)
    as (Hlists & _).
  exists fm, fs'. split; [exact Hrun |].
  apply Hcontent. apply elem_of_all_listed. exists ToWorkflows.
  rewrite Hlists. vm_compute. apply list_elem_of_here.
Defined.

Lemma index_links_every_file_witness :
  Py.contains
    (index_link (extract_workflow_title linked_file broken_link_fs) "workflows/" linked_file)
    (index_text linked_map broken_link_fs) = true.
Proof.
  apply (proj1 (proj2 (index_links_every_file linked_map broken_link_fs))).
  apply list_elem_of_here.
Defined.

Lemma build_documentation_writes_docs_only_witness :
  ∃ fs' printed,
    build_documentation default_builder ToolNotFound minimal_tree = Some (fs', printed)
    ∧ fs' !! ["workflows"; "01_data_wrangling"; "intro.md"]
      = minimal_tree !! ["workflows"; "01_data_wrangling"; "intro.md"].
Proof.
  destruct (build_documentation_writes_docs_only default_builder ToolNotFound minimal_tree)
    as [Htotal Hframe].
  destruct Htotal as [[fs' printed] Hrun];
    [plain_tree_by_computation |].
  exists fs', printed. split; [exact Hrun |].
  apply (Hframe fs' printed Hrun). reflexivity.
Defined.

End Instances.
